(** * TAXGROK_AI: document intake, extraction and what-if scenarios

    A shallow embedding of the TypeScript sources

    - the upload route           ([Upload], [determineDocumentType]),
    - the document-AI service    ([DocumentAI]),
    - the process route          ([Process], [processWithLLM]),
    - the what-if component      ([WhatIf]),
    - the document processor component ([DocumentProcessor]),

    followed by the properties proved about them.

    Modelling conventions.

    - A JavaScript string is a [string] of Latin-1 code units; the
      operations below ([toLowerCase], [trim], [substring], [includes], ...)
      are the ECMAScript ones restricted to that range.
    - A JavaScript number is the rational ([Q]) a double stands for; the
      additions, subtractions and divisions of the code round to the
      nearest double, ties to even ([Double.round]); [NaN] and the
      infinities are outside the model.
    - A JavaScript value that may be [undefined] is an [option]; a value of
      type [any] is a [js].
    - Code that can throw returns a [result]; the route handlers, which
      also write to the database, the file system and the response stream,
      run in the monad [M] over a [World].
    - Whether a call to the session, to the database or to the providers
      fails, and when the consumer of the response stream cancels it, is
      given with the request. *)

From Stdlib Require Import String Ascii List ZArith NArith QArith Lia Bool.
From Stdlib Require Import Qround Lqa.
From Stdlib Require Import DecimalString.
From stdpp Require Import base option list strings gmap.
Import ListNotations.

Open Scope string_scope.

(* let [simpl] compute string concatenation *)
#[local] Arguments String.append !_ _ : simpl nomatch.

(* ===================================================================== *)
(** * JavaScript strings                                                  *)
(* ===================================================================== *)

Module JsString.

Definition in_range (lo hi : N) (c : ascii) : bool :=
  let n := N_of_ascii c in (lo <=? n)%N && (n <=? hi)%N.

(** [A-Z], and the upper-case letters of the Latin-1 supplement
    (U+00C0..U+00DE without the multiplication sign U+00D7). *)
Definition is_upper (c : ascii) : bool :=
  in_range 65 90 c
  || (in_range 192 222 c && negb (N_of_ascii c =? 215)%N).

Definition toLowerCase_char (c : ascii) : ascii :=
  if is_upper c then ascii_of_N (N_of_ascii c + 32) else c.

(** [s.toLowerCase()] *)
Fixpoint toLowerCase (s : string) : string :=
  match s with
  | EmptyString => EmptyString
  | String c rest => String (toLowerCase_char c) (toLowerCase rest)
  end.

(** the character class [[a-zA-Z0-9]] *)
Definition is_alnum (c : ascii) : bool :=
  in_range 97 122 c || in_range 65 90 c || in_range 48 57 c.

(** [s.replace(/[^a-zA-Z0-9]/g, '')] *)
Fixpoint strip_non_alnum (s : string) : string :=
  match s with
  | EmptyString => EmptyString
  | String c rest =>
      if is_alnum c then String c (strip_non_alnum rest)
      else strip_non_alnum rest
  end.

(** [s.includes(search)] *)
Fixpoint includes (s search : string) : bool :=
  String.prefix search s
  || match s with
     | EmptyString => false
     | String _ rest => includes rest search
     end.

(** White space and line terminators below U+0100. *)
Definition is_space (c : ascii) : bool :=
  in_range 9 13 c || (N_of_ascii c =? 32)%N || (N_of_ascii c =? 160)%N.

Fixpoint trimStart (s : string) : string :=
  match s with
  | EmptyString => EmptyString
  | String c rest => if is_space c then trimStart rest else s
  end.

Fixpoint trimEnd (s : string) : string :=
  match s with
  | EmptyString => EmptyString
  | String c rest =>
      let rest' := trimEnd rest in
      if is_space c && String.eqb rest' EmptyString then EmptyString
      else String c rest'
  end.

(** [s.trim()] *)
Definition trim (s : string) : string := trimEnd (trimStart s).

(** [s.substring(indexStart, indexEnd)]: both indices are clamped to the
    length and swapped when they come in the wrong order. *)
Definition substring (s : string) (indexStart indexEnd : N) : string :=
  let len := N.of_nat (String.length s) in
  let a := N.min indexStart len in
  let b := N.min indexEnd len in
  let lo := N.min a b in
  let hi := N.max a b in
  String.substring (N.to_nat lo) (N.to_nat (hi - lo)) s.

(** [s.slice(i, j)] for [0 <= i <= j] *)
Definition slice (s : string) (i j : nat) : string :=
  String.substring i (Nat.min j (String.length s) - i) s.

(** [s.split('.').pop()]: the part after the last dot, the whole string
    when it has none. *)
Fixpoint after_last_dot (s : string) : string :=
  match s with
  | EmptyString => EmptyString
  | String c rest =>
      if includes rest "." then after_last_dot rest
      else if Ascii.eqb c "."%char then rest
      else s
  end.

(** [String(n)] for a natural number *)
Definition of_N (n : N) : string := NilEmpty.string_of_uint (N.to_uint n).

End JsString.

(* ===================================================================== *)
(** * JavaScript numbers                                                  *)
(* ===================================================================== *)

(** Doubles (IEEE 754 binary64) as the rationals they stand for. *)
Module Double.

Definition precision : Z := 53.
Definition least_exponent : Z := (-1074)%Z.

(** [2 ^ e] *)
Definition pow2 (e : Z) : Q :=
  if (0 <=? e)%Z then inject_Z (2 ^ e) else 1 # Z.to_pos (2 ^ (- e)).

(** The nearest integer, the even one of two that are equally near. *)
Definition nearest_even (q : Q) : Z :=
  let f := Qfloor q in
  match Qcompare (q - inject_Z f) (1 # 2) with
  | Lt => f
  | Gt => (f + 1)%Z
  | Eq => if Z.even f then f else (f + 1)%Z
  end.

(** For [0 < x], the exponent of the last place of the doubles around
    [x]: [floor (log2 x) - 52], and [-1074] among the subnormal numbers. *)
Definition exponent (x : Q) : Z :=
  let magnitude :=
    if Qle_bool 1 x then Z.log2 (Qfloor x)
    else (- Z.log2_up (Qceiling (/ x)))%Z in
  Z.max least_exponent (magnitude - (precision - 1)).

Definition round_positive (x : Q) : Q :=
  let e := exponent x in
  (inject_Z (nearest_even (x / pow2 e)) * pow2 e)%Q.

(** The double nearest to [x], ties to even; also the value of the
    numeric literal that denotes [x]. *)
Definition round (x : Q) : Q :=
  Qred match Qcompare x 0 with
       | Eq => 0%Q
       | Gt => round_positive x
       | Lt => (- round_positive (- x))%Q
       end.

(** [x + y], [x - y] and [x / y] *)
Definition add (x y : Q) : Q := round (x + y).
Definition sub (x y : Q) : Q := round (x - y).
Definition div (x y : Q) : Q := round (x / y).

End Double.

(* ===================================================================== *)
(** * JavaScript values, exceptions                                       *)
(* ===================================================================== *)

(** A value of type [any]: what [JSON.parse] can produce, and [undefined]. *)
#[warnings="-register-all"]
Inductive js : Type :=
  | JUndefined
  | JNull
  | JBool (b : bool)
  | JNum (n : Q)
  | JStr (s : string)
  | JArr (items : list js)
  | JObj (props : list (string * js)).

(** What a [throw] carries, or what a rejected promise is rejected with. *)
Inductive exn : Type :=
  | Error (message : string)        (* [new Error(message)] *)
  | TypeError (message : string)    (* raised by the runtime *)
  | SyntaxError (message : string)  (* raised by [JSON.parse] *)
  | Rejected (reason : string).     (* failure of an external service *)

Inductive result (A : Type) : Type :=
  | Ok (a : A)
  | Throw (e : exn).
Arguments Ok {A} a.
Arguments Throw {A} e.

Module Js.

(** [!!v] *)
Definition truthy (v : js) : bool :=
  match v with
  | JUndefined | JNull => false
  | JBool b => b
  | JNum n => negb (Qeq_bool n 0)
  | JStr s => negb (String.eqb s EmptyString)
  | JArr _ | JObj _ => true
  end.

(** [a || b] *)
Definition or (a b : js) : js := if truthy a then a else b.

(** [!!s] for [s : string | undefined] *)
Definition truthy_str (s : option string) : bool :=
  match s with
  | Some s => negb (String.eqb s EmptyString)
  | None => false
  end.

(** An object as an ordered list of own properties (insertion order,
    which is the order of [Object.entries]). *)
Definition object : Type := list (string * js).

Fixpoint get (o : object) (key : string) : option js :=
  match o with
  | [] => None
  | (k, v) :: rest => if String.eqb k key then Some v else get rest key
  end.

(** [o[key] = v]: an existing property keeps its place. *)
Fixpoint set (o : object) (key : string) (v : js) : object :=
  match o with
  | [] => [(key, v)]
  | (k, v0) :: rest =>
      if String.eqb k key then (k, v) :: rest
      else (k, v0) :: set rest key v
  end.

Definition keys (o : object) : list string := map fst o.

(** [v.key]; reading a property of [undefined] or [null] throws. *)
Definition prop (v : js) (key : string) : result js :=
  match v with
  | JUndefined | JNull =>
      Throw (TypeError ("Cannot read properties of undefined (reading '"
                          +:+ key +:+ "')"))
  | JObj o => Ok (default JUndefined (get o key))
  | _ => Ok JUndefined
  end.

(** [v?.key] *)
Definition opt_prop (v : js) (key : string) : js :=
  match v with
  | JObj o => default JUndefined (get o key)
  | _ => JUndefined
  end.

(** [v[0]] *)
Definition index0 (v : js) : result js :=
  match v with
  | JUndefined | JNull =>
      Throw (TypeError "Cannot read properties of undefined (reading '0')")
  | JArr items => Ok (hd JUndefined items)
  | JStr (String c _) => Ok (JStr (String c EmptyString))
  | JObj o => Ok (default JUndefined (get o "0"))
  | _ => Ok JUndefined
  end.

End Js.

(* ===================================================================== *)
(** * The persistent store and the monad of the route handlers            *)
(* ===================================================================== *)

Inductive ProcessingStatus : Type := PENDING | PROCESSING | COMPLETED | FAILED.

Record User : Type := { user_id : string; user_email : string }.

Record TaxReturn : Type := { taxReturn_id : string; taxReturn_userId : string }.

(** The result of an extraction, [ExtractedTaxData] of the service. *)
Record ExtractedTaxData : Type := {
  etd_documentType : js;
  etd_ocrText : js;
  etd_extractedData : js;
  etd_confidence : Q
}.

(** A row of the [document] table. *)
Record Document : Type := {
  id : string;
  taxReturnId : string;
  fileName : string;
  fileType : string;
  fileSize : N;
  filePath : string;
  documentType : string;
  processingStatus : ProcessingStatus;
  ocrText : option js;
  extractedData : option ExtractedTaxData
}.

(** What a handler did to the outside, in order. [DocumentUpdated] records
    the status an update writes and the extraction it stores, if any. *)
Inductive Event : Type :=
  | DirectoryMade (path : string)
  | FileWritten (path : string)
  | DocumentCreated (id : string) (status : ProcessingStatus)
  | DocumentUpdated (id : string) (status : ProcessingStatus)
                    (data : option ExtractedTaxData)
  | PrimaryInvoked (documentType : string)
  | SecondaryInvoked (documentType : string)
  | Logged (message : string).

Record World : Type := {
  users : gmap string User;          (* by e-mail, which is unique *)
  taxReturns : gmap string TaxReturn;
  documents : gmap string Document;
  files : gmap string string;        (* path to content *)
  enqueued : list string;            (* the response stream being produced *)
  trace : list Event
}.

Definition M (A : Type) : Type := World -> result A * World.

Definition ret {A} (a : A) : M A := fun w => (Ok a, w).

Definition throw {A} (e : exn) : M A := fun w => (Throw e, w).

Definition bind {A B} (m : M A) (k : A -> M B) : M B :=
  fun w =>
    match m w with
    | (Ok a, w') => k a w'
    | (Throw e, w') => (Throw e, w')
    end.

(** [try { body } catch (e) { handler e }] *)
Definition try_catch {A} (body : M A) (handler : exn -> M A) : M A :=
  fun w =>
    match body w with
    | (Ok a, w') => (Ok a, w')
    | (Throw e, w') => handler e w'
    end.

Definition lift {A} (r : result A) : M A := fun w => (r, w).

Definition get_world : M World := fun w => (Ok w, w).

Definition with_trace (t : list Event) (w : World) : World :=
  {| users := users w; taxReturns := taxReturns w; documents := documents w;
     files := files w; enqueued := enqueued w; trace := t |}.

Definition with_documents (d : gmap string Document) (w : World) : World :=
  {| users := users w; taxReturns := taxReturns w; documents := d;
     files := files w; enqueued := enqueued w; trace := trace w |}.

Definition with_files (f : gmap string string) (w : World) : World :=
  {| users := users w; taxReturns := taxReturns w; documents := documents w;
     files := f; enqueued := enqueued w; trace := trace w |}.

Definition with_enqueued (l : list string) (w : World) : World :=
  {| users := users w; taxReturns := taxReturns w; documents := documents w;
     files := files w; enqueued := l; trace := trace w |}.

Definition with_state (d : gmap string Document) (l : list string)
    (t : list Event) (w : World) : World :=
  {| users := users w; taxReturns := taxReturns w; documents := d;
     files := files w; enqueued := l; trace := t |}.

Definition emit (e : Event) : M unit :=
  fun w => (Ok tt, with_trace (trace w ++ [e]) w).

Definition set_documents (d : gmap string Document) : M unit :=
  fun w => (Ok tt, with_documents d w).

Definition set_files (f : gmap string string) : M unit :=
  fun w => (Ok tt, with_files f w).

Definition set_enqueued (l : list string) : M unit :=
  fun w => (Ok tt, with_enqueued l w).

Declare Scope handler_scope.
Delimit Scope handler_scope with handler.
Notation "'let*' x ':=' m 'in' k" := (bind m (fun x => k))
  (at level 20, x name, m at level 100, k at level 200, only parsing)
  : handler_scope.
Notation "m ';;' k" := (bind m (fun _ => k))
  (at level 100, k at level 200, only parsing, right associativity)
  : handler_scope.

(** What the client receives. *)
Inductive StreamEnd : Type :=
  | Closed                  (* [controller.close()] *)
  | Errored                 (* [controller.error(e)]: the body is cut short *)
  | Cancelled.              (* the consumer has cancelled the stream *)

Inductive Body : Type :=
  | ErrorBody (error : string)   (* [{ error: ... }] *)
  | DocumentBody (d : Document).

Inductive Response : Type :=
  | JsonResponse (status : N) (body : Body)
  | StreamResponse (status : N) (events : list string) (ending : StreamEnd).

Module Prisma.
Open Scope handler_scope.

(** [prisma.user.findUnique({ where: { email } })] *)
Definition user_findUnique (email : string) : M (option User) :=
  fun w => (Ok (users w !! email), w).

(** [prisma.taxReturn.findFirst({ where: { id, userId } })] *)
Definition taxReturn_findFirst (id userId : string) : M (option TaxReturn) :=
  fun w =>
    (Ok (match taxReturns w !! id with
         | Some t => if String.eqb (taxReturn_userId t) userId
                     then Some t else None
         | None => None
         end), w).

(** [prisma.document.findFirst({ where: { id, taxReturn: { userId } } })] *)
Definition document_findFirst (id userId : string) : M (option Document) :=
  fun w =>
    (Ok (match documents w !! id with
         | Some d =>
             match taxReturns w !! taxReturnId d with
             | Some t => if String.eqb (taxReturn_userId t) userId
                         then Some d else None
             | None => None
             end
         | None => None
         end), w).

Definition with_status (s : ProcessingStatus) (d : Document) : Document :=
  {| id := id d; taxReturnId := taxReturnId d; fileName := fileName d;
     fileType := fileType d; fileSize := fileSize d; filePath := filePath d;
     documentType := documentType d; processingStatus := s;
     ocrText := ocrText d; extractedData := extractedData d |}.

Definition with_extraction (e : ExtractedTaxData) (d : Document) : Document :=
  {| id := id d; taxReturnId := taxReturnId d; fileName := fileName d;
     fileType := fileType d; fileSize := fileSize d; filePath := filePath d;
     documentType := documentType d; processingStatus := COMPLETED;
     ocrText := Some (etd_ocrText e); extractedData := Some e |}.

(** [prisma.document.update({ where: { id }, data })] rejects when no row
    has that id. *)
Definition document_update (i : string) (f : Document -> Document)
    (e : Event) : M unit :=
  let* w := get_world in
  match documents w !! i with
  | Some d => set_documents (<[i := f d]> (documents w)) ;; emit e
  | None => throw (Rejected "Record to update not found.")
  end.

Definition document_set_status (i : string) (s : ProcessingStatus) : M unit :=
  document_update i (with_status s) (DocumentUpdated i s None).

End Prisma.

Module Fs.
(** [readFile(path)] rejects when the path names no file. *)
Definition readFile (path : string) : M string :=
  fun w =>
    match files w !! path with
    | Some data => (Ok data, w)
    | None => (Throw (Rejected "ENOENT: no such file or directory"), w)
    end.
End Fs.

(* ===================================================================== *)
(** * The upload route                                                    *)
(* ===================================================================== *)

Module Upload.
Import JsString.
Open Scope handler_scope.

(** The [File] of the multipart body. *)
Record File : Type := {
  name : string;
  type : string;
  size : N;
  content : string
}.

(** One request, with the answers of the collaborators the handler
    calls: the session lookup, the multipart parser, the identifier
    generators, and the outcome of the two file-system calls and of the
    insert. *)
Record Request : Type := {
  session_email : option string;     (* [session?.user?.email] *)
  form_file : option File;           (* [formData.get('file')] *)
  form_taxReturnId : option string;  (* [formData.get('taxReturnId')] *)
  uuid : string;                     (* [uuidv4()] *)
  fresh_id : string;                 (* the id the insert assigns *)
  mkdir_outcome : result unit;
  writeFile_outcome : result unit;
  create_outcome : result unit
}.

Definition allowedTypes : list string :=
  ["application/pdf"; "image/png"; "image/jpeg"; "image/tiff"].

(** [allowedTypes.includes(t)] *)
Definition array_includes (l : list string) (t : string) : bool :=
  existsb (String.eqb t) l.

Definition size_limit : N := 10 * 1024 * 1024.

Definition determineDocumentType (fileName : string) : string :=
  let lowerName := toLowerCase fileName in
  if includes lowerName "w-2" || includes lowerName "w2" then "W2"
  else if includes lowerName "1099-int" then "FORM_1099_INT"
  else if includes lowerName "1099-div" then "FORM_1099_DIV"
  else if includes lowerName "1099-misc" then "FORM_1099_MISC"
  else if includes lowerName "1099-nec" then "FORM_1099_NEC"
  else if includes lowerName "1099-r" then "FORM_1099_R"
  else if includes lowerName "1099-g" then "FORM_1099_G"
  else if includes lowerName "1099" then "OTHER_TAX_DOCUMENT"
  else "UNKNOWN".

Definition mkdir (path : string) (outcome : result unit) : M unit :=
  lift outcome ;; emit (DirectoryMade path).

Definition writeFile (path data : string) (outcome : result unit) : M unit :=
  lift outcome ;;
  (let* w := get_world in set_files (<[path := data]> (files w))) ;;
  emit (FileWritten path).

(** [prisma.document.create({ data })] *)
Definition document_create (d : Document) (outcome : result unit)
    : M Document :=
  lift outcome ;;
  (let* w := get_world in set_documents (<[id d := d]> (documents w))) ;;
  emit (DocumentCreated (id d) (processingStatus d)) ;;
  ret d.

Definition error_response (status : N) (message : string) : M Response :=
  ret (JsonResponse status (ErrorBody message)).

Definition POST (request : Request) : M Response :=
  try_catch
    (match session_email request with
     | None => error_response 401 "Unauthorized"
     | Some email =>
     if String.eqb email "" then error_response 401 "Unauthorized" else
     let* user := Prisma.user_findUnique email in
     match user with
     | None => error_response 404 "User not found"
     | Some user =>
     match form_file request, form_taxReturnId request with
     | Some file, Some taxReturnId =>
       if String.eqb taxReturnId "" then
         error_response 400 "Missing file or tax return ID"
       else
       (* Verify the tax return belongs to the user *)
       let* taxReturn :=
         Prisma.taxReturn_findFirst taxReturnId (user_id user) in
       match taxReturn with
       | None => error_response 404 "Tax return not found"
       | Some _ =>
       (* Validate file type and size *)
       if negb (array_includes allowedTypes (type file)) then
         error_response 400
           "Invalid file type. Supported types: PDF, PNG, JPEG, TIFF"
       else if (size_limit <? size file)%N then
         error_response 400 "File size exceeds 10MB limit"
       else
       (* Create upload directory if it doesn't exist *)
       let uploadDir := "/tmp/uploads/documents" in
       mkdir uploadDir (mkdir_outcome request) ;;
       (* Generate unique filename *)
       let fileExtension := after_last_dot (name file) in
       let uniqueFileName := uuid request +:+ "." +:+ fileExtension in
       let filePath := uploadDir +:+ "/" +:+ uniqueFileName in
       (* Save file to filesystem *)
       writeFile filePath (content file) (writeFile_outcome request) ;;
       (* Determine document type based on file name or content *)
       let documentType := determineDocumentType (name file) in
       (* Create document record in database *)
       let* document :=
         document_create
           {| id := fresh_id request;
              taxReturnId := taxReturnId;
              fileName := name file;
              fileType := type file;
              fileSize := size file;
              filePath := filePath;
              documentType := documentType;
              processingStatus := PENDING;
              ocrText := None;
              extractedData := None |}
           (create_outcome request) in
       ret (JsonResponse 200 (DocumentBody document))
       end
     | _, _ => error_response 400 "Missing file or tax return ID"
     end
     end
     end)
    (fun error =>
       emit (Logged "Document upload error:") ;;
       error_response 500 "Internal server error").

End Upload.

(* ===================================================================== *)
(** * The document-AI service (primary provider)                          *)
(* ===================================================================== *)

(** What the Node runtime provides and the sources use as is. *)
Record Runtime : Type := {
  base64 : string -> string;          (* [Buffer.toString('base64')] *)
  JSON_stringify : js -> string;
  JSON_parse : js -> result js        (* the argument is coerced to a string *)
}.

Fixpoint fold_result {A B} (f : A -> B -> result A) (l : list B) (a : A)
    : result A :=
  match l with
  | [] => Ok a
  | b :: rest =>
      match f a b with
      | Ok a' => fold_result f rest a'
      | Throw e => Throw e
      end
  end.

Module DocumentAI.
Import JsString.

Record DocumentAIConfig : Type := {
  projectId : string;
  location : string;
  w2ProcessorId : string;
  form1099ProcessorId : option string
}.

(** The parts of the provider's [Document] message the service reads. *)
Record TextSegment : Type := {
  startIndex : option N;
  endIndex : option N
}.

Record TextAnchor : Type := { textSegments : option (list TextSegment) }.

Record Entity : Type := {
  entity_type : string;
  entity_textAnchor : option TextAnchor;
  entity_confidence : option Q
}.

Record Layout : Type := {
  textAnchor : option TextAnchor;
  confidence : option Q
}.

Record FormField : Type := {
  fieldName : option Layout;
  fieldValue : option Layout
}.

Record Page : Type := { formFields : option (list FormField) }.

Record AIDocument : Type := {
  text : option string;
  entities : option (list Entity);
  pages : option (list Page)
}.

(** [n || d] for an index *)
Definition index_or (n : option N) (d : N) : N :=
  match n with
  | Some n => if (n =? 0)%N then d else n
  | None => d
  end.

Definition getText (textAnchor : option TextAnchor)
    (fullText : option string) : result string :=
  match textAnchor with
  | None => Ok ""
  | Some anchor =>
      match textSegments anchor with
      | None | Some [] => Ok ""
      | Some (segment :: _) =>
          match fullText with
          | None =>
              Throw (TypeError
                "Cannot read properties of undefined (reading 'substring')")
          | Some fullText =>
              let startIndex := index_or (startIndex segment) 0 in
              let endIndex :=
                index_or (endIndex segment)
                         (N.of_nat (String.length fullText)) in
              Ok (trim (substring fullText startIndex endIndex))
          end
      end
  end.

Definition processor_path (projectId location processorId : string)
    : string :=
  "projects/" +:+ projectId +:+ "/locations/" +:+ location
    +:+ "/processors/" +:+ processorId.

Definition is_1099_variant (documentType : string) : bool :=
  existsb (String.eqb documentType)
    ["FORM_1099_INT"; "FORM_1099_DIV"; "FORM_1099_MISC"; "FORM_1099_NEC";
     "FORM_1099_R"; "FORM_1099_G"].

Definition getProcessorName (config : DocumentAIConfig)
    (documentType : string) : result string :=
  if String.eqb documentType "W2" then
    Ok (processor_path (projectId config) (location config)
                       (w2ProcessorId config))
  else if is_1099_variant documentType then
    if negb (Js.truthy_str (form1099ProcessorId config)) then
      Throw (Error ("No 1099 processor configured for " +:+ documentType))
    else
      Ok (processor_path (projectId config) (location config)
                         (default "undefined" (form1099ProcessorId config)))
  else
    (* Fallback to W2 processor for unknown types *)
    Ok (processor_path (projectId config) (location config)
                       (w2ProcessorId config)).

Definition getMimeType (filePath : string) : string :=
  let extension := after_last_dot (toLowerCase filePath) in
  if String.eqb extension "pdf" then "application/pdf"
  else if String.eqb extension "png" then "image/png"
  else if String.eqb extension "jpg" || String.eqb extension "jpeg"
    then "image/jpeg"
  else if String.eqb extension "tiff" || String.eqb extension "tif"
    then "image/tiff"
  else "application/pdf".

Definition empty_fields (names : list string) : Js.object :=
  map (fun k => (k, JStr "")) names.

Definition w2_fields : list string :=
  ["employerName"; "employerEIN"; "employerAddress"; "employeeName";
   "employeeSSN"; "employeeAddress"; "wages"; "federalTaxWithheld";
   "socialSecurityWages"; "socialSecurityTaxWithheld"; "medicareWages";
   "medicareTaxWithheld"; "socialSecurityTips"; "allocatedTips";
   "stateWages"; "stateTaxWithheld"; "localWages"; "localTaxWithheld"].

Definition form1099Int_fields : list string :=
  ["payerName"; "payerTIN"; "payerAddress"; "recipientName";
   "recipientTIN"; "recipientAddress"; "interestIncome";
   "earlyWithdrawalPenalty"; "interestOnUSavingsBonds";
   "federalTaxWithheld"; "investmentExpenses"; "foreignTaxPaid";
   "foreignCountry"; "taxExemptInterest"; "privateActivityBondInterest";
   "marketDiscount"; "bondPremium"; "bondPremiumOnTaxExemptBond";
   "stateCode"; "stateTaxWithheld"; "stateIdNumber"].

Definition form1099Div_fields : list string :=
  ["payerName"; "payerTIN"; "payerAddress"; "recipientName";
   "recipientTIN"; "recipientAddress"; "ordinaryDividends";
   "qualifiedDividends"; "totalCapitalGain"; "unrecaptured1250Gain";
   "section1202Gain"; "collectiblesGain"; "nondividendDistributions";
   "federalTaxWithheld"; "section199ADividends"; "investmentExpenses";
   "foreignTaxPaid"; "foreignCountry"; "cashLiquidation";
   "noncashLiquidation"; "stateCode"; "stateTaxWithheld"; "stateIdNumber"].

Definition form1099Misc_fields : list string :=
  ["payerName"; "payerTIN"; "payerAddress"; "recipientName";
   "recipientTIN"; "recipientAddress"; "rents"; "royalties"; "otherIncome";
   "federalTaxWithheld"; "fishingBoatProceeds"; "medicalHealthPayments";
   "nonemployeeCompensation"; "substitutePayments";
   "cropInsuranceProceeds"; "grossProceeds"; "section409ADeferrals";
   "section409AIncome"; "excessGoldenParachute";
   "nonqualifiedDeferredCompensation"; "stateCode"; "stateTaxWithheld";
   "stateIdNumber"].

Definition form1099Nec_fields : list string :=
  ["payerName"; "payerTIN"; "payerAddress"; "recipientName";
   "recipientTIN"; "recipientAddress"; "nonemployeeCompensation";
   "federalTaxWithheld"; "stateCode"; "stateTaxWithheld"; "stateIdNumber"].

Definition genericData : Js.object :=
  [("payerName", JStr ""); ("payerTIN", JStr ""); ("recipientName", JStr "");
   ("recipientTIN", JStr ""); ("incomeAmount", JStr "");
   ("taxWithheld", JStr ""); ("relevantBoxes", JObj [])].

(** [document.pages && document.pages[0]?.formFields] *)
Definition first_page_formFields (document : AIDocument)
    : option (list FormField) :=
  match pages document with
  | Some (page :: _) => formFields page
  | _ => None
  end.

(** [field.fieldName?.textAnchor] *)
Definition layout_anchor (l : option Layout) : option TextAnchor :=
  match l with
  | Some l => textAnchor l
  | None => None
  end.

Definition normalize (s : string) : string :=
  strip_non_alnum (toLowerCase s).

(** The [for ... of Object.entries(dataObject)] loop with its [break]. *)
Fixpoint assign_first_match (entries : list (string * js))
    (normalizedFieldName fieldValue : string) (dataObject : Js.object)
    : Js.object :=
  match entries with
  | [] => dataObject
  | (key, _) :: rest =>
      let normalizedKey := normalize key in
      if includes normalizedFieldName normalizedKey
         || includes normalizedKey normalizedFieldName
      then Js.set dataObject key (JStr fieldValue)
      else assign_first_match rest normalizedFieldName fieldValue dataObject
  end.

(** The body of the [forEach] callback of [extractGenericFormFields]. *)
Definition generic_field (fullText : option string) (dataObject : Js.object)
    (field : FormField) : result Js.object :=
  match layout_anchor (fieldName field), layout_anchor (fieldValue field) with
  | Some nameAnchor, Some valueAnchor =>
      match getText (Some nameAnchor) fullText with
      | Throw e => Throw e
      | Ok fieldName =>
          match getText (Some valueAnchor) fullText with
          | Throw e => Throw e
          | Ok fieldValue =>
              (* Try to map common field names to data object properties *)
              let normalizedFieldName := normalize fieldName in
              Ok (assign_first_match dataObject normalizedFieldName
                                     fieldValue dataObject)
          end
      end
  | _, _ => Ok dataObject
  end.

Definition extractGenericFormFields (document : AIDocument)
    (dataObject : Js.object) : result Js.object :=
  match first_page_formFields document with
  | Some fields => fold_result (generic_field (text document)) fields dataObject
  | None => Ok dataObject
  end.

Definition extract1099IntData (document : AIDocument) : result Js.object :=
  extractGenericFormFields document (empty_fields form1099Int_fields).

Definition extract1099DivData (document : AIDocument) : result Js.object :=
  extractGenericFormFields document (empty_fields form1099Div_fields).

Definition extract1099MiscData (document : AIDocument) : result Js.object :=
  extractGenericFormFields document (empty_fields form1099Misc_fields).

Definition extract1099NecData (document : AIDocument) : result Js.object :=
  extractGenericFormFields document (empty_fields form1099Nec_fields).

Definition extractGenericTaxData (document : AIDocument) : result Js.object :=
  extractGenericFormFields document genericData.

Definition assign (o : Js.object) (key value : string) : result Js.object :=
  Ok (Js.set o key (JStr value)).

(** The callback of [document.entities.forEach] in [extractW2Data]. *)
Definition w2_entity (fullText : option string) (w2Data : Js.object)
    (entity : Entity) : result Js.object :=
  match getText (entity_textAnchor entity) fullText with
  | Throw e => Throw e
  | Ok value =>
      let type := entity_type entity in
      if String.eqb type "employee_name" then
        assign w2Data "employeeName" value
      else if String.eqb type "employee_ssn" then
        assign w2Data "employeeSSN" value
      else if String.eqb type "employer_name" then
        assign w2Data "employerName" value
      else if String.eqb type "employer_ein" then
        assign w2Data "employerEIN" value
      else if String.eqb type "wages_tips_other_compensation" then
        assign w2Data "wages" value
      else if String.eqb type "federal_income_tax_withheld" then
        assign w2Data "federalTaxWithheld" value
      else if String.eqb type "social_security_wages" then
        assign w2Data "socialSecurityWages" value
      else if String.eqb type "social_security_tax_withheld" then
        assign w2Data "socialSecurityTaxWithheld" value
      else if String.eqb type "medicare_wages_and_tips" then
        assign w2Data "medicareWages" value
      else if String.eqb type "medicare_tax_withheld" then
        assign w2Data "medicareTaxWithheld" value
      else Ok w2Data
  end.

(** The callback of the form-field fallback of [extractW2Data]. *)
Definition w2_field (fullText : option string) (w2Data : Js.object)
    (field : FormField) : result Js.object :=
  match layout_anchor (fieldName field), layout_anchor (fieldValue field) with
  | Some nameAnchor, Some valueAnchor =>
      match getText (Some nameAnchor) fullText with
      | Throw e => Throw e
      | Ok label =>
          let fieldName := toLowerCase label in
          match getText (Some valueAnchor) fullText with
          | Throw e => Throw e
          | Ok fieldValue =>
              if includes fieldName "wages" && includes fieldName "tips"
              then assign w2Data "wages" fieldValue
              else if includes fieldName "federal"
                      && includes fieldName "tax"
              then assign w2Data "federalTaxWithheld" fieldValue
              else if includes fieldName "social security"
                      && includes fieldName "wages"
              then assign w2Data "socialSecurityWages" fieldValue
              else if includes fieldName "medicare"
                      && includes fieldName "wages"
              then assign w2Data "medicareWages" fieldValue
              else Ok w2Data
          end
      end
  | _, _ => Ok w2Data
  end.

Definition extractW2Data (document : AIDocument) : result Js.object :=
  let w2Data := empty_fields w2_fields in
  (* Extract from entities (specialized W-2 processor) *)
  match
    match entities document with
    | Some es => fold_result (w2_entity (text document)) es w2Data
    | None => Ok w2Data
    end
  with
  | Throw e => Throw e
  | Ok w2Data =>
      (* Extract from form fields as fallback *)
      match first_page_formFields document with
      | Some fields => fold_result (w2_field (text document)) fields w2Data
      | None => Ok w2Data
      end
  end.

(** [totalConfidence += c; count++] when [c !== undefined] *)
Definition add_confidence (acc : Q * nat) (c : option Q) : Q * nat :=
  match c with
  | Some c => (Double.add (fst acc) c, S (snd acc))
  | None => acc
  end.

(** [field.fieldValue?.confidence] *)
Definition value_confidence (field : FormField) : option Q :=
  match fieldValue field with
  | Some l => confidence l
  | None => None
  end.

Definition calculateAverageConfidence (document : AIDocument) : Q :=
  let acc := (0%Q, 0%nat) in
  (* Calculate from entities *)
  let acc :=
    match entities document with
    | Some es =>
        fold_left (fun acc e => add_confidence acc (entity_confidence e))
                  es acc
    | None => acc
    end in
  (* Calculate from form fields *)
  let acc :=
    match pages document with
    | Some ps =>
        fold_left
          (fun acc page =>
             match formFields page with
             | Some fs =>
                 fold_left
                   (fun acc f => add_confidence acc (value_confidence f))
                   fs acc
             | None => acc
             end)
          ps acc
    | None => acc
    end in
  let '(totalConfidence, count) := acc in
  if (0 <? count)%nat
  then Double.div totalConfidence (inject_Z (Z.of_nat count))
  else 0%Q.

Definition transformToTaxData (document : AIDocument)
    (documentType : string) : result ExtractedTaxData :=
  let fullText := default "" (text document) in
  (* Extract form fields and entities based on document type *)
  match
    if String.eqb documentType "W2" then extractW2Data document
    else if String.eqb documentType "FORM_1099_INT"
      then extract1099IntData document
    else if String.eqb documentType "FORM_1099_DIV"
      then extract1099DivData document
    else if String.eqb documentType "FORM_1099_MISC"
      then extract1099MiscData document
    else if String.eqb documentType "FORM_1099_NEC"
      then extract1099NecData document
    else extractGenericTaxData document
  with
  | Throw e => Throw e
  | Ok extractedData =>
      (* Calculate average confidence *)
      let averageConfidence := calculateAverageConfidence document in
      Ok {| etd_documentType := JStr documentType;
            etd_ocrText := JStr fullText;
            etd_extractedData := JObj extractedData;
            etd_confidence := averageConfidence |}
  end.

(** [process.env.NAME || fallback] *)
Definition env_or (process_env : gmap string string) (name fallback : string)
    : string :=
  match process_env !! name with
  | Some v => if String.eqb v "" then fallback else v
  | None => fallback
  end.

Definition createDocumentAIConfig (process_env : gmap string string)
    : result DocumentAIConfig :=
  let config :=
    {| projectId := env_or process_env "GOOGLE_CLOUD_PROJECT_ID" "";
       location := env_or process_env "GOOGLE_CLOUD_LOCATION" "us";
       w2ProcessorId := env_or process_env "GOOGLE_CLOUD_W2_PROCESSOR_ID" "";
       form1099ProcessorId :=
         Some (env_or process_env "GOOGLE_CLOUD_1099_PROCESSOR_ID" "") |} in
  if String.eqb (projectId config) "" || String.eqb (w2ProcessorId config) ""
  then Throw (Error "Missing required Google Cloud configuration. Please set GOOGLE_CLOUD_PROJECT_ID, GOOGLE_CLOUD_W2_PROCESSOR_ID environment variables.")
  else Ok config.

(** The request sent to the provider, and the provider's client: its
    answer is either a rejection or a reply whose [document] may be
    missing. *)
Record ProcessRequest : Type := {
  request_name : string;
  request_content : string;
  request_mimeType : string
}.

Definition Client : Type := ProcessRequest -> result (option AIDocument).

Open Scope handler_scope.

Definition processDocument (rt : Runtime) (client : Client)
    (config : DocumentAIConfig) (filePath documentType : string)
    : M ExtractedTaxData :=
  emit (PrimaryInvoked documentType) ;;
  try_catch
    (let* processorName := lift (getProcessorName config documentType) in
     (* Read and encode the document *)
     let* imageFile := Fs.readFile filePath in
     let encodedImage := base64 rt imageFile in
     let request :=
       {| request_name := processorName;
          request_content := encodedImage;
          request_mimeType := getMimeType filePath |} in
     (* Process the document *)
     let* result := lift (client request) in
     match result with
     | None => throw (Error "No document returned from processing")
     | Some document => lift (transformToTaxData document documentType)
     end)
    (fun error =>
       emit (Logged "Error processing document with Document AI:") ;;
       throw error).

End DocumentAI.

(* ===================================================================== *)
(** * The process route                                                   *)
(* ===================================================================== *)

Module Process.
Import JsString.
Open Scope handler_scope.

(** The reply of the chat-completion endpoint: [response.ok],
    [response.status], and the outcome of [response.json()]. *)
Record HttpResponse : Type := {
  ok : bool;
  status : N;
  json : result js
}.

(** The request to the chat-completion endpoint. The extraction prompt
    is a constant text chosen by the document type, and is represented
    by that type. *)
Record LLMRequest : Type := {
  authorization : string;
  filename : string;
  file_data : string;
  prompt_documentType : string
}.

(** One request, with the answers of the collaborators the handler
    calls: for the session and for each call to the database whether it
    fails, and for the consumer of the response stream when it cancels.
    The consumer can cancel while [start] awaits; [cancel_after] is the
    number of events enqueued by then. The first event is enqueued before
    any await, so that number is 0 only for a serialized text that is
    empty. *)
Record Request : Type := {
  session_outcome : result unit;       (* whether [getServerSession] fails *)
  session_email : option string;       (* [session?.user?.email] *)
  params_id : string;
  process_env : gmap string string;
  client : DocumentAI.Client;          (* the document-AI endpoint *)
  fetch : LLMRequest -> result HttpResponse;
  user_outcome : result unit;          (* whether the user look-up fails *)
  document_outcome : result unit;      (* whether the document look-up fails *)
  processing_outcome : result unit;    (* whether the update to PROCESSING
                                          fails *)
  save_outcome : result unit;          (* whether the final update fails *)
  failed_outcome : result unit;        (* whether the update to FAILED fails *)
  cancel_after : option nat
}.

(** [process.env.NAME], as a condition *)
Definition env_set (process_env : gmap string string) (name : string)
    : bool :=
  Js.truthy_str (process_env !! name).

(** [`${x}`] for [x : string | undefined] *)
Definition interpolate (s : option string) : string := default "undefined" s.

Definition processWithLLM (rt : Runtime) (request : Request)
    (document : Document) : M ExtractedTaxData :=
  emit (SecondaryInvoked (documentType document)) ;;
  (* Read the file and convert to base64 *)
  let* fileBuffer := Fs.readFile (filePath document) in
  let base64String := base64 rt fileBuffer in
  (* Call the LLM API for document processing *)
  let* response :=
    lift (fetch request
            {| authorization :=
                 "Bearer "
                 +:+ interpolate (process_env request !! "ABACUSAI_API_KEY");
               filename := fileName document;
               file_data :=
                 "data:" +:+ fileType document +:+ ";base64,"
                 +:+ base64String;
               prompt_documentType := documentType document |}) in
  if negb (ok response) then
    throw (Error ("LLM API error: " +:+ of_N (status response)))
  else
  let* result := lift (json response) in
  let* choices := lift (Js.prop result "choices") in
  let* choice := lift (Js.index0 choices) in
  let content := Js.opt_prop (Js.opt_prop choice "message") "content" in
  if negb (Js.truthy content) then
    throw (Error "No content returned from LLM API")
  else
  let* parsedContent := lift (JSON_parse rt content) in
  let* parsedType := lift (Js.prop parsedContent "documentType") in
  let* parsedText := lift (Js.prop parsedContent "ocrText") in
  let* parsedData := lift (Js.prop parsedContent "extractedData") in
  ret {| etd_documentType := Js.or parsedType (JStr (documentType document));
         etd_ocrText := Js.or parsedText (JStr "");
         etd_extractedData := Js.or parsedData parsedContent;
         etd_confidence :=
           Double.round 0.85 (* Default confidence for LLM *) |}.

(** Check if Google Document AI is configured *)
Definition useDocumentAI (request : Request) : bool :=
  env_set (process_env request) "GOOGLE_CLOUD_PROJECT_ID"
  && env_set (process_env request) "GOOGLE_CLOUD_W2_PROCESSOR_ID"
  && env_set (process_env request) "GOOGLE_APPLICATION_CREDENTIALS".

(** The body of the [try] around the primary provider. *)
Definition withDocumentAI (rt : Runtime) (request : Request)
    (document : Document) : M ExtractedTaxData :=
  let* config :=
    lift (DocumentAI.createDocumentAIConfig (process_env request)) in
  DocumentAI.processDocument rt (client request) config
    (filePath document) (documentType document).

(** The choice of the provider in [POST], which binds
    [extractedTaxData]. *)
Definition extractTaxData (rt : Runtime) (request : Request)
    (document : Document) : M ExtractedTaxData :=
  if useDocumentAI request then
    (* Use Google Document AI *)
    try_catch
      (withDocumentAI rt request document)
      (fun docAIError =>
         emit (Logged "Document AI processing failed, falling back to LLM:") ;;
         (* Fall back to LLM processing *)
         processWithLLM rt request document)
  else
    (* Fall back to LLM processing *)
    emit (Logged "Google Document AI not configured, using LLM fallback") ;;
    processWithLLM rt request document.

Definition chunkSize : nat := 100.

(** The consumer has cancelled the stream by the time [n] events are
    enqueued. *)
Definition cancelled (request : Request) (n : nat) : bool :=
  match cancel_after request with
  | Some k => (k <=? n)%nat
  | None => false
  end.

(** [controller.enqueue(encoder.encode(data))] throws on a stream that is
    cancelled. *)
Definition enqueue (request : Request) (data : string) : M unit :=
  let* w := get_world in
  if cancelled request (length (enqueued w))
  then throw (TypeError "Invalid state: Controller is already closed")
  else set_enqueued (enqueued w ++ [data]).

(** [prisma.document.update({ where: { id: params.id },
    data: { processingStatus } })] *)
Definition set_status (request : Request) (outcome : result unit)
    (s : ProcessingStatus) : M unit :=
  lift outcome ;;
  Prisma.document_set_status (params_id request) s.

(** How a stream that was not closed ends for its consumer:
    [controller.error(e)] and a rejection of [start] put it in error, and
    do nothing to a stream that is cancelled. *)
Definition broken (request : Request) : M StreamEnd :=
  let* w := get_world in
  ret (if cancelled request (length (enqueued w))
       then Cancelled else Errored).

Definition newline : string := String (ascii_of_nat 10) EmptyString.

(** The [for (let i = 0; i < jsonResponse.length; i += chunkSize)] loop
    from index [i] on; [fuel] bounds the number of iterations. *)
Fixpoint send_chunks (rt : Runtime) (request : Request) (fuel : nat)
    (jsonResponse : string) (i : nat) : M unit :=
  match fuel with
  | O => ret tt
  | S fuel =>
      if (i <? String.length jsonResponse)%nat then
        let chunk := slice jsonResponse i (i + chunkSize) in
        enqueue request
          ("data: "
           +:+ JSON_stringify rt (JObj [("content", JStr chunk)])
           +:+ newline +:+ newline) ;;
        (* Small delay to simulate processing time *)
        send_chunks rt request fuel jsonResponse (i + chunkSize)
      else ret tt
  end.

(** [const jsonResponse = JSON.stringify({ ... })] *)
Definition jsonResponse (rt : Runtime) (extractedTaxData : ExtractedTaxData)
    : string :=
  JSON_stringify rt
    (JObj [("documentType", etd_documentType extractedTaxData);
           ("ocrText", etd_ocrText extractedTaxData);
           ("extractedData", etd_extractedData extractedTaxData)]).

(** The [prisma.document.update] of the stream that stores the result. *)
Definition save_extraction (request : Request)
    (extractedTaxData : ExtractedTaxData) : M unit :=
  lift (save_outcome request) ;;
  Prisma.document_update (params_id request)
    (Prisma.with_extraction extractedTaxData)
    (DocumentUpdated (params_id request) COMPLETED (Some extractedTaxData)).

(** [start(controller)] of the response stream; the result is how the
    stream ends. *)
Definition start (rt : Runtime) (request : Request)
    (extractedTaxData : ExtractedTaxData) : M StreamEnd :=
  try_catch
    ((* Simulate streaming by sending the complete response in chunks *)
     let jsonResponse := jsonResponse rt extractedTaxData in
     send_chunks rt request (String.length jsonResponse) jsonResponse 0 ;;
     (* Save OCR text and extracted data to database *)
     save_extraction request extractedTaxData ;;
     enqueue request ("data: [DONE]" +:+ newline +:+ newline) ;;
     (* [controller.close()] follows the enqueue without an await *)
     ret Closed)
    (fun error =>
       emit (Logged "Error in streaming response:") ;;
       set_status request (failed_outcome request) FAILED ;;
       (* [controller.error(error)] *)
       broken request).

Definition error_response (status : N) (message : string) : M Response :=
  ret (JsonResponse status (ErrorBody message)).

(** [new ReadableStream({ start })] and the [Response] made of it. *)
Definition respond (rt : Runtime) (request : Request)
    (extractedTaxData : ExtractedTaxData) : M Response :=
  (* Create streaming response to maintain frontend compatibility *)
  set_enqueued [] ;;
  (* [start] runs on its own: a rejection of it errors the stream *)
  let* ending :=
    try_catch (start rt request extractedTaxData)
              (fun _ => broken request) in
  let* w := get_world in
  ret (StreamResponse 200 (enqueued w) ending).

(** The [catch] of the handler. *)
Definition failure (request : Request) : M Response :=
  emit (Logged "Document processing error:") ;;
  (* Update document status to failed *)
  set_status request (failed_outcome request) FAILED ;;
  error_response 500 "Internal server error".

Definition POST (rt : Runtime) (request : Request) : M Response :=
  try_catch
    (lift (session_outcome request) ;;
     match session_email request with
     | None => error_response 401 "Unauthorized"
     | Some email =>
     if String.eqb email "" then error_response 401 "Unauthorized" else
     lift (user_outcome request) ;;
     let* user := Prisma.user_findUnique email in
     match user with
     | None => error_response 404 "User not found"
     | Some user =>
     lift (document_outcome request) ;;
     let* document :=
       Prisma.document_findFirst (params_id request) (user_id user) in
     match document with
     | None => error_response 404 "Document not found"
     | Some document =>
     (* Update status to processing *)
     set_status request (processing_outcome request) PROCESSING ;;
     let* extractedTaxData := extractTaxData rt request document in
     respond rt request extractedTaxData
     end
     end
     end)
    (fun error => failure request).

End Process.

(* ===================================================================== *)
(** * The what-if scenarios component                                     *)
(* ===================================================================== *)

Module WhatIf.

Record CustomScenario : Type := {
  id : string;
  name : string;
  additionalAmount : Q;
  deductionType : string
}.

(** What [calculateDeductionComparison] returns, as far as the component
    reads it. *)
Record DeductionComparison : Type := {
  recommendedMethod : string;
  itemizedTaxLiability : Q;
  standardTaxLiability : Q
}.

(** An entry of [calculations]. *)
Record Calculation : Type := {
  scenario : string;
  description : string;
  itemizedDeductions : Q;
  taxLiability : Q;
  savings : Q;
  custom : bool;
  calculation_id : option string
}.

Record Props (Dependent : Type) : Type := {
  adjustedGrossIncome : option Q;
  currentItemizedDeductions : option Q;
  filingStatus : option string;
  dependents : option (list Dependent)   (* [None]: not an array *)
}.
Arguments adjustedGrossIncome {Dependent} _.
Arguments currentItemizedDeductions {Dependent} _.
Arguments filingStatus {Dependent} _.
Arguments dependents {Dependent} _.

(** [Math.max(a, b)] *)
Definition Math_max (a b : Q) : Q := if Qle_bool a b then b else a.

(** [x || 0] for [x : number | undefined] *)
Definition number_or_zero (x : option Q) : Q :=
  match x with
  | Some x => if Qeq_bool x 0 then 0%Q else x
  | None => 0%Q
  end.

Definition deductionTypes : list (string * string) :=
  [("CHARITABLE_CONTRIBUTIONS", "Charitable Donations");
   ("MORTGAGE_INTEREST", "Mortgage Interest");
   ("STATE_LOCAL_TAXES", "State & Local Taxes");
   ("MEDICAL_EXPENSES", "Medical Expenses");
   ("BUSINESS_EXPENSES", "Business Expenses");
   ("STUDENT_LOAN_INTEREST", "Student Loan Interest");
   ("IRA_CONTRIBUTIONS", "Retirement Contributions");
   ("OTHER_DEDUCTIONS", "Other Deductions")].

(** [deductionTypes.find(t => t.value === v)?.label], interpolated *)
Definition deduction_label (v : string) : string :=
  match find (fun t => String.eqb (fst t) v) deductionTypes with
  | Some t => snd t
  | None => "undefined"
  end.

Section InteractiveWhatIfScenarios.

Variable Dependent : Type.

(** The two functions of the tax-calculation library the component
    imports, and the number formatting of the runtime. *)
Variable calculateDeductionComparison :
  Q -> string -> Q -> list Dependent -> DeductionComparison.
Variable calculateTaxImpactScenarios :
  Q -> string -> Q -> list Dependent -> list Calculation.
Variable toLocaleString : Q -> string.

Variable props : Props Dependent.

(* Validate and sanitize input data; [parseFloat(String(x))] gives a
   number back unchanged. *)
Definition safeAdjustedGrossIncome : Q :=
  Math_max 0 (number_or_zero (adjustedGrossIncome props)).

Definition safeCurrentItemizedDeductions : Q :=
  Math_max 0 (number_or_zero (currentItemizedDeductions props)).

Definition safeFilingStatus : string :=
  match filingStatus props with
  | Some s => if String.eqb s "" then "SINGLE" else s
  | None => "SINGLE"
  end.

Definition safeDependents : list Dependent :=
  default [] (dependents props).

(** Use at least $50k for demo purposes if no income *)
Definition minIncomeForCalculation : Q :=
  Math_max safeAdjustedGrossIncome 50000.

Definition baseScenarios : list Calculation :=
  calculateTaxImpactScenarios minIncomeForCalculation safeFilingStatus
    safeCurrentItemizedDeductions safeDependents.

(** The callback of [customScenarios.map]. *)
Definition customCalculation (scenario : CustomScenario) : Calculation :=
  let newComparison :=
    calculateDeductionComparison minIncomeForCalculation safeFilingStatus
      (Double.add safeCurrentItemizedDeductions (additionalAmount scenario))
      safeDependents in
  let baseTaxLiability :=
    match baseScenarios with
    | base :: _ =>
        if Qeq_bool (taxLiability base) 0 then 0%Q else taxLiability base
    | [] => 0%Q
    end in
  let newTaxLiability :=
    if String.eqb (recommendedMethod newComparison) "itemized"
    then itemizedTaxLiability newComparison
    else standardTaxLiability newComparison in
  {| scenario := name scenario;
     description :=
       deduction_label (deductionType scenario) +:+ ": +$"
       +:+ toLocaleString (additionalAmount scenario);
     itemizedDeductions :=
       Double.add safeCurrentItemizedDeductions (additionalAmount scenario);
     taxLiability := newTaxLiability;
     savings := Double.sub baseTaxLiability newTaxLiability;
     custom := true;
     calculation_id := Some (id scenario) |}.

(** The value the effect passes to [setCalculations]. *)
Definition calculations (customScenarios : list CustomScenario)
    : list Calculation :=
  baseScenarios ++ map customCalculation customScenarios.

End InteractiveWhatIfScenarios.

Arguments safeAdjustedGrossIncome {Dependent} props.
Arguments safeCurrentItemizedDeductions {Dependent} props.
Arguments safeFilingStatus {Dependent} props.
Arguments safeDependents {Dependent} props.
Arguments minIncomeForCalculation {Dependent} props.
Arguments baseScenarios {Dependent} calculateTaxImpactScenarios props.
Arguments customCalculation {Dependent} calculateDeductionComparison
  calculateTaxImpactScenarios toLocaleString props scenario.
Arguments calculations {Dependent} calculateDeductionComparison
  calculateTaxImpactScenarios toLocaleString props customScenarios.

(** The form of a new scenario ([newScenario]); its fields are the texts
    of the inputs. *)
Record NewScenario : Type := {
  new_name : string;
  new_additionalAmount : string;
  new_deductionType : string
}.

(** The state the handlers of the component read and set. *)
Record State : Type := {
  customScenarios : list CustomScenario;
  newScenario : NewScenario;
  quickAmount : string
}.

Section Handlers.

(** [parseFloat] on the text of a number input, the clock and the number
    formatting of the runtime. *)
Variable parseFloat : string -> Q.
Variable now : N.
Variable toLocaleString : Q -> string.

Definition handleAddCustomScenario (st : State) : State :=
  if String.eqb (new_name (newScenario st)) ""
     || String.eqb (new_additionalAmount (newScenario st)) ""
  then st
  else
    let scenario :=
      {| id := JsString.of_N now;
         name := new_name (newScenario st);
         additionalAmount :=
           parseFloat (new_additionalAmount (newScenario st));
         deductionType := new_deductionType (newScenario st) |} in
    {| customScenarios := customScenarios st ++ [scenario];
       newScenario :=
         {| new_name := "";
            new_additionalAmount := "";
            new_deductionType := "CHARITABLE_CONTRIBUTIONS" |};
       quickAmount := quickAmount st |}.

Definition handleRemoveCustomScenario (i : string) (st : State) : State :=
  {| customScenarios :=
       List.filter (fun s => negb (String.eqb (id s) i)) (customScenarios st);
     newScenario := newScenario st;
     quickAmount := quickAmount st |}.

Definition handleQuickCalculation (st : State) : State :=
  if String.eqb (quickAmount st) "" then st
  else
    let amount := parseFloat (quickAmount st) in
    let quickScenario :=
      {| id := "quick-" +:+ JsString.of_N now;
         name := "Quick Test: $" +:+ toLocaleString amount;
         additionalAmount := amount;
         deductionType := "OTHER_DEDUCTIONS" |} in
    {| customScenarios := customScenarios st ++ [quickScenario];
       newScenario := newScenario st;
       quickAmount := "" |}.

End Handlers.

End WhatIf.

(* ===================================================================== *)
(** * The document processor component                                    *)
(* ===================================================================== *)

Module DocumentProcessor.

Record ProcessingState : Type := {
  file : option Upload.File;
  uploading : bool;
  processing : bool;
  progress : N;
  status : string;
  message : string;
  document : js;
  extractedData : js
}.

(** What [fetch] resolves to, as far as the component reads it: the [ok]
    flag, the outcome of [json()], and the body as the texts the reader
    delivers one [read()] after the other; [ending] is [Ok tt] when the
    body then ends and [Throw e] when the next [read()] rejects with [e].
    [reads] is [None] for a response without body. *)
Record Fetched : Type := {
  ok : bool;
  json : result js;
  reads : option (list string);
  ending : result unit
}.

(** The two requests of the component: the form data of the upload, and
    the URL of the processing request. *)
Record Network : Type := {
  fetch_upload : Upload.File -> string -> result Fetched;
  fetch_process : string -> result Fetched
}.

(** The calls of the callbacks of the component. *)
Inductive Callback : Type :=
  | onDocumentUploaded (document : js)
  | onDocumentProcessed (extractedData : js).

(** [s.split(c)] for a separator of one character *)
Fixpoint split (c : ascii) (s : string) : list string :=
  match s with
  | EmptyString => [EmptyString]
  | String a rest =>
      if Ascii.eqb a c then EmptyString :: split c rest
      else
        match split c rest with
        | first :: others => String a first :: others
        | [] => [String a EmptyString]
        end
  end.

(** [error instanceof Error ? error.message : '...']; a rejection of the
    network is not an [Error] of the page. *)
Definition error_message (e : exn) : string :=
  match e with
  | Error m | TypeError m | SyntaxError m => m
  | Rejected _ => "An error occurred during processing"
  end.

(** Where the body of the reading loop leaves the function. *)
Inductive Step : Type :=
  | Continue (buffer : string) (currentProgress : N) (state : ProcessingState)
  | Return (state : ProcessingState) (extractedData : js)
  | Raise (e : exn) (state : ProcessingState).

Section Component.

Variable rt : Runtime.
(** [String(v)] for the numbers, arrays and objects. *)
Variable String_of : js -> string.
Variable network : Network.
Variable taxReturnId : string.

(** The text a value contributes to a template or to [+=]. *)
Definition to_text (v : js) : string :=
  match v with
  | JStr s => s
  | JUndefined => "undefined"
  | JNull => "null"
  | JBool true => "true"
  | JBool false => "false"
  | _ => String_of v
  end.

(** The body of [for (const line of lines)]. *)
Definition on_line (buffer : string) (currentProgress : N)
    (state : ProcessingState) (line : string) : Step :=
  if String.prefix "data: " line then
    let data := JsString.slice line 6 (String.length line) in
    if String.eqb data "[DONE]" then
      match JSON_parse rt (JStr buffer) with
      | Ok extractedData =>
          Return {| file := file state;
                    uploading := uploading state;
                    processing := false;
                    progress := 100;
                    status := "completed";
                    message := "Document processed successfully";
                    document := document state;
                    extractedData := extractedData |}
                 extractedData
      | Throw _ => Raise (Error "Failed to parse extracted data") state
      end
    else
      match
        match JSON_parse rt (JStr data) with
        | Ok parsed => Js.prop parsed "content"
        | Throw e => Throw e
        end
      with
      | Ok content =>
          let currentProgress := N.min 95 (currentProgress + 5) in
          Continue (buffer +:+ to_text content) currentProgress
            {| file := file state;
               uploading := uploading state;
               processing := processing state;
               progress := currentProgress;
               status := status state;
               message := "Analyzing document content...";
               document := document state;
               extractedData := extractedData state |}
      | Throw _ => Continue buffer currentProgress state  (* Skip invalid JSON *)
      end
  else Continue buffer currentProgress state.

Fixpoint for_lines (lines : list string) (buffer : string)
    (currentProgress : N) (state : ProcessingState) : Step :=
  match lines with
  | [] => Continue buffer currentProgress state
  | line :: rest =>
      match on_line buffer currentProgress state line with
      | Continue buffer currentProgress state =>
          for_lines rest buffer currentProgress state
      | other => other
      end
  end.

(** [while (reader) { ... }] over the reads of the body. *)
Fixpoint read_loop (reads : list string) (ending : result unit)
    (buffer : string) (currentProgress : N) (state : ProcessingState)
    : Step :=
  match reads with
  | [] =>
      match ending with
      | Ok _ => Continue buffer currentProgress state     (* [done]: break *)
      | Throw e => Raise e state
      end
  | chunk :: rest =>
      match for_lines (split (ascii_of_nat 10) chunk)
              buffer currentProgress state with
      | Continue buffer currentProgress state =>
          read_loop rest ending buffer currentProgress state
      | other => other
      end
  end.

(** The [catch] block of [processDocument]. *)
Definition failed (e : exn) (state : ProcessingState) : ProcessingState :=
  {| file := file state;
     uploading := false;
     processing := false;
     progress := 0;
     status := "error";
     message := error_message e;
     document := document state;
     extractedData := extractedData state |}.

(** What [processDocument] does once the processing request is answered. *)
Definition read_response (processResponse : Fetched)
    (state : ProcessingState) (calls : list Callback)
    : ProcessingState * list Callback :=
  if negb (ok processResponse)
  then (failed (Error "Failed to process document") state, calls)
  else
    match reads processResponse with
    | None => (state, calls)
    | Some body =>
        match read_loop body (ending processResponse) "" 50 state with
        | Continue _ _ state => (state, calls)
        | Return state extractedData =>
            (state, (calls ++ [onDocumentProcessed extractedData])%list)
        | Raise e state => (failed e state, calls)
        end
    end.

(** [processDocument]: the state the component is left in and the
    callbacks it has called. *)
Definition processDocument (state : ProcessingState)
    : ProcessingState * list Callback :=
  match file state with
  | None => (state, [])
  | Some f =>
      let state :=
        {| file := file state;
           uploading := true;
           processing := processing state;
           progress := 30;
           status := "uploading";
           message := "Uploading document...";
           document := document state;
           extractedData := extractedData state |} in
      match fetch_upload network f taxReturnId with
      | Throw e => (failed e state, [])
      | Ok uploadResponse =>
          if negb (ok uploadResponse)
          then (failed (Error "Failed to upload document") state, [])
          else
            match json uploadResponse with
            | Throw e => (failed e state, [])
            | Ok document =>
                let state :=
                  {| file := file state;
                     uploading := false;
                     processing := true;
                     progress := 50;
                     status := "processing";
                     message := "Extracting data from document...";
                     document := document;
                     extractedData := extractedData state |} in
                let calls := [onDocumentUploaded document] in
                match Js.prop document "id" with
                | Throw e => (failed e state, calls)
                | Ok i =>
                    match
                      fetch_process network
                        ("/api/documents/" +:+ to_text i +:+ "/process")
                    with
                    | Throw e => (failed e state, calls)
                    | Ok processResponse =>
                        read_response processResponse state calls
                    end
                end
            end
      end
  end.

End Component.

End DocumentProcessor.

(* ===================================================================== *)
(** * The specification's notions                                         *)
(* ===================================================================== *)

(** The definitions of this module follow the wording of the
    specification, not the code; the theorems below compare the two. *)
Module Spec.
Import JsString.

(** Two characters that differ at most in case. *)
Definition same_letter (a b : ascii) : bool :=
  Ascii.eqb (toLowerCase_char a) (toLowerCase_char b).

(** [needle] is read at the start of [hay], case not regarded. *)
Fixpoint ci_prefix (needle hay : string) : bool :=
  match needle, hay with
  | EmptyString, _ => true
  | String _ _, EmptyString => false
  | String a needle', String b hay' =>
      same_letter a b && ci_prefix needle' hay'
  end.

(** Case-insensitive substring match. *)
Fixpoint ci_includes (hay needle : string) : bool :=
  ci_prefix needle hay
  || match hay with
     | EmptyString => false
     | String _ hay' => ci_includes hay' needle
     end.

(** The priority order of the document-type inference: the patterns of
    a rule, and the type it gives. *)
Definition priority : list (list string * string) :=
  [(["w-2"; "w2"], "W2");
   (["1099-int"], "FORM_1099_INT");
   (["1099-div"], "FORM_1099_DIV");
   (["1099-misc"], "FORM_1099_MISC");
   (["1099-nec"], "FORM_1099_NEC");
   (["1099-r"], "FORM_1099_R");
   (["1099-g"], "FORM_1099_G");
   (["1099"], "OTHER_TAX_DOCUMENT")].

(** First match wins; [UNKNOWN] when no rule matches. *)
Definition inferredType (fileName : string) : string :=
  match find (fun rule => existsb (ci_includes fileName) (fst rule)) priority
  with
  | Some rule => snd rule
  | None => "UNKNOWN"
  end.

(** A label and a canonical field name match when one, normalized, is a
    substring of the other, normalized. *)
Definition matches (label key : string) : bool :=
  includes (DocumentAI.normalize label) (DocumentAI.normalize key)
  || includes (DocumentAI.normalize key) (DocumentAI.normalize label).

(** The canonical field a label selects: the first one, in declaration
    order, that matches. *)
Definition selected (fields : list string) (label : string) : option string :=
  find (matches label) fields.

Definition selects (fields : list string) (label key : string) : bool :=
  match selected fields label with
  | Some k => String.eqb k key
  | None => false
  end.

(** The text an anchor delimits in the reply's text. *)
Definition anchored (fullText : string) (a : DocumentAI.TextAnchor) : string :=
  match DocumentAI.getText (Some a) (Some fullText) with
  | Ok s => s
  | Throw _ => ""
  end.

(** The form fields of the first page that have both a label and a value,
    as pairs of label and value, in the provider's order. *)
Definition labelled_fields (document : DocumentAI.AIDocument)
    (fullText : string) : list (string * string) :=
  flat_map
    (fun f =>
       match DocumentAI.layout_anchor (DocumentAI.fieldName f),
             DocumentAI.layout_anchor (DocumentAI.fieldValue f) with
       | Some n, Some v => [(anchored fullText n, anchored fullText v)]
       | _, _ => []
       end)
    (default [] (DocumentAI.first_page_formFields document)).

(** The assignments of a list of labelled values, one after the other,
    each overwriting what the selected field held. *)
Fixpoint assign_all (provided : list (string * string)) (o : Js.object)
    : Js.object :=
  match provided with
  | [] => o
  | (label, value) :: rest =>
      assign_all rest
        (match selected (Js.keys o) label with
         | Some key => Js.set o key (JStr value)
         | None => o
         end)
  end.

(** The value a canonical field ends with: that of the last provider field
    selecting it. *)
Definition last_assigned (fields : list string)
    (provided : list (string * string)) (key : string) : option string :=
  option_map snd (find (fun lv => selects fields (fst lv) key) (rev provided)).

(** A lower-case letter or a digit. *)
Definition lower_alnum (c : ascii) : bool :=
  in_range 97 122 c || in_range 48 57 c.


(** The confidence scores a reply reports: those of its entities, then
    those of the values of its form fields, page by page. *)
Definition reported (scores : list (option Q)) : list Q :=
  flat_map (fun c => match c with Some c => [c] | None => [] end) scores.

Definition reported_scores (document : DocumentAI.AIDocument) : list Q :=
  (reported (map DocumentAI.entity_confidence
               (default [] (DocumentAI.entities document)))
   ++ flat_map
        (fun page =>
           reported (map DocumentAI.value_confidence
                       (default [] (DocumentAI.formFields page))))
        (default [] (DocumentAI.pages document)))%list.

Definition sum (l : list Q) : Q := fold_left Qplus l 0%Q.

Definition arithmetic_mean (l : list Q) : Q :=
  (sum l / inject_Z (Z.of_nat (length l)))%Q.

(** The mean as double arithmetic gives it: the scores added one after the
    other, each sum rounded, and the total divided by their number and
    rounded. *)
Definition double_sum (l : list Q) : Q := fold_left Double.add l 0%Q.

Definition double_mean (l : list Q) : Q :=
  Double.div (double_sum l) (inject_Z (Z.of_nat (length l))).


(** The statuses an attempt writes to a document, in order, and the
    extractions it stores. *)
Definition status_writes (i : string) (t : list Event)
    : list ProcessingStatus :=
  flat_map (fun e => match e with
                     | DocumentUpdated j s _ =>
                         if String.eqb j i then [s] else []
                     | _ => []
                     end) t.

Definition stored_extractions (i : string) (t : list Event)
    : list ExtractedTaxData :=
  flat_map (fun e => match e with
                     | DocumentUpdated j _ (Some data) =>
                         if String.eqb j i then [data] else []
                     | _ => []
                     end) t.

Definition is_update (e : Event) : bool :=
  match e with
  | DocumentUpdated _ _ _ => true
  | _ => false
  end.

(** The providers an attempt called, in order. *)
Inductive Provider : Type := Primary | Secondary.

Definition providers_called (t : list Event) : list Provider :=
  flat_map (fun e => match e with
                     | PrimaryInvoked _ => [Primary]
                     | SecondaryInvoked _ => [Secondary]
                     | _ => []
                     end) t.

(** The request comes from the owner of the document [d] of the store. *)
Definition owner_request (request : Process.Request) (w : World)
    (d : Document) : Prop :=
  exists email user taxReturn,
    Process.session_email request = Some email
    /\ email <> ""
    /\ users w !! email = Some user
    /\ documents w !! Process.params_id request = Some d
    /\ taxReturns w !! taxReturnId d = Some taxReturn
    /\ taxReturn_userId taxReturn = user_id user.

(** An event of the response stream carrying a chunk, and the end
    marker. *)
Definition chunk_event (rt : Runtime) (chunk : string) : string :=
  "data: " +:+ JSON_stringify rt (JObj [("content", JStr chunk)])
  +:+ Process.newline +:+ Process.newline.

Definition done_event : string :=
  "data: [DONE]" +:+ Process.newline +:+ Process.newline.

Fixpoint take (n : nat) (s : string) : string :=
  match n, s with
  | S n, String c rest => String c (take n rest)
  | _, _ => EmptyString
  end.

Fixpoint drop (n : nat) (s : string) : string :=
  match n, s with
  | S n, String _ rest => drop n rest
  | _, _ => s
  end.

(** The consecutive slices of [size] characters of a text; [fuel] bounds
    their number. *)
Fixpoint slices (fuel size : nat) (s : string) : list string :=
  match fuel, s with
  | S fuel, String _ _ => take size s :: slices fuel size (drop size s)
  | _, _ => []
  end.

Definition chunks (s : string) : list string :=
  slices (String.length s) Process.chunkSize s.

Fixpoint concat (l : list string) : string :=
  match l with
  | [] => EmptyString
  | s :: rest => s +:+ concat rest
  end.

(** The content a reply of the chat-completion endpoint returns: that of
    the message of its first choice, [undefined] when the reply has no
    choice, or its first choice no message with a content. The reply is an
    object with an array of choices, whatever else it holds. *)
Definition choice_content (choice : js) : js :=
  match choice with
  | JObj fields =>
      match Js.get fields "message" with
      | Some (JObj message) => default JUndefined (Js.get message "content")
      | _ => JUndefined
      end
  | _ => JUndefined
  end.

Definition returned_content (reply : js) : option js :=
  match reply with
  | JObj fields =>
      match Js.get fields "choices" with
      | Some (JArr []) => Some JUndefined
      | Some (JArr (choice :: _)) => Some (choice_content choice)
      | _ => None
      end
  | _ => None
  end.


(** A configuration value is present: set, and not to the empty text. *)
Definition present (process_env : gmap string string) (name : string)
    : Prop :=
  exists v, process_env !! name = Some v /\ v <> "".

Definition primary_configured (process_env : gmap string string) : Prop :=
  present process_env "GOOGLE_CLOUD_PROJECT_ID"
  /\ present process_env "GOOGLE_CLOUD_W2_PROCESSOR_ID"
  /\ present process_env "GOOGLE_APPLICATION_CREDENTIALS".

(** The two error classes of the secondary provider, as the errors the
    code throws: an unsuccessful HTTP call, and a reply without content or
    with content that is not JSON. *)
Definition ProviderError (e : exn) : Prop :=
  exists status, e = Error ("LLM API error: " +:+ JsString.of_N status).

Definition ParseError (e : exn) : Prop :=
  e = Error "No content returned from LLM API"
  \/ exists message, e = SyntaxError message.

(** The generic answer to a failure. *)
Definition internal_error : Response :=
  JsonResponse 500 (ErrorBody "Internal server error").

(** The session and the two look-ups of the process route answer. *)
Definition answers (request : Process.Request) : Prop :=
  Process.session_outcome request = Ok tt
  /\ Process.user_outcome request = Ok tt
  /\ Process.document_outcome request = Ok tt.

(** The failure of the first of them that the request reaches and that
    does not answer: a request without a session reaches no look-up, and
    the request of an unknown user does not reach the look-up of the
    document. *)
Definition lookup_failure (request : Process.Request) (w : World)
    : option exn :=
  match Process.session_outcome request with
  | Throw e => Some e
  | Ok _ =>
      match Process.session_email request with
      | None => None
      | Some email =>
          if String.eqb email "" then None
          else
            match Process.user_outcome request with
            | Throw e => Some e
            | Ok _ =>
                match users w !! email with
                | None => None
                | Some _ =>
                    match Process.document_outcome request with
                    | Throw e => Some e
                    | Ok _ => None
                    end
                end
            end
      end
  end.

Definition succeeds {A : Type} (r : result A) : bool :=
  match r with
  | Ok _ => true
  | Throw _ => false
  end.

(** The statuses an attempt of the owner writes, given how the extraction
    ends. It writes COMPLETED when the update to PROCESSING and the
    extraction succeed, the consumer has not cancelled the stream before
    the last chunk is enqueued, and the store takes the result. It closes
    the stream when, then, the consumer has not cancelled before the end
    marker either. It writes FAILED when it does not close the stream and
    the store takes that update. *)
Definition writes_completed (rt : Runtime) (request : Process.Request)
    (extraction : result ExtractedTaxData) : bool :=
  match extraction with
  | Ok etd =>
      let n := length (chunks (Process.jsonResponse rt etd)) in
      succeeds (Process.processing_outcome request)
      && negb ((0 <? n)%nat && Process.cancelled request (n - 1))
      && succeeds (Process.save_outcome request)
  | Throw _ => false
  end.

Definition closes (rt : Runtime) (request : Process.Request)
    (extraction : result ExtractedTaxData) : bool :=
  match extraction with
  | Ok etd =>
      writes_completed rt request extraction
      && negb (Process.cancelled request
                 (length (chunks (Process.jsonResponse rt etd))))
  | Throw _ => false
  end.

Definition writes_failed (rt : Runtime) (request : Process.Request)
    (extraction : result ExtractedTaxData) : bool :=
  succeeds (Process.failed_outcome request)
  && negb (closes rt request extraction).

Definition status_path (rt : Runtime) (request : Process.Request)
    (extraction : result ExtractedTaxData) : list ProcessingStatus :=
  ((if succeeds (Process.processing_outcome request)
    then [PROCESSING] else [])
   ++ (if writes_completed rt request extraction then [COMPLETED] else [])
   ++ (if writes_failed rt request extraction then [FAILED] else []))%list.


(** The request comes from a signed-in user and names, with the file
    [file], a tax return of that user. *)
Definition upload_owner (request : Upload.Request) (w : World)
    (file : Upload.File) : Prop :=
  exists email user taxReturnId taxReturn,
    Upload.session_email request = Some email
    /\ email <> ""
    /\ users w !! email = Some user
    /\ Upload.form_file request = Some file
    /\ Upload.form_taxReturnId request = Some taxReturnId
    /\ taxReturnId <> ""
    /\ taxReturns w !! taxReturnId = Some taxReturn
    /\ taxReturn_userId taxReturn = user_id user.

(** PDF, PNG, JPEG, TIFF *)
Definition supported_types : list string :=
  ["application/pdf"; "image/png"; "image/jpeg"; "image/tiff"].

(** 10 MiB *)
Definition MiB : N := 1024 * 1024.


(** The baseline liability of the what-if scenarios: that of the first
    base scenario, zero when there is none. *)
Definition baseline (base : list WhatIf.Calculation) : Q :=
  match base with
  | b :: _ => WhatIf.taxLiability b
  | [] => 0%Q
  end.


(** The anchor delimits something: it has a first text segment. *)
Definition has_segment (a : option DocumentAI.TextAnchor) : bool :=
  match a with
  | Some anchor =>
      match DocumentAI.textSegments anchor with
      | Some (_ :: _) => true
      | _ => false
      end
  | None => false
  end.


(** Assignments of values to named fields, one after the other. *)
Fixpoint set_all (assignments : list (string * string)) (o : Js.object)
    : Js.object :=
  match assignments with
  | [] => o
  | (key, value) :: rest => set_all rest (Js.set o key (JStr value))
  end.

(** The value the last assignment to [key] gives it. *)
Definition last_value (assignments : list (string * string)) (key : string)
    : option string :=
  option_map snd
    (find (fun kv => String.eqb (fst kv) key) (rev assignments)).

(** The W-2 field an entity type stands for. *)
Definition w2_entity_field (type : string) : option string :=
  if String.eqb type "employee_name" then Some "employeeName"
  else if String.eqb type "employee_ssn" then Some "employeeSSN"
  else if String.eqb type "employer_name" then Some "employerName"
  else if String.eqb type "employer_ein" then Some "employerEIN"
  else if String.eqb type "wages_tips_other_compensation" then Some "wages"
  else if String.eqb type "federal_income_tax_withheld"
    then Some "federalTaxWithheld"
  else if String.eqb type "social_security_wages"
    then Some "socialSecurityWages"
  else if String.eqb type "social_security_tax_withheld"
    then Some "socialSecurityTaxWithheld"
  else if String.eqb type "medicare_wages_and_tips" then Some "medicareWages"
  else if String.eqb type "medicare_tax_withheld"
    then Some "medicareTaxWithheld"
  else None.

(** The W-2 field the label of a form field stands for: the first of the
    four keyword rules that the label, in lower case, satisfies. *)
Definition w2_label_field (label : string) : option string :=
  let l := toLowerCase label in
  if includes l "wages" && includes l "tips" then Some "wages"
  else if includes l "federal" && includes l "tax"
    then Some "federalTaxWithheld"
  else if includes l "social security" && includes l "wages"
    then Some "socialSecurityWages"
  else if includes l "medicare" && includes l "wages"
    then Some "medicareWages"
  else None.

(** The text of an optional anchor. *)
Definition anchored_opt (fullText : string)
    (a : option DocumentAI.TextAnchor) : string :=
  match a with
  | Some a => anchored fullText a
  | None => ""
  end.

(** What the entities of a reply assign, and what the form fields of its
    first page assign, in the provider's order. *)
Definition w2_entity_assignments (document : DocumentAI.AIDocument)
    (fullText : string) : list (string * string) :=
  flat_map
    (fun e =>
       match w2_entity_field (DocumentAI.entity_type e) with
       | Some key =>
           [(key, anchored_opt fullText (DocumentAI.entity_textAnchor e))]
       | None => []
       end)
    (default [] (DocumentAI.entities document)).

Definition w2_field_assignments (document : DocumentAI.AIDocument)
    (fullText : string) : list (string * string) :=
  flat_map
    (fun lv =>
       match w2_label_field (fst lv) with
       | Some key => [(key, snd lv)]
       | None => []
       end)
    (labelled_fields document fullText).

(** The canonical fields of a document type. *)
Definition schema (documentType : string) : list string :=
  if String.eqb documentType "W2" then DocumentAI.w2_fields
  else if String.eqb documentType "FORM_1099_INT"
    then DocumentAI.form1099Int_fields
  else if String.eqb documentType "FORM_1099_DIV"
    then DocumentAI.form1099Div_fields
  else if String.eqb documentType "FORM_1099_MISC"
    then DocumentAI.form1099Misc_fields
  else if String.eqb documentType "FORM_1099_NEC"
    then DocumentAI.form1099Nec_fields
  else ["payerName"; "payerTIN"; "recipientName"; "recipientTIN";
        "incomeAmount"; "taxWithheld"; "relevantBoxes"].

(** A score between 0 and 1. *)
Definition unit_score (c : Q) : Prop := (0 <= c)%Q /\ (c <= 1)%Q.


(** ** The page *)

(** What [response.ok] means. *)
Definition ok_status (status : N) : bool :=
  (200 <=? status)%N && (status <=? 299)%N.

(** The envelope of a chunk survives the transport: parsed back it carries
    the chunk, it holds no line break, and it is not the end marker. *)
Definition envelope_ok (rt : Runtime) (chunk : string) : bool :=
  let text := JSON_stringify rt (JObj [("content", JStr chunk)]) in
  match JSON_parse rt (JStr text) with
  | Ok parsed =>
      match Js.prop parsed "content" with
      | Ok (JStr c) => String.eqb c chunk
      | _ => false
      end
  | Throw _ => false
  end
  && negb (JsString.includes text Process.newline)
  && negb (String.eqb text "[DONE]").

(** The page receives the response: the flag [ok] is that of the status,
    and a stream arrives as reads, each made of whole events, in order.
    After the events of a closed stream the body ends; when the stream was
    put in error the next read fails, and the events not yet read may be
    lost. A page that reads the body to its end has not cancelled it. *)
Definition delivers (response : Response)
    (fetched : DocumentProcessor.Fetched) : Prop :=
  match response with
  | JsonResponse status _ => DocumentProcessor.ok fetched = ok_status status
  | StreamResponse status events ending =>
      DocumentProcessor.ok fetched = ok_status status
      /\ match ending with
         | Closed =>
             (exists groups : list (list string),
                 List.concat groups = events
                 /\ DocumentProcessor.reads fetched
                    = Some (map concat groups))
             /\ DocumentProcessor.ending fetched = Ok tt
         | Errored =>
             (exists (groups : list (list string)) (lost : list string),
                 (List.concat groups ++ lost)%list = events
                 /\ DocumentProcessor.reads fetched
                    = Some (map concat groups))
             /\ exists e, DocumentProcessor.ending fetched = Throw e
         | Cancelled => False
         end
  end.

(** The state of the page that shows the extracted data. *)
Definition completed (state : DocumentProcessor.ProcessingState) (data : js)
    : DocumentProcessor.ProcessingState :=
  {| DocumentProcessor.file := DocumentProcessor.file state;
     DocumentProcessor.uploading := DocumentProcessor.uploading state;
     DocumentProcessor.processing := false;
     DocumentProcessor.progress := 100;
     DocumentProcessor.status := "completed";
     DocumentProcessor.message := "Document processed successfully";
     DocumentProcessor.document := DocumentProcessor.document state;
     DocumentProcessor.extractedData := data |}.

(** One of the reads holds the line of the end marker. *)
Definition has_done (body : list string) : bool :=
  existsb (fun chunk =>
             existsb (String.eqb "data: [DONE]")
               (DocumentProcessor.split (ascii_of_nat 10) chunk))
    body.

(** The state of the reading loop after the events of [n] chunks. *)
Definition analyzing (currentProgress : N)
    (state : DocumentProcessor.ProcessingState)
    : DocumentProcessor.ProcessingState :=
  {| DocumentProcessor.file := DocumentProcessor.file state;
     DocumentProcessor.uploading := DocumentProcessor.uploading state;
     DocumentProcessor.processing := DocumentProcessor.processing state;
     DocumentProcessor.progress := currentProgress;
     DocumentProcessor.status := DocumentProcessor.status state;
     DocumentProcessor.message := "Analyzing document content...";
     DocumentProcessor.document := DocumentProcessor.document state;
     DocumentProcessor.extractedData :=
       DocumentProcessor.extractedData state |}.

Fixpoint progress_after (n : nat) (currentProgress : N) : N :=
  match n with
  | O => currentProgress
  | S n => progress_after n (N.min 95 (currentProgress + 5))
  end.

Fixpoint state_after (n : nat) (currentProgress : N)
    (state : DocumentProcessor.ProcessingState)
    : DocumentProcessor.ProcessingState :=
  match n with
  | O => state
  | S n =>
      let currentProgress := N.min 95 (currentProgress + 5) in
      state_after n currentProgress (analyzing currentProgress state)
  end.

(** What the end marker does to the page when the buffer is [buffer]. *)
Definition done_step (rt : Runtime) (buffer : string)
    (state : DocumentProcessor.ProcessingState) : DocumentProcessor.Step :=
  match JSON_parse rt (JStr buffer) with
  | Ok data => DocumentProcessor.Return (completed state data) data
  | Throw _ =>
      DocumentProcessor.Raise (Error "Failed to parse extracted data") state
  end.

(** Two states of the page that differ at most in the progress and the
    message. *)
Definition same_page (s s' : DocumentProcessor.ProcessingState) : Prop :=
  DocumentProcessor.file s' = DocumentProcessor.file s
  /\ DocumentProcessor.uploading s' = DocumentProcessor.uploading s
  /\ DocumentProcessor.processing s' = DocumentProcessor.processing s
  /\ DocumentProcessor.status s' = DocumentProcessor.status s
  /\ DocumentProcessor.document s' = DocumentProcessor.document s
  /\ DocumentProcessor.extractedData s' = DocumentProcessor.extractedData s.

(** The invariant of the reading loop: the page is the one the loop
    started with, up to progress and message, and the progress shown is the
    current one, from 50 to 95. *)
Definition reading (s0 : DocumentProcessor.ProcessingState) (p : N)
    (s : DocumentProcessor.ProcessingState) : Prop :=
  same_page s0 s /\ (50 <= p <= 95)%N /\ DocumentProcessor.progress s = p.

End Spec.

(* ===================================================================== *)
(** * The runs of the process route in closed form                        *)
(* ===================================================================== *)

(** What the parts of the process route return and leave behind, written
    out by cases; the lemmas below show the handlers equal to them. *)
Module Closed.

(** The world a handler leaves: the document [d] at [params.id], the
    events [events] of the stream and the trace [t]. *)
Definition world (request : Process.Request) (d : Document)
    (events : list string) (t : list Event) (w : World) : World :=
  with_state (<[Process.params_id request := d]> (documents w)) events t w.

(** The [catch] of [start], after the events [sent], with the document
    [d]. *)
Definition broken (request : Process.Request) (sent : list string)
    (d : Document) (t : list Event) (w : World) : result Response * World :=
  (Ok (StreamResponse 200 sent
         (if Process.cancelled request (length sent)
          then Cancelled else Errored)),
   match Process.failed_outcome request with
   | Ok _ =>
       world request (Prisma.with_status FAILED d) sent
         (t ++ [Logged "Error in streaming response:";
                DocumentUpdated (Process.params_id request) FAILED None])%list
         w
   | Throw _ =>
       world request d sent
         (t ++ [Logged "Error in streaming response:"])%list w
   end).

(** [respond], with the document [d] and the trace [t]. *)
Definition respond (rt : Runtime) (request : Process.Request)
    (etd : ExtractedTaxData) (d : Document) (t : list Event) (w : World)
    : result Response * World :=
  let all :=
    map (Spec.chunk_event rt) (Spec.chunks (Process.jsonResponse rt etd)) in
  let stored := Prisma.with_extraction etd d in
  let t' :=
    (t ++ [DocumentUpdated (Process.params_id request) COMPLETED
             (Some etd)])%list in
  let after_chunks :=
    match Process.save_outcome request with
    | Throw _ => broken request all d t w
    | Ok _ =>
        if Process.cancelled request (length all)
        then broken request all stored t' w
        else
          (Ok (StreamResponse 200 (all ++ [Spec.done_event])%list Closed),
           world request stored (all ++ [Spec.done_event])%list t' w)
    end in
  match Process.cancel_after request with
  | Some k =>
      if (k <? length all)%nat
      then broken request (firstn k all) d t w
      else after_chunks
  | None => after_chunks
  end.

(** [failure], with the document [d]. *)
Definition failure (request : Process.Request) (d : Document) (w : World)
    : result Response * World :=
  match Process.failed_outcome request with
  | Ok _ =>
      (Ok Spec.internal_error,
       world request (Prisma.with_status FAILED d) (enqueued w)
         (trace w
          ++ [Logged "Document processing error:";
              DocumentUpdated (Process.params_id request) FAILED None])%list
         w)
  | Throw e =>
      (Throw e,
       with_trace (trace w ++ [Logged "Document processing error:"])%list w)
  end.

End Closed.

(* ===================================================================== *)
(** * Sample inputs                                                       *)
(* ===================================================================== *)

Module Samples.
Import DocumentAI.

Definition anchor (startIndex endIndex : N) : option Layout :=
  Some {| textAnchor :=
            Some {| textSegments :=
                      Some [{| startIndex := Some startIndex;
                               endIndex := Some endIndex |}] |};
          confidence := None |}.

(** A reply of the provider with form fields only, on one page. *)
Definition form_reply (text : string) (fields : list FormField) : AIDocument :=
  {| text := Some text;
     entities := None;
     pages := Some [{| formFields := Some fields |}] |}.

(** One form field, labelled "Federal income tax withheld", of value
    "1200". *)
Definition federal_withheld : AIDocument :=
  form_reply "Federal income tax withheld 1200"
    [{| fieldName := anchor 0 27; fieldValue := anchor 28 32 |}].

(** Two form fields, "Payer name" of value "Acme" and then "payer" of
    value "Zed". *)
Definition payer_twice : AIDocument :=
  form_reply "Payer name: Acme / payer: Zed"
    [{| fieldName := anchor 0 10; fieldValue := anchor 12 16 |};
     {| fieldName := anchor 19 24; fieldValue := anchor 26 29 |}].

(** A runtime for the samples. Its serializer covers strings without
    control characters, integers, booleans, [null], arrays and objects;
    its parser knows the one reply of [llm_reply]; its base64 encoder
    leaves the text as it is. *)
Definition quote_char : string := String (ascii_of_nat 34) EmptyString.

Fixpoint escape (s : string) : string :=
  match s with
  | EmptyString => EmptyString
  | String c rest =>
      (if Ascii.eqb c (ascii_of_nat 34) || Ascii.eqb c (ascii_of_nat 92)
       then String (ascii_of_nat 92) (String c EmptyString)
       else String c EmptyString) +:+ escape rest
  end.

Definition quoted (s : string) : string :=
  quote_char +:+ escape s +:+ quote_char.

Fixpoint join (l : list string) : string :=
  match l with
  | [] => EmptyString
  | [s] => s
  | s :: rest => s +:+ "," +:+ join rest
  end.

Fixpoint stringify (v : js) : string :=
  match v with
  | JUndefined | JNull => "null"
  | JBool true => "true"
  | JBool false => "false"
  | JNum n =>
      (if (Qnum n <? 0)%Z then "-" else "")
      +:+ JsString.of_N (Z.to_N (Z.abs (Qnum n / Zpos (Qden n))))
  | JStr s => quoted s
  | JArr items => "[" +:+ join (map stringify items) +:+ "]"
  | JObj props =>
      "{"
      +:+ join (map (fun kv => quoted (fst kv) +:+ ":" +:+ stringify (snd kv))
                    props)
      +:+ "}"
  end.

Definition llm_content : string := "(the reply of the model)".

Definition llm_parsed : js :=
  JObj [("documentType", JStr "W2");
        ("ocrText", JStr "Wages 55000.00");
        ("extractedData", JObj [("wages", JStr "55000.00")])].

Definition runtime : Runtime :=
  {| base64 := fun s => s;
     JSON_stringify := stringify;
     JSON_parse := fun v =>
       match v with
       | JStr s => if String.eqb s llm_content then Ok llm_parsed
                   else Throw (SyntaxError "Unexpected token")
       | _ => Throw (SyntaxError "Unexpected token")
       end |}.

(** A store with one user, one tax return, and one uploaded W-2. *)
Definition alice : User := {| user_id := "u1"; user_email := "alice@example.org" |}.

Definition uploaded : Document :=
  {| id := "d1"; taxReturnId := "t1"; fileName := "My-W2-2023.pdf";
     fileType := "application/pdf"; fileSize := 4;
     filePath := "/tmp/uploads/documents/0001.pdf";
     documentType := "W2"; processingStatus := PENDING;
     ocrText := None; extractedData := None |}.

Definition world : World :=
  {| users := {[ "alice@example.org" := alice ]};
     taxReturns := {[ "t1" := {| taxReturn_id := "t1";
                                 taxReturn_userId := "u1" |} ]};
     documents := {[ "d1" := uploaded ]};
     files := {[ "/tmp/uploads/documents/0001.pdf" := "%PDF" ]};
     enqueued := [];
     trace := [] |}.

(** The chat-completion endpoint answering with [llm_content]. *)
Definition llm_ok : Process.HttpResponse :=
  {| Process.ok := true; Process.status := 200;
     Process.json :=
       Ok (JObj [("choices",
                   JArr [JObj [("message",
                                 JObj [("content", JStr llm_content)])]])]) |}.

(** A process request; the session and the look-ups answer. *)
Definition request (email : option string) (i : string)
    (env : gmap string string) (client : DocumentAI.Client)
    (fetch : Process.LLMRequest -> result Process.HttpResponse)
    (processing save failed : result unit) (cancel : option nat)
    : Process.Request :=
  {| Process.session_outcome := Ok tt;
     Process.session_email := email;
     Process.params_id := i;
     Process.process_env := env;
     Process.client := client;
     Process.fetch := fetch;
     Process.user_outcome := Ok tt;
     Process.document_outcome := Ok tt;
     Process.processing_outcome := processing;
     Process.save_outcome := save;
     Process.failed_outcome := failed;
     Process.cancel_after := cancel |}.

(** A process request of the owner, with no primary provider configured. *)
Definition process_request : Process.Request :=
  request (Some "alice@example.org") "d1" ∅
    (fun _ => Throw (Rejected "UNAVAILABLE")) (fun _ => Ok llm_ok)
    (Ok tt) (Ok tt) (Ok tt) None.

(** A reply with one entity of confidence 0.9 and one form field whose
    value has confidence 0.8 and whose label has confidence 0.1, as
    doubles. *)
Definition scored_reply : AIDocument :=
  {| text := Some "Wages, tips 55000.00";
     entities :=
       Some [{| entity_type := "wages_tips_other_compensation";
                entity_textAnchor :=
                  Some {| textSegments :=
                            Some [{| startIndex := Some 12%N;
                                     endIndex := Some 20%N |}] |};
                entity_confidence := Some (Double.round 0.9) |}];
     pages :=
       Some [{| formFields :=
                  Some [{| fieldName :=
                             Some {| textAnchor := None;
                                     confidence := Some (Double.round 0.1) |};
                           fieldValue :=
                             Some {| textAnchor := None;
                                     confidence := Some (Double.round 0.8) |} |}] |}] |}.

(** A stand-in for the tax-calculation library: a flat tenth of the
    income above the deduction, with a standard deduction of 13850. *)
Definition flat_comparison (income : Q) (status : string) (itemized : Q)
    (dependents : list unit) : WhatIf.DeductionComparison :=
  {| WhatIf.recommendedMethod :=
       if Qle_bool itemized 13850 then "standard" else "itemized";
     WhatIf.itemizedTaxLiability := ((income - itemized) * 0.1)%Q;
     WhatIf.standardTaxLiability := ((income - 13850) * 0.1)%Q |}.

Definition flat_scenarios (income : Q) (status : string) (itemized : Q)
    (dependents : list unit) : list WhatIf.Calculation :=
  [{| WhatIf.scenario := "Current";
      WhatIf.description := "Standard deduction";
      WhatIf.itemizedDeductions := itemized;
      WhatIf.taxLiability := ((income - 13850) * 0.1)%Q;
      WhatIf.savings := 0%Q;
      WhatIf.custom := false;
      WhatIf.calculation_id := None |}].

(** AGI 50000, SINGLE, nothing itemized, and one scenario of 5000 more
    in charitable contributions. *)
Definition single_50000 : WhatIf.Props unit :=
  {| WhatIf.adjustedGrossIncome := Some 50000%Q;
     WhatIf.currentItemizedDeductions := Some 0%Q;
     WhatIf.filingStatus := Some "SINGLE";
     WhatIf.dependents := Some [] |}.

(** The same taxpayer with an AGI of 30000. *)
Definition single_30000 : WhatIf.Props unit :=
  {| WhatIf.adjustedGrossIncome := Some 30000%Q;
     WhatIf.currentItemizedDeductions := Some 0%Q;
     WhatIf.filingStatus := Some "SINGLE";
     WhatIf.dependents := Some [] |}.

Definition charity_5000 : WhatIf.CustomScenario :=
  {| WhatIf.id := "1"; WhatIf.name := "More giving";
     WhatIf.additionalAmount := 5000%Q;
     WhatIf.deductionType := "CHARITABLE_CONTRIBUTIONS" |}.


Definition w2_file (size : N) : Upload.File :=
  {| Upload.name := "My-W2-2023.pdf"; Upload.type := "application/pdf";
     Upload.size := size; Upload.content := "%PDF" |}.

Definition upload_w2 (size : N) (write : result unit) : Upload.Request :=
  {| Upload.session_email := Some "alice@example.org";
     Upload.form_file := Some (w2_file size);
     Upload.form_taxReturnId := Some "t1";
     Upload.uuid := "0002"; Upload.fresh_id := "d2";
     Upload.mkdir_outcome := Ok tt; Upload.writeFile_outcome := write;
     Upload.create_outcome := Ok tt |}.

(** The same request when the store rejects the final update. *)
Definition process_request_unsaved : Process.Request :=
  request (Some "alice@example.org") "d1" ∅
    (fun _ => Throw (Rejected "UNAVAILABLE")) (fun _ => Ok llm_ok)
    (Ok tt) (Throw (Rejected "Connection lost")) (Ok tt) None.

(** The same request when the chat-completion endpoint answers 503. *)
Definition llm_unavailable : Process.HttpResponse :=
  {| Process.ok := false; Process.status := 503;
     Process.json := Throw (SyntaxError "Unexpected token") |}.

Definition process_request_unavailable : Process.Request :=
  request (Some "alice@example.org") "d1" ∅
    (fun _ => Throw (Rejected "UNAVAILABLE")) (fun _ => Ok llm_unavailable)
    (Ok tt) (Ok tt) (Ok tt) None.

(** The same request when the page stops reading once the one chunk of
    the result is sent, before the end marker. *)
Definition process_request_cancelled : Process.Request :=
  request (Some "alice@example.org") "d1" ∅
    (fun _ => Throw (Rejected "UNAVAILABLE")) (fun _ => Ok llm_ok)
    (Ok tt) (Ok tt) (Ok tt) (Some 1%nat).

(** The endpoint answers 503, and the store rejects the update to
    FAILED. *)
Definition process_request_stuck : Process.Request :=
  request (Some "alice@example.org") "d1" ∅
    (fun _ => Throw (Rejected "UNAVAILABLE")) (fun _ => Ok llm_unavailable)
    (Ok tt) (Ok tt) (Throw (Rejected "Connection lost")) None.

(** A reply of the endpoint, as the provider sends it, whose content is
    no JSON text. *)
Definition llm_prose : Process.HttpResponse :=
  {| Process.ok := true; Process.status := 200;
     Process.json :=
       Ok (JObj [("id", JStr "chatcmpl-1");
                 ("object", JStr "chat.completion");
                 ("choices",
                   JArr [JObj [("index", JNum 0);
                               ("message",
                                 JObj [("role", JStr "assistant");
                                       ("content",
                                         JStr "I cannot read this file.")]);
                               ("finish_reason", JStr "stop")]]);
                 ("usage", JObj [("total_tokens", JNum 42)])]) |}.

Definition process_request_prose : Process.Request :=
  request (Some "alice@example.org") "d1" ∅
    (fun _ => Throw (Rejected "UNAVAILABLE")) (fun _ => Ok llm_prose)
    (Ok tt) (Ok tt) (Ok tt) None.

(** The store after a first, completed attempt on the document. *)
Definition first_result : ExtractedTaxData :=
  {| etd_documentType := JStr "W2";
     etd_ocrText := JStr "Wages 55000.00";
     etd_extractedData := JObj [("wages", JStr "55000.00")];
     etd_confidence := Double.round 0.85 |}.

Definition world_completed : World :=
  with_documents {[ "d1" := Prisma.with_extraction first_result uploaded ]}
    world.

(** A request of another user for the document of [alice]. *)
Definition process_request_stranger : Process.Request :=
  request (Some "mallory@example.org") "d1" ∅
    (fun _ => Throw (Rejected "UNAVAILABLE")) (fun _ => Ok llm_ok)
    (Ok tt) (Ok tt) (Ok tt) None.

(** A request without a session, for the document of [alice], when the
    look-up of the session fails. *)
Definition process_request_no_session : Process.Request :=
  {| Process.session_outcome := Throw (Rejected "Connection lost");
     Process.session_email := None;
     Process.params_id := "d1";
     Process.process_env := ∅;
     Process.client := fun _ => Throw (Rejected "UNAVAILABLE");
     Process.fetch := fun _ => Ok llm_ok;
     Process.user_outcome := Ok tt;
     Process.document_outcome := Ok tt;
     Process.processing_outcome := Ok tt;
     Process.save_outcome := Ok tt;
     Process.failed_outcome := Ok tt;
     Process.cancel_after := None |}.

(** The primary provider configured, without a 1099 processor, and a
    1099-INT of the owner. *)
Definition primary_env : gmap string string :=
  <["GOOGLE_CLOUD_PROJECT_ID" := "p"]>
    (<["GOOGLE_CLOUD_W2_PROCESSOR_ID" := "w2"]>
       (<["GOOGLE_APPLICATION_CREDENTIALS" := "/keys/sa.json"]> ∅)).

Definition process_request_primary (reply : option AIDocument)
    : Process.Request :=
  request (Some "alice@example.org") "d1" primary_env
    (fun _ => Ok reply) (fun _ => Ok llm_ok) (Ok tt) (Ok tt) (Ok tt) None.

Definition uploaded_1099 : Document :=
  {| id := "d1"; taxReturnId := "t1"; fileName := "1099-int.pdf";
     fileType := "application/pdf"; fileSize := 4;
     filePath := "/tmp/uploads/documents/0001.pdf";
     documentType := "FORM_1099_INT"; processingStatus := PENDING;
     ocrText := None; extractedData := None |}.

Definition textAnchor_of (startIndex endIndex : N) : option TextAnchor :=
  Some {| textSegments :=
            Some [{| startIndex := Some startIndex;
                     endIndex := Some endIndex |}] |}.

(** The reply [scored_reply] with a second page, whose one form field
    has a value of confidence 0.2. *)
Definition two_pages : AIDocument :=
  {| text := text scored_reply;
     entities := entities scored_reply;
     pages :=
       Some (default [] (pages scored_reply)
             ++ [{| formFields :=
                      Some [{| fieldName := anchor 0 5;
                               fieldValue :=
                                 Some {| textAnchor :=
                                           textAnchor_of 12 20;
                                         confidence := Some (Double.round 0.2) |} |}] |}])%list
  |}.

(** The upload of a W-2 whose insert the store rejects. *)
Definition upload_w2_rejected : Upload.Request :=
  {| Upload.session_email := Some "alice@example.org";
     Upload.form_file := Some (w2_file 4);
     Upload.form_taxReturnId := Some "t1";
     Upload.uuid := "0002"; Upload.fresh_id := "d2";
     Upload.mkdir_outcome := Ok tt; Upload.writeFile_outcome := Ok tt;
     Upload.create_outcome := Throw (Rejected "Foreign key constraint") |}.

(** A process request of the owner for the document [d2]. *)
Definition process_request_d2 : Process.Request :=
  request (Some "alice@example.org") "d2" ∅
    (fun _ => Throw (Rejected "UNAVAILABLE")) (fun _ => Ok llm_ok)
    (Ok tt) (Ok tt) (Ok tt) None.

(** A runtime whose parser also reads the envelope of a chunk and the
    serialized [llm_parsed]. *)
Fixpoint unescape (s : string) : string :=
  match s with
  | EmptyString => EmptyString
  | String c rest =>
      if Ascii.eqb c (ascii_of_nat 92)
      then match rest with
           | String c' rest' => String c' (unescape rest')
           | EmptyString => EmptyString
           end
      else String c (unescape rest)
  end.

Definition envelope_start : string :=
  Spec.take 12 (stringify (JObj [("content", JStr "")])).

Definition envelope_end : string :=
  Spec.drop 12 (stringify (JObj [("content", JStr "")])).

Definition parse_envelope (s : string) : result js :=
  let inner := JsString.slice s 12 (String.length s - 2) in
  if String.eqb s (envelope_start +:+ inner +:+ envelope_end)
  then Ok (JObj [("content", JStr (unescape inner))])
  else Throw (SyntaxError "Unexpected token").

Definition browser_runtime : Runtime :=
  {| base64 := fun s => s;
     JSON_stringify := stringify;
     JSON_parse := fun v =>
       match v with
       | JStr s =>
           if String.eqb s llm_content then Ok llm_parsed
           else if String.eqb s (stringify llm_parsed) then Ok llm_parsed
           else parse_envelope s
       | _ => Throw (SyntaxError "Unexpected token")
       end |}.

(** The page before the upload of [w2_file]. *)
Definition selected_state : DocumentProcessor.ProcessingState :=
  {| DocumentProcessor.file := Some (w2_file 4);
     DocumentProcessor.uploading := false;
     DocumentProcessor.processing := false;
     DocumentProcessor.progress := 0;
     DocumentProcessor.status := "idle";
     DocumentProcessor.message := "";
     DocumentProcessor.document := JNull;
     DocumentProcessor.extractedData := JNull |}.

(** The events of a successful attempt on [llm_parsed], each in a read of
    its own. *)
Definition sent_events : list string :=
  (map (Spec.chunk_event browser_runtime)
       (Spec.chunks (stringify llm_parsed))
   ++ [Spec.done_event])%list.

Definition fetched_stream (body : list string) (e : result unit)
    : DocumentProcessor.Fetched :=
  {| DocumentProcessor.ok := true;
     DocumentProcessor.json := Throw (SyntaxError "Unexpected token");
     DocumentProcessor.reads := Some body;
     DocumentProcessor.ending := e |}.

(** A network that answers the upload with the document [d2] and the
    processing request with [body]. *)
Definition network (body : list string) (e : result unit)
    : DocumentProcessor.Network :=
  {| DocumentProcessor.fetch_upload := fun _ _ =>
       Ok {| DocumentProcessor.ok := true;
             DocumentProcessor.json := Ok (JObj [("id", JStr "d2")]);
             DocumentProcessor.reads := None;
             DocumentProcessor.ending := Ok tt |};
     DocumentProcessor.fetch_process := fun _ => Ok (fetched_stream body e) |}.

(** The form of a scenario, filled in. *)
Definition filled_state : WhatIf.State :=
  {| WhatIf.customScenarios := [charity_5000];
     WhatIf.newScenario :=
       {| WhatIf.new_name := "More interest";
          WhatIf.new_additionalAmount := "2000";
          WhatIf.new_deductionType := "MORTGAGE_INTEREST" |};
     WhatIf.quickAmount := "750" |}.

(** A configuration without a 1099 processor. *)
Definition config_without_1099 : DocumentAIConfig :=
  {| projectId := "p"; location := "us"; w2ProcessorId := "w2";
     form1099ProcessorId := Some "" |}.

End Samples.

(* ===================================================================== *)
(** * Properties                                                          *)
(* ===================================================================== *)

(** ** Doubles *)

Section DoubleFacts.
Import Double.
Open Scope Q_scope.

Lemma pow2_pos (e : Z) : 0 < pow2 e.
Proof.
  unfold pow2. destruct (0 <=? e)%Z eqn:E.
  - apply Z.leb_le in E. change 0 with (inject_Z 0). rewrite <- Zlt_Qlt.
    now apply Z.pow_pos_nonneg.
  - reflexivity.
Qed.

(** For [e <= 0], [pow2 e] is the inverse of the integer [2 ^ (- e)]. *)
Lemma pow2_inverse (e : Z) :
  (e <= 0)%Z -> pow2 e * inject_Z (2 ^ (- e)) == 1.
Proof.
  intros He. unfold pow2. destruct (0 <=? e)%Z eqn:E.
  - apply Z.leb_le in E. assert (e = 0%Z) by lia. subst e. reflexivity.
  - assert (Hp : (0 < 2 ^ (- e))%Z) by (apply Z.pow_pos_nonneg; lia).
    unfold Qeq, Qmult, inject_Z. simpl.
    destruct (2 ^ (- e))%Z as [|p|p]; simpl; lia.
Qed.

Lemma nearest_even_cases (q : Q) :
  nearest_even q = Qfloor q \/ nearest_even q = (Qfloor q + 1)%Z.
Proof.
  unfold nearest_even.
  destruct (Qcompare _ _); [destruct (Z.even _)|..]; auto.
Qed.

Lemma nearest_even_nonneg (q : Q) : 0 <= q -> (0 <= nearest_even q)%Z.
Proof.
  intros Hq. assert (H : (0 <= Qfloor q)%Z).
  { change 0%Z with (Qfloor 0). now apply Qfloor_resp_le. }
  destruct (nearest_even_cases q) as [-> | ->]; lia.
Qed.

(** Rounding to the nearest integer does not pass an integer. *)
Lemma nearest_even_le (q : Q) (k : Z) :
  q <= inject_Z k -> (nearest_even q <= k)%Z.
Proof.
  intros Hq. pose proof (Qfloor_le q) as Hf.
  assert (Hk : (Qfloor q <= k)%Z).
  { rewrite <- (Qfloor_Z k). now apply Qfloor_resp_le. }
  unfold nearest_even.
  destruct (Qcompare (q - inject_Z (Qfloor q)) (1 # 2)) eqn:E.
  - apply Qeq_alt in E. destruct (Z.even (Qfloor q)); [exact Hk|].
    destruct (Z.eq_dec (Qfloor q) k) as [<-|]; [lra | lia].
  - exact Hk.
  - apply Qgt_alt in E.
    destruct (Z.eq_dec (Qfloor q) k) as [<-|]; [lra | lia].
Qed.

Lemma round_positive_nonneg (x : Q) : 0 < x -> 0 <= round_positive x.
Proof.
  intros Hx. unfold round_positive.
  pose proof (pow2_pos (exponent x)) as Hp.
  apply Qmult_le_0_compat; [|lra].
  change 0 with (inject_Z 0). rewrite <- Zle_Qle.
  apply nearest_even_nonneg. apply Qle_shift_div_l; lra.
Qed.

Lemma exponent_small (x : Q) :
  0 < x -> x < inject_Z (2 ^ 53) -> (exponent x <= 0)%Z.
Proof.
  intros H0 Hx. unfold exponent, least_exponent, precision.
  destruct (Qle_bool 1 x) eqn:E.
  - apply Qle_bool_iff in E.
    assert (H1 : (1 <= Qfloor x)%Z).
    { change 1%Z with (Qfloor 1). now apply Qfloor_resp_le. }
    assert (H2 : (Qfloor x < 2 ^ 53)%Z).
    { rewrite Zlt_Qlt. pose proof (Qfloor_le x). lra. }
    apply Z.log2_lt_pow2 in H2; lia.
  - pose proof (Z.log2_up_nonneg (Qceiling (/ x))). lia.
Qed.

Lemma round_positive_le (x : Q) (k : Z) :
  0 < x -> x < inject_Z (2 ^ 53) -> x <= inject_Z k ->
  round_positive x <= inject_Z k.
Proof.
  intros H0 Hx Hk. unfold round_positive.
  pose proof (exponent_small x H0 Hx) as He.
  set (e := exponent x) in *.
  pose proof (pow2_pos e) as Hp. pose proof (pow2_inverse e He) as Hi.
  set (P := (2 ^ (- e))%Z) in *.
  assert (HP : 0 < inject_Z P).
  { change 0 with (inject_Z 0). rewrite <- Zlt_Qlt.
    apply Z.pow_pos_nonneg; lia. }
  assert (Hk' : inject_Z k * inject_Z P * pow2 e == inject_Z k).
  { rewrite <- Qmult_assoc, (Qmult_comm (inject_Z P)), Hi. ring. }
  assert (Hq : x / pow2 e <= inject_Z (k * P)).
  { rewrite inject_Z_mult. apply Qle_shift_div_r; [exact Hp|].
    rewrite Hk'. exact Hk. }
  apply nearest_even_le in Hq. rewrite Zle_Qle in Hq.
  rewrite inject_Z_mult in Hq. rewrite <- Hk'.
  apply Qmult_le_compat_r; [exact Hq | lra].
Qed.

(** Between [2 ^ 53] and [2 ^ 53 + 1] every number is rounded down to
    [2 ^ 53]. *)
Lemma round_positive_saturated (x : Q) :
  inject_Z (2 ^ 53) <= x -> x <= inject_Z (2 ^ 53 + 1) ->
  round_positive x == inject_Z (2 ^ 53).
Proof.
  intros Hlo Hhi.
  assert (Hf1 : (2 ^ 53 <= Qfloor x)%Z).
  { rewrite <- (Qfloor_Z (2 ^ 53)). now apply Qfloor_resp_le. }
  assert (Hf2 : (Qfloor x <= 2 ^ 53 + 1)%Z).
  { rewrite <- (Qfloor_Z (2 ^ 53 + 1)). now apply Qfloor_resp_le. }
  assert (He : exponent x = 1%Z).
  { unfold exponent, least_exponent, precision.
    assert (E : Qle_bool 1 x = true).
    { apply Qle_bool_iff. change (2 ^ 53)%Z with 9007199254740992%Z in Hlo.
      unfold inject_Z in Hlo. lra. }
    rewrite E.
    rewrite (Z.log2_unique (Qfloor x) 53); [reflexivity | lia|].
    change (2 ^ 53)%Z with 9007199254740992%Z in *.
    change (2 ^ Z.succ 53)%Z with 18014398509481984%Z. lia. }
  unfold round_positive. rewrite He.
  change (pow2 1) with (inject_Z 2).
  change (2 ^ 53)%Z with 9007199254740992%Z in *.
  change (9007199254740992 + 1)%Z with 9007199254740993%Z in *.
  assert (Hq : Qfloor (x / inject_Z 2) = 4503599627370496%Z).
  { assert (A : (4503599627370496 <= Qfloor (x / inject_Z 2))%Z).
    { rewrite <- (Qfloor_Z 4503599627370496). apply Qfloor_resp_le.
      apply Qle_shift_div_l; [reflexivity|]. unfold inject_Z in *. lra. }
    assert (B : (Qfloor (x / inject_Z 2) < 4503599627370497)%Z).
    { rewrite Zlt_Qlt. pose proof (Qfloor_le (x / inject_Z 2)) as Hfl.
      eapply Qle_lt_trans; [exact Hfl|].
      apply Qlt_shift_div_r; [reflexivity|]. unfold inject_Z in *. lra. }
    lia. }
  assert (Hn : nearest_even (x / inject_Z 2) = 4503599627370496%Z).
  { unfold nearest_even. rewrite Hq.
    destruct (Qcompare _ _) eqn:E; [reflexivity..|].
    apply Qgt_alt in E. exfalso.
    assert (x / inject_Z 2 <= 9007199254740993 # 2).
    { apply Qle_shift_div_r; [reflexivity|]. unfold inject_Z in *. lra. }
    unfold inject_Z in *. lra. }
  rewrite Hn. reflexivity.
Qed.

Lemma round_nonneg (x : Q) : 0 <= x -> 0 <= round x.
Proof.
  intros Hx. unfold round. rewrite Qred_correct.
  destruct (Qcompare x 0) eqn:E.
  - lra.
  - apply Qlt_alt in E. lra.
  - apply Qgt_alt in E. now apply round_positive_nonneg.
Qed.

(** Rounding does not pass an integer that is itself a double. *)
Lemma round_le (x : Q) (k : Z) :
  (0 <= k <= 2 ^ 53)%Z -> x <= inject_Z k -> round x <= inject_Z k.
Proof.
  intros Hk Hx. unfold round. rewrite Qred_correct.
  assert (H0 : 0 <= inject_Z k).
  { change 0 with (inject_Z 0). rewrite <- Zle_Qle. lia. }
  destruct (Qcompare x 0) eqn:E.
  - exact H0.
  - apply Qlt_alt in E.
    assert (0 <= round_positive (- x)) by (apply round_positive_nonneg; lra).
    lra.
  - apply Qgt_alt in E.
    destruct (Qlt_le_dec x (inject_Z (2 ^ 53))) as [Hs|Hs].
    + now apply round_positive_le.
    + assert (Hk' : inject_Z k <= inject_Z (2 ^ 53)) by (rewrite <- Zle_Qle; lia).
      assert (Hk2 : inject_Z (2 ^ 53) <= inject_Z k) by lra.
      rewrite round_positive_saturated; [exact Hk2 | exact Hs|].
      rewrite inject_Z_plus. change (inject_Z 1) with 1. lra.
Qed.

Lemma round_saturated (x : Q) :
  x <= inject_Z (2 ^ 53 + 1) -> round x <= inject_Z (2 ^ 53).
Proof.
  intros Hx.
  destruct (Qlt_le_dec x (inject_Z (2 ^ 53))) as [Hs|Hs].
  - apply round_le; [lia | lra].
  - unfold round. rewrite Qred_correct.
    assert (E : Qcompare x 0 = Gt).
    { apply Qgt_alt. change (2 ^ 53)%Z with 9007199254740992%Z in Hs.
      unfold inject_Z in Hs. lra. }
    rewrite E, round_positive_saturated; [lra | exact Hs | exact Hx].
Qed.

(** Rounding does not depend on the fraction that stands for a number. *)
Lemma nearest_even_compat (q q' : Q) :
  q == q' -> nearest_even q = nearest_even q'.
Proof.
  intros H. unfold nearest_even. cbv zeta.
  rewrite (Qfloor_comp _ _ H).
  rewrite (Qcompare_comp (q - inject_Z (Qfloor q'))
             (q' - inject_Z (Qfloor q'))
             ltac:(rewrite H; reflexivity) (1 # 2) (1 # 2) (Qeq_refl _)).
  reflexivity.
Qed.

Lemma exponent_compat (x y : Q) : x == y -> exponent x = exponent y.
Proof.
  intros H. unfold exponent. cbv zeta.
  rewrite (Qleb_comp 1 1 (Qeq_refl 1) x y H), (Qfloor_comp _ _ H).
  rewrite (Qceiling_comp (/ x) (/ y)) by (rewrite H; reflexivity).
  reflexivity.
Qed.

Lemma round_positive_compat (x y : Q) :
  x == y -> round_positive x == round_positive y.
Proof.
  intros H. unfold round_positive. cbv zeta.
  rewrite (exponent_compat x y H).
  rewrite (nearest_even_compat (x / pow2 (exponent y))
             (y / pow2 (exponent y))) by (rewrite H; reflexivity).
  reflexivity.
Qed.

Lemma round_compat (x y : Q) : x == y -> round x = round y.
Proof.
  intros H. unfold round.
  rewrite (Qcompare_comp x y H 0 0 (Qeq_refl 0)).
  apply Qred_complete.
  destruct (Qcompare y 0); [reflexivity|..].
  - assert (H' : - x == - y) by (rewrite H; reflexivity).
    rewrite (round_positive_compat _ _ H'). reflexivity.
  - apply round_positive_compat, H.
Qed.

End DoubleFacts.

(** ** Strings *)

Section StringFacts.
Import JsString.

Lemma prefix_iff (p s : string) :
  String.prefix p s = true <-> exists r, s = p +:+ r.
Proof.
  revert s; induction p as [|a p IH]; intros s; simpl.
  - destruct s; split; eauto.
  - destruct s as [|b s]; simpl.
    + split; [discriminate | intros [r Hr]; discriminate].
    + destruct (ascii_dec a b) as [->|Hab].
      * rewrite IH. split; intros [r Hr]; exists r.
        -- now rewrite Hr.
        -- now injection Hr.
      * split; [discriminate|]. intros [r Hr]. injection Hr as E _.
        now symmetry in E.
Qed.

(** [includes] is the substring relation. *)
Lemma includes_iff (s x : string) :
  includes s x = true <-> exists pre post, s = pre +:+ x +:+ post.
Proof.
  induction s as [|c s IH]; cbn [includes].
  - rewrite orb_false_r, prefix_iff. split.
    + intros [r Hr]. exists "", r. exact Hr.
    + intros [pre [post H]]. destruct pre; [eauto | discriminate].
  - rewrite orb_true_iff, prefix_iff, IH. split.
    + intros [[r Hr] | [pre [post H]]].
      * exists "", r. exact Hr.
      * exists (String c pre), post. simpl. now rewrite H.
    + intros [pre [post H]]. destruct pre as [|c' pre].
      * left. eauto.
      * right. simpl in H. injection H as _ H. eauto.
Qed.

Lemma toLowerCase_app (a b : string) :
  toLowerCase (a +:+ b) = toLowerCase a +:+ toLowerCase b.
Proof. induction a; simpl; congruence. Qed.

(** Matching the lower-cased text against a lower-case pattern is
    matching without regard to case. *)
Lemma ci_prefix_lower (needle hay : string) :
  Spec.ci_prefix needle hay
  = String.prefix (toLowerCase needle) (toLowerCase hay).
Proof.
  revert hay; induction needle as [|a n IH]; intros [|b h]; simpl; trivial.
  unfold Spec.same_letter.
  destruct (ascii_dec (toLowerCase_char a) (toLowerCase_char b)) as [E|E].
  - rewrite E, Ascii.eqb_refl. apply IH.
  - apply Ascii.eqb_neq in E. now rewrite E.
Qed.

Lemma ci_includes_lower (hay needle : string) :
  Spec.ci_includes hay needle
  = includes (toLowerCase hay) (toLowerCase needle).
Proof.
  induction hay as [|b h IH]; cbn [Spec.ci_includes includes toLowerCase].
  - now rewrite ci_prefix_lower.
  - now rewrite ci_prefix_lower, IH.
Qed.

Lemma toLowerCase_split (s a b : string) :
  toLowerCase s = a +:+ b ->
  exists s1 s2, s = s1 +:+ s2 /\ toLowerCase s1 = a /\ toLowerCase s2 = b.
Proof.
  revert s; induction a as [|c a IH]; intros s H; simpl in H.
  - now exists "", s.
  - destruct s as [|d s]; [discriminate|]. simpl in H.
    injection H as Hc Hs. destruct (IH _ Hs) as [s1 [s2 [-> [H1 H2]]]].
    exists (String d s1), s2. simpl. now rewrite Hc, H1.
Qed.

(** What a case-insensitive match is: some stretch of the text spells the
    pattern up to case. *)
Lemma ci_includes_iff (hay needle : string) :
  Spec.ci_includes hay needle = true
  <-> exists pre mid post,
        hay = pre +:+ mid +:+ post
        /\ toLowerCase mid = toLowerCase needle.
Proof.
  rewrite ci_includes_lower, includes_iff. split.
  - intros [pre [post H]].
    destruct (toLowerCase_split _ _ _ H) as [p [r [-> [_ Hr]]]].
    destruct (toLowerCase_split _ _ _ Hr) as [m [q [-> [Hm _]]]].
    now exists p, m, q.
  - intros [pre [mid [post [-> E]]]].
    exists (toLowerCase pre), (toLowerCase post).
    now rewrite !toLowerCase_app, E.
Qed.

End StringFacts.

(** ** Document intake: the type inferred from the file name *)

Section Intake.
Import JsString.

Lemma determineDocumentType_inferredType (fileName : string) :
  Upload.determineDocumentType fileName = Spec.inferredType fileName.
Proof.
  unfold Spec.inferredType, Spec.priority, Upload.determineDocumentType.
  cbn [find existsb fst snd].
  rewrite !ci_includes_lower.
  repeat match goal with
         | |- context [toLowerCase (String ?c ?s)] =>
             let v := eval vm_compute in (toLowerCase (String c s)) in
             change (toLowerCase (String c s)) with v
         end.
  rewrite !orb_false_r.
  repeat match goal with
         | |- context [if ?b then _ else _] => destruct b; [reflexivity|]
         end.
  reflexivity.
Qed.

End Intake.

(** C2. The document type inferred from an uploaded file name is the one
    of the first rule, in the order W2 ("w-2" or "w2"), 1099-INT, 1099-DIV,
    1099-MISC, 1099-NEC, 1099-R, 1099-G, plain "1099" (OTHER_TAX_DOCUMENT),
    one of whose patterns occurs in the name without regard to case, and
    UNKNOWN when no rule applies; so "My-W2-2023.pdf" is a W2,
    "form-1099-xyz.pdf" an OTHER_TAX_DOCUMENT and "receipt.pdf" UNKNOWN. *)
Theorem C2_document_type_priority :
  (forall fileName,
     Upload.determineDocumentType fileName = Spec.inferredType fileName)
  /\ Upload.determineDocumentType "My-W2-2023.pdf" = "W2"
  /\ Upload.determineDocumentType "1099-div-form.png" = "FORM_1099_DIV"
  /\ Upload.determineDocumentType "form-1099-xyz.pdf" = "OTHER_TAX_DOCUMENT"
  /\ Upload.determineDocumentType "receipt.pdf" = "UNKNOWN".
Proof.
  split; [exact determineDocumentType_inferredType|].
  repeat split; reflexivity.
Qed.

(** ** Objects *)

Section ObjectFacts.

Lemma get_set_same (o : Js.object) (key : string) (v : js) :
  Js.get (Js.set o key v) key = Some v.
Proof.
  induction o as [|[k v0] o IH]; simpl.
  - now rewrite String.eqb_refl.
  - destruct (String.eqb k key) eqn:E; simpl; rewrite E; auto.
Qed.

Lemma get_set_other (o : Js.object) (key key' : string) (v : js) :
  key' <> key -> Js.get (Js.set o key v) key' = Js.get o key'.
Proof.
  intros Hne. induction o as [|[k v0] o IH]; simpl.
  - apply String.eqb_neq in Hne. rewrite String.eqb_sym in Hne.
    now rewrite Hne.
  - destruct (String.eqb k key) eqn:E; simpl.
    + apply String.eqb_eq in E; subst k.
      destruct (String.eqb key key') eqn:E'; auto.
      apply String.eqb_eq in E'. congruence.
    + now rewrite IH.
Qed.

Lemma keys_set (o : Js.object) (key : string) (v : js) :
  In key (Js.keys o) -> Js.keys (Js.set o key v) = Js.keys o.
Proof.
  induction o as [|[k v0] o IH]; simpl; [tauto|]. intros H.
  destruct (String.eqb k key) eqn:E; simpl; [reflexivity|].
  f_equal. apply IH. destruct H as [H|H]; [|exact H].
  apply String.eqb_neq in E. congruence.
Qed.

End ObjectFacts.

(** ** The field normalizer *)

Section Normalizer.
Import JsString DocumentAI.

Lemma find_split {A} (p : A -> bool) (l : list A) (x : A) :
  find p l = Some x
  <-> exists l1 l2,
        l = (l1 ++ x :: l2)%list /\ p x = true /\ Forall (fun y => p y = false) l1.
Proof.
  induction l as [|a l IH]; simpl.
  - split; [discriminate|]. intros [[|] [l2 [H _]]]; discriminate.
  - destruct (p a) eqn:Ea.
    + split.
      * intros [= ->]. exists [], l. auto.
      * intros [[|b l1] [l2 [H [Hx Hall]]]]; simpl in H.
        -- congruence.
        -- injection H as -> _. inversion Hall; congruence.
    + rewrite IH. split.
      * intros [l1 [l2 [-> [Hx Hall]]]]. exists (a :: l1), l2. auto.
      * intros [[|b l1] [l2 [H [Hx Hall]]]]; simpl in H.
        -- congruence.
        -- injection H as _ ->. inversion Hall; eauto.
Qed.

Lemma find_snoc {A} (p : A -> bool) (l : list A) (x : A) :
  find p (l ++ [x])%list
  = match find p l with
    | Some y => Some y
    | None => if p x then Some x else None
    end.
Proof. induction l as [|a l IH]; simpl; [|destruct (p a)]; auto. Qed.

(** The loop over the entries assigns to the selected field. *)
Lemma assign_first_match_selected (entries : Js.object) (label value : string)
    (o : Js.object) :
  assign_first_match entries (normalize label) value o
  = match Spec.selected (Js.keys entries) label with
    | Some key => Js.set o key (JStr value)
    | None => o
    end.
Proof.
  unfold Spec.selected.
  induction entries as [|[k v] entries IH]; simpl; [reflexivity|].
  unfold Spec.matches at 1. destruct (_ || _); auto.
Qed.

Lemma selected_in (fields : list string) (label key : string) :
  Spec.selected fields label = Some key -> In key fields.
Proof. intros H. now apply find_some in H. Qed.

Lemma getText_defined (a : option TextAnchor) (t : string) :
  getText a (Some t)
  = Ok (match a with Some a => Spec.anchored t a | None => "" end).
Proof.
  destruct a as [a|]; [|reflexivity].
  unfold Spec.anchored, getText.
  destruct (textSegments a) as [[|seg segs]|]; reflexivity.
Qed.

(** One provider field: nothing when a side is missing or no canonical
    field is selected, an overwriting assignment otherwise. *)
Lemma generic_field_step (t : string) (o : Js.object) (f : FormField) :
  generic_field (Some t) o f
  = Ok (match layout_anchor (fieldName f), layout_anchor (fieldValue f) with
        | Some n, Some v =>
            match Spec.selected (Js.keys o) (Spec.anchored t n) with
            | Some key => Js.set o key (JStr (Spec.anchored t v))
            | None => o
            end
        | _, _ => o
        end).
Proof.
  unfold generic_field.
  destruct (layout_anchor (fieldName f)) as [n|]; [|reflexivity].
  destruct (layout_anchor (fieldValue f)) as [v|]; [|reflexivity].
  rewrite !getText_defined. now rewrite assign_first_match_selected.
Qed.

Lemma fold_generic_fields (t : string) (fields : list FormField)
    (o : Js.object) :
  fold_result (generic_field (Some t)) fields o
  = Ok (Spec.assign_all
          (flat_map
             (fun f =>
                match layout_anchor (fieldName f),
                      layout_anchor (fieldValue f) with
                | Some n, Some v => [(Spec.anchored t n, Spec.anchored t v)]
                | _, _ => []
                end) fields) o).
Proof.
  revert o; induction fields as [|f fields IH]; intros o; simpl.
  - reflexivity.
  - rewrite generic_field_step.
    destruct (layout_anchor (fieldName f)) as [n|]; simpl; auto.
    destruct (layout_anchor (fieldValue f)) as [v|]; simpl; auto.
Qed.

Lemma assign_all_keys (provided : list (string * string)) (o : Js.object) :
  Js.keys (Spec.assign_all provided o) = Js.keys o.
Proof.
  revert o; induction provided as [|[l v] rest IH]; intros o; simpl; auto.
  rewrite IH. destruct (Spec.selected (Js.keys o) l) as [k|] eqn:E; auto.
  apply keys_set. eapply selected_in; eauto.
Qed.

Lemma assign_all_get (provided : list (string * string)) (o : Js.object)
    (key : string) :
  Js.get (Spec.assign_all provided o) key
  = match Spec.last_assigned (Js.keys o) provided key with
    | Some v => Some (JStr v)
    | None => Js.get o key
    end.
Proof.
  unfold Spec.last_assigned.
  revert o; induction provided as [|[l v] rest IH]; intros o; simpl; auto.
  rewrite IH, find_snoc. clear IH.
  assert (Hk : Js.keys (match Spec.selected (Js.keys o) l with
                        | Some k => Js.set o k (JStr v)
                        | None => o
                        end) = Js.keys o).
  { destruct (Spec.selected (Js.keys o) l) as [k|] eqn:E; auto.
    apply keys_set. eapply selected_in; eauto. }
  rewrite Hk.
  destruct (find _ (rev rest)) as [[l' v']|]; simpl; [reflexivity|].
  unfold Spec.selects.
  destruct (Spec.selected (Js.keys o) l) as [k|]; simpl; [|reflexivity].
  destruct (String.eqb k key) eqn:E; simpl.
  - apply String.eqb_eq in E; subst. apply get_set_same.
  - apply get_set_other. apply String.eqb_neq in E. congruence.
Qed.

Lemma strip_non_alnum_filter (s : string) :
  list_ascii_of_string (strip_non_alnum s)
  = List.filter is_alnum (list_ascii_of_string s).
Proof.
  induction s as [|c s IH]; simpl; [reflexivity|].
  destruct (is_alnum c); simpl; congruence.
Qed.

Lemma toLowerCase_map (s : string) :
  list_ascii_of_string (toLowerCase s)
  = map toLowerCase_char (list_ascii_of_string s).
Proof. induction s; simpl; congruence. Qed.

Lemma normalize_lower_alnum (s : string) :
  Forall (fun c => Spec.lower_alnum c = true)
         (list_ascii_of_string (normalize s)).
Proof.
  unfold normalize. rewrite strip_non_alnum_filter, toLowerCase_map.
  induction (list_ascii_of_string s) as [|c l IH]; simpl; [constructor|].
  destruct (is_alnum (toLowerCase_char c)) eqn:E; [|exact IH].
  constructor; [|exact IH]. clear -E.
  destruct c as [[] [] [] [] [] [] [] []]; try reflexivity; discriminate E.
Qed.

End Normalizer.

(** C1 (amended). On the generic form-field path the provider's label and
    each canonical field name are normalized by lowercasing and dropping
    every character that is not a letter or digit; the value goes to the
    first canonical field, in declaration order, whose normalized name is
    a substring of the normalized label or the other way round; the
    assignment overwrites, so a canonical field ends with the value of the
    last provider field selecting it. The label "Federal income tax
    withheld" with value "1200" gives federalTaxWithheld = "1200" on the
    W-2 path. *)
Theorem C1_generic_fields_last_match_stands :
  (forall s,
     list_ascii_of_string (DocumentAI.normalize s)
     = List.filter JsString.is_alnum
         (map JsString.toLowerCase_char (list_ascii_of_string s))
     /\ Forall (fun c => Spec.lower_alnum c = true)
               (list_ascii_of_string (DocumentAI.normalize s)))
  /\ (forall fields label key,
        Spec.selected fields label = Some key
        <-> exists before after,
              fields = (before ++ key :: after)%list
              /\ Spec.matches label key = true
              /\ Forall (fun k => Spec.matches label k = false) before)
  /\ (forall document fullText dataObject,
        DocumentAI.text document = Some fullText ->
        exists result,
          DocumentAI.extractGenericFormFields document dataObject = Ok result
          /\ Js.keys result = Js.keys dataObject
          /\ forall key,
               Js.get result key
               = match Spec.last_assigned (Js.keys dataObject)
                         (Spec.labelled_fields document fullText) key with
                 | Some value => Some (JStr value)
                 | None => Js.get dataObject key
                 end)
  /\ (exists w2Data,
        DocumentAI.extractW2Data Samples.federal_withheld = Ok w2Data
        /\ Js.get w2Data "federalTaxWithheld" = Some (JStr "1200")).
Proof.
  split; [|split; [|split]].
  - intros s. split; [|apply normalize_lower_alnum].
    unfold DocumentAI.normalize.
    now rewrite strip_non_alnum_filter, toLowerCase_map.
  - intros fields label key. apply find_split.
  - intros document fullText dataObject Htext.
    unfold DocumentAI.extractGenericFormFields, Spec.labelled_fields.
    rewrite Htext.
    destruct (DocumentAI.first_page_formFields document) as [fields|]; simpl.
    + rewrite fold_generic_fields. eexists. split; [reflexivity|].
      split; [apply assign_all_keys | apply assign_all_get].
    + exists dataObject. auto.
  - eexists. split; reflexivity.
Qed.

Lemma C1_witness :
  exists result,
    DocumentAI.extractGenericFormFields Samples.payer_twice
      (DocumentAI.empty_fields DocumentAI.form1099Nec_fields) = Ok result
    /\ Js.get result "payerName" = Some (JStr "Zed").
Proof.
  destruct (proj1 (proj2 (proj2 C1_generic_fields_last_match_stands))
              Samples.payer_twice "Payer name: Acme / payer: Zed"
              (DocumentAI.empty_fields DocumentAI.form1099Nec_fields)
              eq_refl) as [result [Hr [_ Hget]]].
  exists result. split; [exact Hr|]. rewrite Hget. reflexivity.
Defined.

(** On the generic path a later and weaker match does overwrite: "Payer
    name" sets payerName to "Acme", and the later label "payer" replaces
    it by "Zed"; and the label "Federal income tax withheld" selects no
    field of the 1099-INT schema, whose federalTaxWithheld stays empty. *)
Lemma C1_counterexample :
  (Spec.selected DocumentAI.form1099Nec_fields "Payer name" = Some "payerName"
   /\ exists result,
        DocumentAI.extract1099NecData Samples.payer_twice = Ok result
        /\ Js.get result "payerName" = Some (JStr "Zed")
        /\ Js.get result "payerName" <> Some (JStr "Acme"))
  /\ (exists result,
        DocumentAI.extract1099IntData Samples.federal_withheld = Ok result
        /\ Js.get result "federalTaxWithheld" = Some (JStr "")
        /\ Js.get result "federalTaxWithheld" <> Some (JStr "1200")).
Proof.
  split; [split; [reflexivity|]|]; eexists;
    (split; [reflexivity | split; [reflexivity | discriminate]]).
Qed.

(** ** The processor pipelines *)

(** C10. A document whose type is neither W2 nor one of the six 1099
    variants (UNKNOWN and OTHER_TAX_DOCUMENT among them) is sent to the
    W-2 processor, and a 1099 variant fails with a configuration error
    when no 1099 processor id is configured. *)
Theorem C10_processor_routing (config : DocumentAI.DocumentAIConfig)
    (documentType : string) :
  (~ In documentType
        ["W2"; "FORM_1099_INT"; "FORM_1099_DIV"; "FORM_1099_MISC";
         "FORM_1099_NEC"; "FORM_1099_R"; "FORM_1099_G"] ->
   DocumentAI.getProcessorName config documentType
   = Ok (DocumentAI.processor_path (DocumentAI.projectId config)
           (DocumentAI.location config) (DocumentAI.w2ProcessorId config)))
  /\ (In documentType
         ["FORM_1099_INT"; "FORM_1099_DIV"; "FORM_1099_MISC";
          "FORM_1099_NEC"; "FORM_1099_R"; "FORM_1099_G"] ->
      DocumentAI.form1099ProcessorId config = None
      \/ DocumentAI.form1099ProcessorId config = Some "" ->
      DocumentAI.getProcessorName config documentType
      = Throw (Error ("No 1099 processor configured for " +:+ documentType))).
Proof.
  unfold DocumentAI.getProcessorName, DocumentAI.is_1099_variant. split.
  - intros Hnot. simpl in Hnot.
    destruct (String.eqb documentType "W2") eqn:E0.
    { apply String.eqb_eq in E0. tauto. }
    cbn [existsb].
    repeat match goal with
           | |- context [String.eqb documentType ?s] =>
               let E := fresh "E" in
               destruct (String.eqb documentType s) eqn:E;
               [apply String.eqb_eq in E; exfalso; apply Hnot; subst; tauto|]
           end.
    reflexivity.
  - intros Hin Hcfg.
    assert (Hv : existsb (String.eqb documentType)
                   ["FORM_1099_INT"; "FORM_1099_DIV"; "FORM_1099_MISC";
                    "FORM_1099_NEC"; "FORM_1099_R"; "FORM_1099_G"] = true).
    { apply existsb_exists. exists documentType. split; [exact Hin|].
      apply String.eqb_refl. }
    rewrite Hv.
    assert (Hw : String.eqb documentType "W2" = false).
    { apply String.eqb_neq. intros ->. simpl in Hin.
      repeat destruct Hin as [Hin|Hin]; try discriminate; exact Hin. }
    rewrite Hw. destruct Hcfg as [-> | ->]; reflexivity.
Qed.

Lemma C10_witness :
  DocumentAI.getProcessorName Samples.config_without_1099 "UNKNOWN"
  = Ok "projects/p/locations/us/processors/w2"
  /\ DocumentAI.getProcessorName Samples.config_without_1099 "FORM_1099_R"
     = Throw (Error "No 1099 processor configured for FORM_1099_R").
Proof.
  split.
  - apply (proj1 (C10_processor_routing Samples.config_without_1099
                    "UNKNOWN")).
    simpl. intros H. repeat destruct H as [H|H]; try discriminate; exact H.
  - apply (proj2 (C10_processor_routing Samples.config_without_1099
                    "FORM_1099_R")).
    + simpl. tauto.
    + right. reflexivity.
Defined.

(** ** Confidence *)

Section Confidence.
Import DocumentAI.

Lemma fold_add_confidence {A} (f : A -> option Q) (l : list A)
    (total : Q) (count : nat) :
  fold_left (fun acc e => add_confidence acc (f e)) l (total, count)
  = (fold_left Double.add (Spec.reported (map f l)) total,
     (count + length (Spec.reported (map f l)))%nat).
Proof.
  revert total count; induction l as [|a l IH]; intros total count; simpl.
  - now rewrite Nat.add_0_r.
  - destruct (f a) as [c|]; simpl.
    + rewrite IH. cbn [fst snd]. f_equal. lia.
    + apply IH.
Qed.

Lemma fold_pages_confidence (ps : list Page) (total : Q) (count : nat) :
  let scores :=
    flat_map (fun page =>
                Spec.reported (map value_confidence
                                   (default [] (formFields page)))) ps in
  fold_left
    (fun acc page =>
       match formFields page with
       | Some fs =>
           fold_left (fun acc f => add_confidence acc (value_confidence f))
                     fs acc
       | None => acc
       end) ps (total, count)
  = (fold_left Double.add scores total, (count + length scores)%nat).
Proof.
  revert total count; induction ps as [|p ps IH]; intros total count; simpl.
  - now rewrite Nat.add_0_r.
  - destruct (formFields p) as [fs|]; simpl.
    + rewrite fold_add_confidence, IH.
      rewrite fold_left_app, length_app. f_equal. lia.
    + apply IH.
Qed.

Lemma calculateAverageConfidence_mean (document : AIDocument) :
  calculateAverageConfidence document
  = match Spec.reported_scores document with
    | [] => 0%Q
    | _ :: _ => Spec.double_mean (Spec.reported_scores document)
    end.
Proof.
  unfold calculateAverageConfidence, Spec.reported_scores,
    Spec.double_mean, Spec.double_sum.
  set (es := Spec.reported
               (map entity_confidence (default [] (entities document)))).
  set (fs := flat_map _ (default [] (pages document))).
  assert (E1 : match entities document with
               | Some es0 =>
                   fold_left
                     (fun acc e => add_confidence acc (entity_confidence e))
                     es0 (0%Q, 0%nat)
               | None => (0%Q, 0%nat)
               end = (fold_left Double.add es 0%Q, length es)).
  { subst es. destruct (entities document) as [l|]; simpl; [|reflexivity].
    now rewrite fold_add_confidence. }
  rewrite E1.
  assert (E2 : match pages document with
               | Some ps =>
                   fold_left
                     (fun acc page =>
                        match formFields page with
                        | Some fs0 =>
                            fold_left
                              (fun acc0 f =>
                                 add_confidence acc0 (value_confidence f))
                              fs0 acc
                        | None => acc
                        end) ps (fold_left Double.add es 0%Q, length es)
               | None => (fold_left Double.add es 0%Q, length es)
               end = (fold_left Double.add (es ++ fs)%list 0%Q,
                      length (es ++ fs)%list)).
  { subst fs. destruct (pages document) as [ps|]; simpl.
    - rewrite fold_pages_confidence, fold_left_app, length_app. reflexivity.
    - now rewrite app_nil_r. }
  rewrite E2.
  destruct (es ++ fs)%list as [|c l]; reflexivity.
Qed.

(** Sums of scores between 0 and 1 stay between 0 and the number of
    scores, and below [2 ^ 53], where the doubles stop to tell the
    integers apart. *)
Lemma double_sum_bounds (l : list Q) (acc : Q) (n : nat) :
  Forall Spec.unit_score l ->
  (0 <= acc)%Q ->
  (acc <= inject_Z (Z.min (Z.of_nat n) (2 ^ 53)))%Q ->
  (0 <= fold_left Double.add l acc)%Q
  /\ (fold_left Double.add l acc
      <= inject_Z (Z.min (Z.of_nat (n + length l)) (2 ^ 53)))%Q.
Proof.
  intros H. revert acc n.
  induction H as [|c l [H0 H1] _ IH]; intros acc n Hlo Hhi.
  - simpl. now rewrite Nat.add_0_r.
  - cbn [fold_left length].
    replace (n + S (length l))%nat with (S n + length l)%nat by lia.
    apply IH.
    + apply round_nonneg. lra.
    + unfold Double.add.
      destruct (Z.le_gt_cases (Z.of_nat (S n)) (2 ^ 53)) as [Hn|Hn].
      * rewrite Z.min_l by exact Hn. apply round_le; [lia|].
        rewrite Z.min_l in Hhi by lia.
        rewrite Nat2Z.inj_succ, <- Z.add_1_r, inject_Z_plus.
        change (inject_Z 1) with 1%Q. lra.
      * rewrite Z.min_r by lia. apply round_saturated.
        assert (Hm : (inject_Z (Z.min (Z.of_nat n) (2 ^ 53))
                      <= inject_Z (2 ^ 53))%Q)
          by (rewrite <- Zle_Qle; lia).
        rewrite inject_Z_plus. change (inject_Z 1) with 1%Q. lra.
Qed.

End Confidence.

(** ** Slicing a text *)

Section Slicing.
Import JsString.

Lemma substring_take_drop (i m : nat) (s : string) :
  String.substring i m s = Spec.take m (Spec.drop i s).
Proof.
  revert i m; induction s as [|c s IH]; intros [|i] [|m]; simpl; auto.
  now rewrite IH.
Qed.

Lemma take_all (n : nat) (s : string) :
  (String.length s <= n)%nat -> Spec.take n s = s.
Proof.
  revert n; induction s as [|c s IH]; intros [|n] H; simpl in *; auto;
    [lia|].
  rewrite IH; [reflexivity | lia].
Qed.

Lemma take_drop (n : nat) (s : string) : Spec.take n s +:+ Spec.drop n s = s.
Proof.
  revert n; induction s as [|c s IH]; intros [|n]; simpl; auto.
  now rewrite IH.
Qed.

Lemma drop_length (n : nat) (s : string) :
  String.length (Spec.drop n s) = (String.length s - n)%nat.
Proof. revert n; induction s as [|c s IH]; intros [|n]; simpl; auto. Qed.

Lemma take_length (n : nat) (s : string) :
  String.length (Spec.take n s) = Nat.min n (String.length s).
Proof. revert n; induction s as [|c s IH]; intros [|n]; simpl; auto. Qed.

Lemma drop_drop (i n : nat) (s : string) :
  Spec.drop n (Spec.drop i s) = Spec.drop (i + n) s.
Proof.
  revert i; induction s as [|c s IH]; intros [|i]; simpl; auto;
    now destruct n.
Qed.

Lemma drop_empty_iff (i : nat) (s : string) :
  Spec.drop i s = "" <-> (String.length s <= i)%nat.
Proof.
  revert i; induction s as [|c s IH]; intros [|i]; simpl;
    try rewrite IH; split; intros H; try discriminate; try lia; auto.
Qed.

(** [s.slice(i, i + n)] is the next [n] characters from [i] on. *)
Lemma slice_take_drop (s : string) (i n : nat) :
  slice s i (i + n) = Spec.take n (Spec.drop i s).
Proof.
  unfold slice. rewrite substring_take_drop.
  destruct (Nat.le_gt_cases (i + n) (String.length s)) as [H|H].
  - f_equal. lia.
  - rewrite (take_all n); [|rewrite drop_length; lia].
    apply take_all. rewrite drop_length. lia.
Qed.

Lemma concat_slices (fuel size : nat) (s : string) :
  (0 < size)%nat -> (String.length s <= fuel)%nat ->
  Spec.concat (Spec.slices fuel size s) = s.
Proof.
  intros Hsize. revert s; induction fuel as [|fuel IH]; intros s Hfuel.
  - destruct s; [reflexivity | simpl in Hfuel; lia].
  - destruct s as [|c s]; [reflexivity|].
    cbn [Spec.slices Spec.concat]. rewrite IH.
    + apply take_drop.
    + rewrite drop_length. simpl in *. lia.
Qed.

(** The [i]-th slice is the text from [i * size] to [i * size + size]. *)
Lemma slices_nth (fuel size : nat) (s : string) (i : nat) (c : string) :
  (0 < size)%nat -> (String.length s <= fuel)%nat ->
  nth_error (Spec.slices fuel size s) i = Some c ->
  c = Spec.take size (Spec.drop (i * size) s)
  /\ (i * size < String.length s)%nat.
Proof.
  intros Hsize. revert s i; induction fuel as [|fuel IH]; intros s i Hfuel H.
  - destruct s; destruct i; discriminate.
  - destruct s as [|a s]; [destruct i; discriminate|].
    cbn [Spec.slices] in H. destruct i as [|i]; simpl in H.
    + injection H as <-. split; [reflexivity | simpl; lia].
    + apply IH in H; [|rewrite drop_length; simpl in *; lia].
      destruct H as [-> Hlt]. rewrite drop_drop, drop_length in *.
      split; [f_equal; f_equal; lia | lia].
Qed.

Lemma slices_length (fuel size : nat) (s : string) (i : nat) :
  (0 < size)%nat -> (String.length s <= fuel)%nat ->
  (i * size < String.length s)%nat ->
  (i < length (Spec.slices fuel size s))%nat.
Proof.
  intros Hsize. revert s i; induction fuel as [|fuel IH]; intros s i Hfuel H.
  - lia.
  - destruct s as [|a s]; [simpl in H; lia|].
    cbn [Spec.slices length]. destruct i as [|i]; [lia|].
    apply ->Nat.succ_lt_mono. apply IH.
    + rewrite drop_length. simpl in *. lia.
    + rewrite drop_length. lia.
Qed.

End Slicing.

(** ** The route handlers *)

(** Case analysis on the innermost scrutinee of the goal. *)
Ltac case_inner :=
  match goal with
  | |- context [match ?x with _ => _ end] =>
      lazymatch x with
      | context [match _ with _ => _ end] => fail
      | _ => destruct x eqn:?; simpl
      end
  end.

Section Handlers.
Import Process.

Lemma with_enqueued_same (w : World) : with_enqueued (enqueued w) w = w.
Proof. now destruct w. Qed.

(** The loop enqueues one event per slice of the text left at [i], until
    the consumer cancels. *)
Lemma send_chunks_run (rt : Runtime) (rq : Request) (fuel : nat)
    (s : string) (i : nat) (w : World) :
  let all :=
    map (Spec.chunk_event rt) (Spec.slices fuel chunkSize (Spec.drop i s)) in
  send_chunks rt rq fuel s i w
  = match cancel_after rq with
    | Some k =>
        if (k - length (enqueued w) <? length all)%nat
        then (Throw (TypeError "Invalid state: Controller is already closed"),
              with_enqueued
                (enqueued w ++ firstn (k - length (enqueued w)) all)%list w)
        else (Ok tt, with_enqueued (enqueued w ++ all)%list w)
    | None => (Ok tt, with_enqueued (enqueued w ++ all)%list w)
    end.
Proof.
  revert i w; induction fuel as [|fuel IH]; intros i w all.
  - subst all. simpl. unfold ret. rewrite app_nil_r, with_enqueued_same.
    destruct (cancel_after rq) as [k|]; [|reflexivity].
    now destruct (k - length (enqueued w))%nat.
  - cbn [send_chunks]. destruct (i <? String.length s)%nat eqn:E.
    + apply Nat.ltb_lt in E.
      destruct (Spec.drop i s) as [|c r] eqn:Ed.
      { apply drop_empty_iff in Ed. lia. }
      subst all. cbn [Spec.slices map length]. rewrite <- Ed.
      rewrite <- slice_take_drop, drop_drop.
      unfold bind at 1. unfold enqueue at 1, bind at 1, get_world at 1.
      unfold cancelled.
      destruct (cancel_after rq) as [k|] eqn:Hc.
      * destruct (k <=? length (enqueued w))%nat eqn:Hk.
        -- apply Nat.leb_le in Hk.
           replace (k - length (enqueued w))%nat with 0%nat by lia.
           simpl. unfold throw. now rewrite app_nil_r, with_enqueued_same.
        -- apply Nat.leb_gt in Hk. unfold set_enqueued.
           rewrite IH. cbn [enqueued with_enqueued].
           rewrite length_app. cbn [length].
           replace (k - length (enqueued w))%nat
             with (S (k - (length (enqueued w) + 1)))%nat by lia.
           cbn [firstn]. change (S ?a <? S ?b)%nat with (a <? b)%nat.
           destruct (_ <? _)%nat; unfold with_enqueued; simpl;
             now rewrite <- app_assoc.
      * unfold set_enqueued. rewrite IH.
        unfold with_enqueued; simpl. now rewrite <- app_assoc.
    + apply Nat.ltb_ge in E. apply drop_empty_iff in E. subst all.
      rewrite E. simpl. unfold ret. rewrite app_nil_r, with_enqueued_same.
      destruct (cancel_after rq) as [k|]; [|reflexivity].
      now destruct (k - length (enqueued w))%nat.
Qed.

(** The secondary provider only adds its invocation to the trace. *)
Lemma processWithLLM_world (rt : Runtime) (rq : Request) (d : Document)
    (w : World) :
  snd (processWithLLM rt rq d w)
  = with_trace (trace w ++ [SecondaryInvoked (documentType d)])%list w.
Proof.
  unfold processWithLLM, bind, emit, Fs.readFile, lift, throw, ret. simpl.
  repeat (case_inner; auto).
Qed.

(** Its result depends on the world through the file system only. *)
Lemma processWithLLM_result (rt : Runtime) (rq : Request) (d : Document)
    (w : World) (t : list Event) :
  fst (processWithLLM rt rq d (with_trace t w))
  = fst (processWithLLM rt rq d w).
Proof.
  unfold processWithLLM, bind, emit, Fs.readFile, lift, throw, ret. simpl.
  repeat (case_inner; auto).
Qed.

Lemma processWithLLM_confidence (rt : Runtime) (rq : Request) (d : Document)
    (w : World) (r : ExtractedTaxData) :
  fst (processWithLLM rt rq d w) = Ok r ->
  etd_confidence r = Double.round 0.85.
Proof.
  unfold processWithLLM, bind, emit, Fs.readFile, lift, throw, ret. simpl.
  repeat (case_inner; try discriminate).
  now intros [= <-].
Qed.

Lemma processWithLLM_http_error (rt : Runtime) (rq : Request) (d : Document)
    (w : World) (data : string) (resp : HttpResponse) :
  files w !! filePath d = Some data ->
  (forall q, fetch rq q = Ok resp) ->
  ok resp = false ->
  fst (processWithLLM rt rq d w)
  = Throw (Error ("LLM API error: " +:+ JsString.of_N (status resp))).
Proof.
  intros Hfile Hfetch Hok.
  unfold processWithLLM, bind, emit, Fs.readFile, lift, throw, ret. simpl.
  now rewrite Hfile, Hfetch, Hok.
Qed.

(** The accessors of the code read the returned content of a reply. *)
Lemma returned_content_read (reply content : js) :
  Spec.returned_content reply = Some content ->
  exists choices choice,
    Js.prop reply "choices" = Ok choices
    /\ Js.index0 choices = Ok choice
    /\ Js.opt_prop (Js.opt_prop choice "message") "content" = content.
Proof.
  unfold Spec.returned_content.
  destruct reply as [| | | | | |fields]; try discriminate.
  cbn [Js.prop].
  destruct (Js.get fields "choices") as [[| | | | |items|]|];
    try discriminate.
  destruct items as [|choice items]; intros [= <-].
  - exists (JArr []), JUndefined. repeat split.
  - exists (JArr (choice :: items)), choice. split; [reflexivity|].
    split; [reflexivity|].
    destruct choice as [| | | | | |c]; try reflexivity.
    cbn [Js.opt_prop Spec.choice_content].
    destruct (Js.get c "message") as [[| | | | | |m]|]; reflexivity.
Qed.

Lemma processWithLLM_no_content (rt : Runtime) (rq : Request) (d : Document)
    (w : World) (data : string) (resp : HttpResponse) (reply content : js) :
  files w !! filePath d = Some data ->
  (forall q, fetch rq q = Ok resp) ->
  ok resp = true ->
  json resp = Ok reply ->
  Spec.returned_content reply = Some content ->
  Js.truthy content = false ->
  fst (processWithLLM rt rq d w)
  = Throw (Error "No content returned from LLM API").
Proof.
  intros Hfile Hfetch Hok Hjson Hr Hc.
  destruct (returned_content_read reply content Hr)
    as (choices & choice & H1 & H2 & H3).
  unfold processWithLLM, bind, emit, Fs.readFile, lift, throw, ret. simpl.
  rewrite Hfile, Hfetch, Hok, Hjson. simpl. rewrite H1, H2, H3.
  now rewrite Hc.
Qed.

Lemma processWithLLM_parse_error (rt : Runtime) (rq : Request) (d : Document)
    (w : World) (data : string) (resp : HttpResponse) (reply content : js)
    (e : exn) :
  files w !! filePath d = Some data ->
  (forall q, fetch rq q = Ok resp) ->
  ok resp = true ->
  json resp = Ok reply ->
  Spec.returned_content reply = Some content ->
  Js.truthy content = true ->
  JSON_parse rt content = Throw e ->
  fst (processWithLLM rt rq d w) = Throw e.
Proof.
  intros Hfile Hfetch Hok Hjson Hr Hc Hparse.
  destruct (returned_content_read reply content Hr)
    as (choices & choice & H1 & H2 & H3).
  unfold processWithLLM, bind, emit, Fs.readFile, lift, throw, ret. simpl.
  rewrite Hfile, Hfetch, Hok, Hjson. simpl. rewrite H1, H2, H3.
  now rewrite Hc, Hparse.
Qed.

(** The primary provider only adds its invocation, and the log of its
    failure, to the trace. *)
Lemma processDocument_world (rt : Runtime) (client : DocumentAI.Client)
    (config : DocumentAI.DocumentAIConfig) (path type : string) (w : World) :
  snd (DocumentAI.processDocument rt client config path type w)
  = with_trace
      (trace w
       ++ PrimaryInvoked type
          :: match fst (DocumentAI.processDocument rt client config path
                          type w) with
             | Ok _ => []
             | Throw _ =>
                 [Logged "Error processing document with Document AI:"]
             end)%list w.
Proof.
  unfold DocumentAI.processDocument, try_catch, bind, emit, Fs.readFile,
    lift, throw, ret. simpl.
  repeat (case_inner; auto);
    unfold with_trace; simpl; now rewrite <- ?app_assoc.
Qed.

Lemma env_set_or (env : gmap string string) (name : string) :
  env_set env name = true -> DocumentAI.env_or env name "" <> "".
Proof.
  unfold env_set, Js.truthy_str, DocumentAI.env_or.
  destruct (env !! name) as [v|]; [|discriminate].
  destruct (String.eqb v "") eqn:E; [discriminate|].
  intros _. now apply String.eqb_neq.
Qed.

(** With the three values present the configuration is complete. *)
Lemma useDocumentAI_config (rq : Request) :
  useDocumentAI rq = true ->
  exists config,
    DocumentAI.createDocumentAIConfig (process_env rq) = Ok config.
Proof.
  unfold useDocumentAI. rewrite !andb_true_iff. intros [[H1 H2] _].
  apply env_set_or in H1, H2. apply String.eqb_neq in H1, H2.
  unfold DocumentAI.createDocumentAIConfig. cbn [DocumentAI.projectId
    DocumentAI.w2ProcessorId]. rewrite H1, H2. simpl. eauto.
Qed.

Lemma withDocumentAI_world (rt : Runtime) (rq : Request) (d : Document)
    (w : World) :
  useDocumentAI rq = true ->
  snd (withDocumentAI rt rq d w)
  = with_trace
      (trace w
       ++ PrimaryInvoked (documentType d)
          :: match fst (withDocumentAI rt rq d w) with
             | Ok _ => []
             | Throw _ =>
                 [Logged "Error processing document with Document AI:"]
             end)%list w.
Proof.
  intros H. destruct (useDocumentAI_config rq H) as [config Hc].
  unfold withDocumentAI, bind, lift. rewrite Hc.
  destruct (DocumentAI.processDocument _ _ _ _ _ w) as [r w'] eqn:E.
  pose proof (processDocument_world rt (client rq) config (filePath d)
                (documentType d) w) as Hw.
  rewrite E in Hw. exact Hw.
Qed.

(** The choice of the provider: which are called, and whose result is
    kept. *)
Lemma extractTaxData_run (rt : Runtime) (rq : Request) (d : Document)
    (w : World) :
  exists new,
    snd (extractTaxData rt rq d w) = with_trace (trace w ++ new)%list w
    /\ forallb (fun e => negb (Spec.is_update e)) new = true
    /\ if useDocumentAI rq then
         match fst (withDocumentAI rt rq d w) with
         | Ok r =>
             fst (extractTaxData rt rq d w) = Ok r
             /\ Spec.providers_called new = [Spec.Primary]
         | Throw _ =>
             fst (extractTaxData rt rq d w) = fst (processWithLLM rt rq d w)
             /\ Spec.providers_called new = [Spec.Primary; Spec.Secondary]
         end
       else
         fst (extractTaxData rt rq d w) = fst (processWithLLM rt rq d w)
         /\ Spec.providers_called new = [Spec.Secondary].
Proof.
  unfold extractTaxData. destruct (useDocumentAI rq) eqn:Hu.
  - pose proof (withDocumentAI_world rt rq d w Hu) as Hw.
    unfold try_catch.
    destruct (withDocumentAI rt rq d w) as [[r|e] w1]; simpl in Hw; subst w1.
    + exists [PrimaryInvoked (documentType d)]. simpl. auto.
    + match goal with
      | |- context [bind (emit ?l) (fun _ => ?p) ?w1] =>
          change (bind (emit l) (fun _ => p) w1)
            with (p (with_trace (trace w1 ++ [l])%list w1))
      end.
      rewrite processWithLLM_world, !processWithLLM_result.
      exists [PrimaryInvoked (documentType d);
              Logged "Error processing document with Document AI:";
              Logged "Document AI processing failed, falling back to LLM:";
              SecondaryInvoked (documentType d)].
      split; [unfold with_trace; simpl; now rewrite <- !app_assoc|].
      repeat split.
  - match goal with
    | |- context [bind (emit ?l) (fun _ => ?p) ?w1] =>
        change (bind (emit l) (fun _ => p) w1)
          with (p (with_trace (trace w1 ++ [l])%list w1))
    end.
    rewrite processWithLLM_world, !processWithLLM_result.
    exists [Logged "Google Document AI not configured, using LLM fallback";
            SecondaryInvoked (documentType d)].
    split; [unfold with_trace; simpl; now rewrite <- !app_assoc|].
    repeat split.
Qed.

(** The [catch] of the handler on a document that exists. *)
Lemma failure_run (rq : Request) (w : World) (d : Document) :
  documents w !! params_id rq = Some d ->
  failure rq w = Closed.failure rq d w.
Proof.
  intros Hd. unfold failure, Closed.failure, set_status,
    Prisma.document_set_status, Prisma.document_update, error_response,
    bind, lift, emit, get_world, set_documents, throw, ret. simpl.
  destruct (failed_outcome rq) as [u|e]; [|reflexivity].
  rewrite Hd. unfold Closed.world, with_state, with_trace, with_documents.
  simpl. now rewrite <- app_assoc.
Qed.

(** The response stream: the chunks, then the update and the end marker,
    unless the consumer cancels or the store rejects the update; then the
    failure status, if the store takes it, and a stream that is cut
    short. *)
Lemma respond_run (rt : Runtime) (rq : Request) (etd : ExtractedTaxData)
    (w : World) (d : Document) :
  documents w !! params_id rq = Some d ->
  respond rt rq etd w
  = Closed.respond rt rq etd d (trace w)
      (with_documents (<[params_id rq := d]> (documents w)) w).
Proof.
  intros Hd. rewrite (insert_id _ _ _ Hd).
  replace (with_documents (documents w) w) with w by now destruct w.
  set (all := map (Spec.chunk_event rt) (Spec.chunks (jsonResponse rt etd))).
  assert (Hw : forall sent,
             with_enqueued sent (with_enqueued [] w)
             = with_state (<[params_id rq := d]> (documents w)) sent
                 (trace w) w).
  { intros sent. rewrite (insert_id _ _ _ Hd). reflexivity. }
  unfold Closed.respond. fold all.
  cbv beta iota zeta delta [respond start try_catch bind set_enqueued
                            get_world ret broken].
  rewrite send_chunks_run.
  cbn [enqueued with_enqueued length Nat.sub app].
  change (Spec.slices _ chunkSize (Spec.drop 0 ?x)) with (Spec.chunks x).
  fold all. rewrite ?Nat.sub_0_r, !Hw.
  unfold Closed.broken, Closed.world, save_extraction, enqueue, set_status,
    Prisma.document_set_status, Prisma.document_update, cancelled.
  cbv beta iota zeta delta [emit lift bind get_world set_documents
                            set_enqueued throw ret].
  assert (Htake : forall k, (k <? length all)%nat = true ->
                         (k <=? length (take k all))%nat = true).
  { intros k Hk. apply Nat.ltb_lt in Hk. apply Nat.leb_le.
    rewrite length_take. lia. }
  destruct (cancel_after rq) as [k|];
    [destruct (k <? length all)%nat eqn:Hk;
     [pose proof (Htake k Hk) as Hk'|]|];
    destruct (save_outcome rq) as [u|e];
    destruct (failed_outcome rq) as [u'|e'];
    rewrite ?Nat.sub_0_r, ?Hk;
    repeat first
      [ progress cbn [documents enqueued trace with_state with_trace
                      with_documents with_enqueued users taxReturns files
                      length]
      | progress rewrite ?Hd, ?lookup_insert_eq, ?Hk'
      | progress cbv beta iota
      | match goal with
        | |- context [if ?b then _ else _] => destruct b eqn:?
        end ];
    unfold with_state, with_trace, with_documents, with_enqueued;
    cbn [documents enqueued trace users taxReturns files];
    rewrite ?insert_insert_eq, ?(insert_id _ _ _ Hd), <- ?app_assoc;
    try reflexivity; congruence.
Qed.

(** One attempt of the owner, from the look-ups on. *)
Lemma POST_owner (rt : Runtime) (rq : Request) (w : World) (d : Document) :
  Spec.owner_request rq w d ->
  let i := params_id rq in
  let d1 := Prisma.with_status PROCESSING d in
  let w1 :=
    with_state (<[i := d1]> (documents w)) (enqueued w)
      (trace w ++ [DocumentUpdated i PROCESSING None])%list w in
  exists new,
    snd (extractTaxData rt rq d w1) = with_trace (trace w1 ++ new)%list w1
    /\ forallb (fun e => negb (Spec.is_update e)) new = true
    /\ POST rt rq w
       = match Spec.lookup_failure rq w with
         | Some _ => Closed.failure rq d w
         | None =>
             match processing_outcome rq with
             | Throw _ => Closed.failure rq d w
             | Ok _ =>
                 match fst (extractTaxData rt rq d w1) with
                 | Throw _ =>
                     Closed.failure rq d1
                       (with_trace (trace w1 ++ new)%list w1)
                 | Ok etd =>
                     Closed.respond rt rq etd d1 (trace w1 ++ new)%list w1
                 end
             end
         end.
Proof.
  intros (email & user & taxReturn & Hs & He & Hu & Hd & Ht & Ho) i d1 w1.
  subst i.
  destruct (extractTaxData_run rt rq d w1) as (new & Hw & Hn & _).
  exists new. split; [exact Hw|]. split; [exact Hn|].
  unfold POST, try_catch, Spec.lookup_failure. rewrite Hs.
  apply String.eqb_neq in He. rewrite He, Hu.
  unfold bind at 1, lift at 1.
  destruct (session_outcome rq) as [u0|e0]; [|now apply failure_run].
  unfold bind at 1, lift at 1.
  destruct (user_outcome rq) as [u1|e1]; [|now apply failure_run].
  unfold bind at 1. unfold Prisma.user_findUnique at 1. rewrite Hu.
  unfold bind at 1, lift at 1.
  destruct (document_outcome rq) as [u2|e2]; [|now apply failure_run].
  unfold bind at 1. unfold Prisma.document_findFirst at 1.
  rewrite Hd, Ht, Ho, String.eqb_refl.
  unfold bind at 1. unfold set_status at 1, bind at 1, lift at 1.
  destruct (processing_outcome rq) as [u3|e3]; [|now apply failure_run].
  assert (E1 : Prisma.document_set_status (params_id rq) PROCESSING w
               = (Ok tt, w1)).
  { unfold Prisma.document_set_status, Prisma.document_update, bind,
      get_world, set_documents, emit, throw. simpl. rewrite Hd. reflexivity. }
  rewrite E1. unfold bind at 1.
  destruct (extractTaxData rt rq d w1) as [[etd|e] w2]; simpl in Hw; subst w2;
    cbn [fst].
  - rewrite (respond_run rt rq etd _ d1)
      by (simpl; apply lookup_insert_eq).
    cbn [trace with_trace documents with_state with_documents].
    unfold Closed.respond, Closed.broken, Closed.world.
    cbn [documents with_state with_documents with_trace].
    rewrite !insert_insert_eq. unfold cancelled.
    destruct (cancel_after rq) as [k|];
      [destruct (k <? _)%nat|];
      destruct (save_outcome rq); destruct (failed_outcome rq);
      repeat match goal with
             | |- context [if ?b then _ else _] => destruct b
             end; reflexivity.
  - rewrite (failure_run rq _ d1) by (simpl; apply lookup_insert_eq).
    reflexivity.
Qed.

(** What a provider returns depends on the world through the files only. *)
Lemma processWithLLM_files (rt : Runtime) (rq : Request) (d : Document)
    (w w' : World) :
  files w = files w' ->
  fst (processWithLLM rt rq d w) = fst (processWithLLM rt rq d w').
Proof.
  intros H.
  unfold processWithLLM, bind, emit, Fs.readFile, lift, throw, ret. simpl.
  rewrite H. repeat (case_inner; auto).
Qed.

Lemma withDocumentAI_files (rt : Runtime) (rq : Request) (d : Document)
    (w w' : World) :
  files w = files w' ->
  fst (withDocumentAI rt rq d w) = fst (withDocumentAI rt rq d w').
Proof.
  intros H.
  unfold withDocumentAI, DocumentAI.processDocument, try_catch, bind, emit,
    Fs.readFile, lift, throw, ret. simpl.
  rewrite H. repeat (case_inner; auto).
Qed.

Lemma extractTaxData_files (rt : Runtime) (rq : Request) (d : Document)
    (w w' : World) :
  files w = files w' ->
  fst (extractTaxData rt rq d w) = fst (extractTaxData rt rq d w').
Proof.
  intros H.
  destruct (extractTaxData_run rt rq d w) as (n1 & _ & _ & H1).
  destruct (extractTaxData_run rt rq d w') as (n2 & _ & _ & H2).
  rewrite (withDocumentAI_files rt rq d w w' H) in H1.
  rewrite (processWithLLM_files rt rq d w w' H) in H1.
  destruct (useDocumentAI rq).
  - destruct (fst (withDocumentAI rt rq d w')).
    + destruct H1 as [-> _], H2 as [-> _]. reflexivity.
    + destruct H1 as [-> _], H2 as [-> _]. reflexivity.
  - destruct H1 as [-> _], H2 as [-> _]. reflexivity.
Qed.

Lemma env_set_present (env : gmap string string) (name : string) :
  env_set env name = true <-> Spec.present env name.
Proof.
  unfold env_set, Js.truthy_str, Spec.present.
  destruct (env !! name) as [v|].
  - destruct (String.eqb v "") eqn:E; simpl.
    + apply String.eqb_eq in E. split; [discriminate|].
      intros [v' [[= <-] Hne]]. contradiction.
    + apply String.eqb_neq in E. split; eauto.
  - split; [discriminate | intros [v [Hv _]]; discriminate].
Qed.

Lemma useDocumentAI_configured (rq : Request) :
  useDocumentAI rq = true <-> Spec.primary_configured (process_env rq).
Proof.
  unfold useDocumentAI, Spec.primary_configured.
  rewrite !andb_true_iff, !env_set_present. tauto.
Qed.

(** For the owner's request the look-ups it reaches are all three. *)
Lemma owner_lookup_failure (rq : Request) (w : World) (d : Document) :
  Spec.owner_request rq w d ->
  Spec.lookup_failure rq w = None <-> Spec.answers rq.
Proof.
  intros (email & user & taxReturn & Hs & He & Hu & _).
  unfold Spec.lookup_failure, Spec.answers. rewrite Hs, Hu.
  apply String.eqb_neq in He. rewrite He.
  destruct (session_outcome rq) as [[]|]; destruct (user_outcome rq) as [[]|];
    destruct (document_outcome rq) as [[]|]; split; intros H;
    try discriminate; try tauto;
    destruct H as (H1 & H2 & H3); discriminate.
Qed.

(** A request either fails in a look-up, or is the owner's, or is answered
    without any effect. *)
Lemma POST_cases (rt : Runtime) (rq : Request) (w : World) :
  match Spec.lookup_failure rq w with
  | Some _ => POST rt rq w = failure rq w
  | None =>
      (exists d, Spec.owner_request rq w d)
      \/ (exists status message,
            POST rt rq w = (Ok (JsonResponse status (ErrorBody message)), w)
            /\ In (status, message)
                  [(401%N, "Unauthorized"); (404%N, "User not found");
                   (404%N, "Document not found")])
  end.
Proof.
  unfold Spec.lookup_failure, Spec.owner_request.
  destruct (session_outcome rq) as [u0|e0] eqn:E0;
    [|unfold POST, try_catch, bind, lift; now rewrite E0].
  destruct (session_email rq) as [email|] eqn:Hs;
    [|right; exists 401%N, "Unauthorized"; split; [|simpl; auto];
      unfold POST, try_catch, bind, lift; now rewrite E0, Hs].
  destruct (String.eqb email "") eqn:He;
    [right; exists 401%N, "Unauthorized"; split; [|simpl; auto];
     unfold POST, try_catch, bind, lift; now rewrite E0, Hs, He|].
  destruct (user_outcome rq) as [u1|e1] eqn:E1;
    [|unfold POST, try_catch, bind, lift; now rewrite E0, Hs, He, E1].
  destruct (users w !! email) as [user|] eqn:Hu;
    [|right; exists 404%N, "User not found"; split; [|simpl; auto];
      unfold POST, try_catch, bind, lift, Prisma.user_findUnique;
      now rewrite E0, Hs, He, E1, Hu].
  destruct (document_outcome rq) as [u2|e2] eqn:E2;
    [|unfold POST, try_catch, bind, lift, Prisma.user_findUnique;
      now rewrite E0, Hs, He, E1, Hu, E2].
  assert (Hnone : Prisma.document_findFirst (params_id rq) (user_id user) w
                  = (Ok None, w) ->
                  POST rt rq w
                  = (Ok (JsonResponse 404 (ErrorBody "Document not found")),
                     w)).
  { intros Hf.
    unfold POST, try_catch, bind, lift, Prisma.user_findUnique.
    rewrite E0, Hs, He, E1, Hu, E2.
    unfold bind in Hf |- *. now rewrite Hf. }
  unfold Prisma.document_findFirst in Hnone.
  destruct (documents w !! params_id rq) as [d|] eqn:Hd;
    [|right; exists 404%N, "Document not found"; split; [|simpl; auto];
      now apply Hnone].
  destruct (taxReturns w !! taxReturnId d) as [t|] eqn:Ht;
    [|right; exists 404%N, "Document not found"; split; [|simpl; auto];
      now apply Hnone].
  destruct (String.eqb (taxReturn_userId t) (user_id user)) eqn:Ho;
    [|right; exists 404%N, "Document not found"; split; [|simpl; auto];
      now apply Hnone].
  apply String.eqb_eq in Ho. apply String.eqb_neq in He.
  left. exists d, email, user, t. auto 10.
Qed.

Lemma no_update_writes (i : string) (t : list Event) :
  forallb (fun e => negb (Spec.is_update e)) t = true ->
  Spec.status_writes i t = [] /\ Spec.stored_extractions i t = [].
Proof.
  induction t as [|e t IH]; simpl; [auto|].
  rewrite andb_true_iff. intros [He Ht]. destruct (IH Ht) as [-> ->].
  destruct e; try discriminate; auto.
Qed.

Lemma status_writes_app (i : string) (t1 t2 : list Event) :
  Spec.status_writes i (t1 ++ t2)
  = (Spec.status_writes i t1 ++ Spec.status_writes i t2)%list.
Proof. apply flat_map_app. Qed.

Lemma stored_extractions_app (i : string) (t1 t2 : list Event) :
  Spec.stored_extractions i (t1 ++ t2)
  = (Spec.stored_extractions i t1 ++ Spec.stored_extractions i t2)%list.
Proof. apply flat_map_app. Qed.

End Handlers.

(** The attempt of the owner when the session and the look-ups answer. *)
Lemma POST_owner_answers (rt : Runtime) (rq : Process.Request) (w : World)
    (d : Document) :
  Spec.owner_request rq w d ->
  Spec.answers rq ->
  let i := Process.params_id rq in
  let d1 := Prisma.with_status PROCESSING d in
  let w1 :=
    with_state (<[i := d1]> (documents w)) (enqueued w)
      (trace w ++ [DocumentUpdated i PROCESSING None])%list w in
  exists new,
    forallb (fun e => negb (Spec.is_update e)) new = true
    /\ Process.POST rt rq w
       = match Process.processing_outcome rq with
         | Throw _ => Closed.failure rq d w
         | Ok _ =>
             match fst (Process.extractTaxData rt rq d w) with
             | Throw _ =>
                 Closed.failure rq d1 (with_trace (trace w1 ++ new)%list w1)
             | Ok etd =>
                 Closed.respond rt rq etd d1 (trace w1 ++ new)%list w1
             end
         end.
Proof.
  intros Ho Ha i d1 w1.
  destruct (POST_owner rt rq w d Ho) as (new & _ & Hn & Hrun).
  exists new. split; [exact Hn|].
  rewrite (proj2 (owner_lookup_failure rq w d Ho) Ha) in Hrun.
  match type of Hrun with
  | context [Process.extractTaxData rt rq d ?w1] =>
      rewrite (extractTaxData_files rt rq d w1 w eq_refl) in Hrun
  end.
  exact Hrun.
Qed.

(** The consumer has cancelled before the last of [n] chunks is
    enqueued. *)
Lemma cancelled_before (k n : nat) :
  ((0 <? n)%nat && (k <=? n - 1)%nat) = (k <? n)%nat.
Proof.
  destruct (Nat.ltb_spec 0 n), (Nat.leb_spec k (n - 1)), (Nat.ltb_spec k n);
    simpl; auto; lia.
Qed.


Ltac owner_cases rq n :=
  unfold Spec.status_path, Spec.writes_failed, Spec.closes,
    Spec.writes_completed, Spec.succeeds, Process.cancelled,
    Closed.failure, Closed.respond, Closed.broken, Closed.world,
    Process.cancelled;
  repeat match goal with
         | H : Process.processing_outcome rq = _ |- _ => rewrite !H
         | H : fst (Process.extractTaxData _ rq _ _) = _ |- _ => rewrite !H
         end;
  destruct (Process.failed_outcome rq) as [[]|?e] eqn:?Hfailed;
  try destruct (Process.save_outcome rq) as [[]|?e] eqn:?Hsave;
  try (destruct (Process.cancel_after rq) as [?k|] eqn:?Hcancel;
       [rewrite ?cancelled_before, ?length_take, ?length_map; try fold n;
        match goal with
        | k : nat |- _ =>
            destruct (Nat.ltb_spec k n); destruct (Nat.leb_spec k n);
            try (exfalso; lia);
            try (destruct (Nat.leb_spec k (Nat.min k n));
                 try (exfalso; lia))
        end|]);
  rewrite ?andb_false_r.

Ltac stream_ending :=
  split; split; intros;
  try discriminate; try reflexivity; try congruence;
  match goal with
  | H : (_ ++ [_])%list = [] |- _ =>
      apply app_eq_nil in H; destruct H; discriminate
  end.

Ltac stream_events k :=
  first
    [ eexists _, [], _; split; [reflexivity|];
      split; [apply app_nil_r|]; stream_ending
    | eexists _, [Spec.done_event], _; split; [reflexivity|];
      split; [reflexivity|]; stream_ending
    | eexists _, (skipn k _ ++ [Spec.done_event])%list, _;
      split; [reflexivity|];
      split; [rewrite app_assoc, firstn_skipn; reflexivity|];
      stream_ending ].

(** C3 (amended). A request for a document of the caller writes
    statuses to it in this order: PROCESSING when the session and the
    look-ups answer and the store takes that update; then COMPLETED when
    moreover the extraction succeeds, the consumer has not cancelled the
    stream while the chunks were sent and the store takes the result;
    then FAILED when the stream is not closed and the store takes that
    update. The status the document is left with is the last one written.
    The request stores the extraction if and only if it writes COMPLETED,
    and otherwise leaves the stored data as it was. When a look-up, the
    update to PROCESSING or the extraction fails, the caller receives the
    generic internal error, or the handler rejects with the error of the
    store when the update to FAILED is rejected too; otherwise the caller
    receives the stream, status 200, whose events are chunks of the
    result only, and which ends closed exactly when the end marker was
    enqueued. With look-ups that answer, a store that takes the updates
    to PROCESSING and FAILED and a consumer that does not cancel, the
    statuses written are PROCESSING and then exactly one of COMPLETED and
    FAILED. *)
Theorem C3_status_path (rt : Runtime) (rq : Process.Request) (w : World)
    (d : Document) :
  Spec.owner_request rq w d ->
  let i := Process.params_id rq in
  let run := Process.POST rt rq w in
  let extraction := fst (Process.extractTaxData rt rq d w) in
  exists new d',
    trace (snd run) = (trace w ++ new)%list
    /\ documents (snd run) !! i = Some d'
    /\ processingStatus d'
       = List.last (Spec.status_writes i new) (processingStatus d)
    /\ (In COMPLETED (Spec.status_writes i new)
        <-> Spec.stored_extractions i new <> [])
    /\ (Spec.stored_extractions i new <> [] ->
        exists etd,
          extraction = Ok etd
          /\ Spec.stored_extractions i new = [etd]
          /\ extractedData d' = Some etd)
    /\ (Spec.stored_extractions i new = [] ->
        extractedData d' = extractedData d)
    /\ (Spec.lookup_failure rq w <> None ->
        Spec.status_writes i new
        = (if Spec.succeeds (Process.failed_outcome rq) then [FAILED]
           else []))
    /\ (Spec.answers rq ->
        Spec.status_writes i new = Spec.status_path rt rq extraction)
    /\ ((Spec.lookup_failure rq w <> None
         \/ Spec.succeeds (Process.processing_outcome rq) = false
         \/ Spec.succeeds extraction = false) ->
        fst run
        = match Process.failed_outcome rq with
          | Ok _ => Ok Spec.internal_error
          | Throw e => Throw e
          end)
    /\ (forall etd,
          Spec.answers rq ->
          Spec.succeeds (Process.processing_outcome rq) = true ->
          extraction = Ok etd ->
          exists events rest ending,
            fst run = Ok (StreamResponse 200 events ending)
            /\ (events ++ rest)%list
               = (map (Spec.chunk_event rt)
                      (Spec.chunks (Process.jsonResponse rt etd))
                  ++ [Spec.done_event])%list
            /\ (ending = Closed <-> rest = [])
            /\ (ending = Closed <-> Spec.closes rt rq extraction = true))
    /\ (Spec.answers rq ->
        Process.processing_outcome rq = Ok tt ->
        Process.failed_outcome rq = Ok tt ->
        Process.cancel_after rq = None ->
        Spec.status_writes i new = [PROCESSING; COMPLETED]
        \/ Spec.status_writes i new = [PROCESSING; FAILED]).
Proof.
  intros Ho i run extraction.
  destruct (POST_owner rt rq w d Ho) as (new & _ & Hn & Hrun).
  match type of Hrun with
  | context [Process.extractTaxData rt rq d ?w1] =>
      rewrite (extractTaxData_files rt rq d w1 w eq_refl) in Hrun
  end.
  destruct (no_update_writes i new Hn) as [Hs He].
  pose proof Ho as (? & ? & ? & _ & _ & _ & Hd & _).
  pose proof (owner_lookup_failure rq w d Ho) as Hla.
  subst run extraction. rewrite Hrun. clear Hrun.
  destruct (Spec.lookup_failure rq w) as [e|].
  - assert (Hna : ~ Spec.answers rq)
      by (intros Ha; apply Hla in Ha; discriminate).
    clear Hla. unfold Closed.failure, Closed.world, Spec.succeeds.
    destruct (Process.failed_outcome rq) as [[]|?e]; eexists _, _.
    all: (split; [cbn [snd trace with_state with_trace]; reflexivity|]).
    all: (split; [cbn [snd documents with_state with_trace];
                  first [apply lookup_insert_eq | exact Hd]|]).
    all: fold i; cbn -[i]; rewrite ?String.eqb_refl; cbn -[i].
    all: repeat match goal with
                | |- _ /\ _ => split
                end;
      try reflexivity; try tauto; try (intros; discriminate);
      try (intuition (auto; try discriminate; try congruence)).
  - assert (Ha : Spec.answers rq) by (now apply Hla). clear Hla.
    destruct (Process.processing_outcome rq) as [[]|e0] eqn:Hprocessing;
      destruct (fst (Process.extractTaxData rt rq d w)) as [etd|e1] eqn:Hx;
      [set (n := length (Spec.chunks (Process.jsonResponse rt etd)))
      |set (n := 0%nat)
      |set (n := length (Spec.chunks (Process.jsonResponse rt etd)))
      |set (n := 0%nat)];
      owner_cases rq n.
    all: eexists _, _.
    all: (split; [cbn [snd trace with_state with_trace];
                  rewrite <- ?app_assoc; reflexivity|]).
    all: (split; [cbn [snd documents with_state with_trace];
                  first [apply lookup_insert_eq | exact Hd]|]).
    all: rewrite ?status_writes_app, ?stored_extractions_app; fold i;
      rewrite ?Hs, ?He;
      cbn -[i Spec.chunks Spec.chunk_event Spec.done_event];
      rewrite ?String.eqb_refl;
      cbn -[i Spec.chunks Spec.chunk_event Spec.done_event].
    all: repeat match goal with
                | |- _ /\ _ => split
                end;
      try reflexivity; try tauto; try (intros; discriminate);
      try (intros [|]; discriminate);
      try (intros _; eexists; repeat split);
      try (intros etd0 _ _ [= <-];
           match goal with
           | k : nat |- _ => stream_events k
           | _ => stream_events 0%nat
           end);
      try (intuition (auto; try discriminate; try congruence)).
Qed.

Lemma sample_owner_request (env : gmap string string)
    (client : DocumentAI.Client)
    (fetch : Process.LLMRequest -> result Process.HttpResponse)
    (processing save failed : result unit) (cancel : option nat) :
  Spec.owner_request
    (Samples.request (Some "alice@example.org") "d1" env client fetch
       processing save failed cancel)
    Samples.world Samples.uploaded.
Proof.
  exists "alice@example.org", Samples.alice,
    {| taxReturn_id := "t1"; taxReturn_userId := "u1" |}.
  repeat split; try reflexivity. discriminate.
Qed.

Lemma sample_answers (email : option string) (i : string)
    (env : gmap string string) (client : DocumentAI.Client)
    (fetch : Process.LLMRequest -> result Process.HttpResponse)
    (processing save failed : result unit) (cancel : option nat) :
  Spec.answers
    (Samples.request email i env client fetch processing save failed cancel).
Proof. repeat split. Qed.

Lemma sample_owner :
  Spec.owner_request Samples.process_request Samples.world Samples.uploaded.
Proof. apply sample_owner_request. Qed.

Lemma sample_owner_unsaved :
  Spec.owner_request Samples.process_request_unsaved Samples.world
    Samples.uploaded.
Proof. apply sample_owner_request. Qed.

Lemma sample_owner_unavailable :
  Spec.owner_request Samples.process_request_unavailable Samples.world
    Samples.uploaded.
Proof. apply sample_owner_request. Qed.

Lemma sample_owner_completed :
  Spec.owner_request Samples.process_request_unavailable
    Samples.world_completed
    (Prisma.with_extraction Samples.first_result Samples.uploaded).
Proof.
  exists "alice@example.org", Samples.alice,
    {| taxReturn_id := "t1"; taxReturn_userId := "u1" |}.
  repeat split; try reflexivity. discriminate.
Qed.

Lemma C3_witness :
  exists new d',
    trace (snd (Process.POST Samples.runtime Samples.process_request
                  Samples.world)) = new
    /\ documents (snd (Process.POST Samples.runtime Samples.process_request
                         Samples.world)) !! "d1" = Some d'
    /\ Spec.status_writes "d1" new = [PROCESSING; COMPLETED]
    /\ processingStatus d' = COMPLETED.
Proof.
  destruct (C3_status_path Samples.runtime Samples.process_request
              Samples.world Samples.uploaded sample_owner)
    as (new & d' & Ht & Hd & Hs & _ & _ & _ & _ & Hw & _).
  specialize (Hw (sample_answers _ _ _ _ _ _ _ _ _)).
  exists new, d'. split; [exact Ht|]. split; [exact Hd|].
  change (Spec.status_writes "d1" new)
    with (Spec.status_writes (Process.params_id Samples.process_request)
            new).
  rewrite Hs, Hw. split; vm_compute; reflexivity.
Defined.

(** Four attempts of the owner that the claim does not allow. When the
    store rejects the result, the document is FAILED but the caller has
    received the status 200 and the chunks of the result, and no generic
    internal error. When the consumer cancels between the last chunk and
    the end marker, the attempt writes COMPLETED and then FAILED, and the
    FAILED document holds the extraction. When the provider fails and the
    store rejects the update to FAILED, the document stays PROCESSING
    and the handler rejects with the error of the store. And when the
    provider fails for a document that an earlier attempt completed, the
    document is FAILED and still holds the earlier extraction. *)
Lemma C3_counterexample :
  (Spec.owner_request Samples.process_request_unsaved Samples.world
     Samples.uploaded
   /\ Spec.answers Samples.process_request_unsaved
   /\ exists events d',
        fst (Process.POST Samples.runtime Samples.process_request_unsaved
               Samples.world)
        = Ok (StreamResponse 200 events Errored)
        /\ events <> []
        /\ documents (snd (Process.POST Samples.runtime
                             Samples.process_request_unsaved Samples.world))
           !! "d1" = Some d'
        /\ processingStatus d' = FAILED)
  /\ (Spec.owner_request Samples.process_request_cancelled Samples.world
        Samples.uploaded
      /\ Spec.answers Samples.process_request_cancelled
      /\ exists d' etd,
           Spec.status_writes "d1"
             (trace (snd (Process.POST Samples.runtime
                            Samples.process_request_cancelled
                            Samples.world)))
           = [PROCESSING; COMPLETED; FAILED]
           /\ documents (snd (Process.POST Samples.runtime
                                Samples.process_request_cancelled
                                Samples.world))
              !! "d1" = Some d'
           /\ processingStatus d' = FAILED
           /\ extractedData d' = Some etd)
  /\ (Spec.owner_request Samples.process_request_stuck Samples.world
        Samples.uploaded
      /\ Spec.answers Samples.process_request_stuck
      /\ exists d',
           fst (Process.POST Samples.runtime Samples.process_request_stuck
                  Samples.world)
           = Throw (Rejected "Connection lost")
           /\ documents (snd (Process.POST Samples.runtime
                                Samples.process_request_stuck
                                Samples.world))
              !! "d1" = Some d'
           /\ processingStatus d' = PROCESSING)
  /\ (Spec.owner_request Samples.process_request_unavailable
        Samples.world_completed
        (Prisma.with_extraction Samples.first_result Samples.uploaded)
      /\ Spec.answers Samples.process_request_unavailable
      /\ exists d',
           documents (snd (Process.POST Samples.runtime
                             Samples.process_request_unavailable
                             Samples.world_completed))
           !! "d1" = Some d'
           /\ processingStatus d' = FAILED
           /\ extractedData d' = Some Samples.first_result
           /\ Spec.stored_extractions "d1"
                (trace (snd (Process.POST Samples.runtime
                               Samples.process_request_unavailable
                               Samples.world_completed)))
              = []).
Proof.
  split; [|split; [|split]].
  - split; [apply sample_owner_request|]. split; [apply sample_answers|].
    eexists _, _. split; [vm_compute; reflexivity|].
    split; [discriminate|]. split; [vm_compute; reflexivity | reflexivity].
  - split; [apply sample_owner_request|]. split; [apply sample_answers|].
    eexists _, _. split; [vm_compute; reflexivity|].
    split; [vm_compute; reflexivity|]. split; reflexivity.
  - split; [apply sample_owner_request|]. split; [apply sample_answers|].
    eexists. split; [vm_compute; reflexivity|].
    split; [vm_compute; reflexivity | reflexivity].
  - split; [exact sample_owner_completed|]. split; [apply sample_answers|].
    eexists. split; [vm_compute; reflexivity|].
    split; [reflexivity|]. split; [reflexivity | vm_compute; reflexivity].
Qed.

(** ** The event stream *)

(** C7. A successful attempt serializes the document type, the text and
    the extracted data of the result to JSON, and answers with the events
    [data: {"content": chunk}] followed by a blank line, one for each of
    the consecutive slices of 100 characters of the serialized result (the
    last one possibly shorter), in order, and then the event
    [data: [DONE]]; the chunks concatenated are the serialized result.
    An attempt is successful when the store takes its updates, the
    extraction succeeds and the consumer does not cancel the stream. *)
Theorem C7_stream_events (rt : Runtime) (rq : Process.Request) (w : World)
    (d : Document) (etd : ExtractedTaxData) :
  Spec.owner_request rq w d ->
  Spec.answers rq ->
  Process.processing_outcome rq = Ok tt ->
  fst (Process.extractTaxData rt rq d w) = Ok etd ->
  Process.save_outcome rq = Ok tt ->
  Process.cancel_after rq = None ->
  let serialized :=
    JSON_stringify rt
      (JObj [("documentType", etd_documentType etd);
             ("ocrText", etd_ocrText etd);
             ("extractedData", etd_extractedData etd)]) in
  exists chunks,
    fst (Process.POST rt rq w)
    = Ok (StreamResponse 200
            (map (fun chunk =>
                    "data: "
                    +:+ JSON_stringify rt (JObj [("content", JStr chunk)])
                    +:+ Process.newline +:+ Process.newline) chunks
             ++ ["data: [DONE]" +:+ Process.newline +:+ Process.newline])%list
            Closed)
    /\ Spec.concat chunks = serialized
    /\ forall k chunk,
         nth_error chunks k = Some chunk ->
         chunk = JsString.slice serialized (k * 100) (k * 100 + 100)
         /\ (1 <= String.length chunk <= 100)%nat
         /\ (S k < length chunks -> String.length chunk = 100)%nat.
Proof.
  intros Ho Ha Hprocessing Hx Hsave Hcancel serialized.
  destruct (POST_owner_answers rt rq w d Ho Ha) as (new & _ & Hrun).
  rewrite Hprocessing, Hx in Hrun. unfold Closed.respond in Hrun.
  rewrite Hsave, Hcancel in Hrun. unfold Process.cancelled in Hrun.
  rewrite Hcancel in Hrun. cbn zeta in Hrun.
  change (Process.jsonResponse rt etd) with serialized in Hrun.
  exists (Spec.chunks serialized). rewrite Hrun. split; [reflexivity|].
  unfold Spec.chunks.
  assert (Hsize : (0 < Process.chunkSize)%nat) by (unfold Process.chunkSize; lia).
  split; [apply concat_slices; [exact Hsize | lia]|].
  intros k chunk Hk.
  pose proof (slices_nth _ _ _ _ _ Hsize (Nat.le_refl _) Hk) as [Hc Hlt].
  change Process.chunkSize with 100%nat in *.
  split; [now rewrite slice_take_drop|].
  assert (Hlen : String.length chunk
                 = Nat.min 100 (String.length serialized - k * 100)).
  { rewrite Hc, take_length, drop_length. reflexivity. }
  split; [lia|]. intros Hnext.
  destruct (nth_error (Spec.slices (String.length serialized) 100 serialized)
              (S k)) as [next|] eqn:En.
  - apply (slices_nth _ _ _ _ _ Hsize (Nat.le_refl _)) in En.
    destruct En as [_ En]. simpl in En. lia.
  - apply nth_error_None in En. lia.
Qed.

Lemma C7_witness :
  exists chunks,
    fst (Process.POST Samples.runtime Samples.process_request Samples.world)
    = Ok (StreamResponse 200
            (map (Spec.chunk_event Samples.runtime) chunks
             ++ [Spec.done_event])%list Closed)
    /\ Spec.concat chunks
       = JSON_stringify Samples.runtime
           (JObj [("documentType", JStr "W2");
                  ("ocrText", JStr "Wages 55000.00");
                  ("extractedData", JObj [("wages", JStr "55000.00")])]).
Proof.
  destruct (C7_stream_events Samples.runtime Samples.process_request
              Samples.world Samples.uploaded Samples.first_result
              sample_owner (sample_answers _ _ _ _ _ _ _ _ _) eq_refl
              eq_refl eq_refl eq_refl)
    as (chunks & Hrun & Hcat & _).
  exists chunks. split; [exact Hrun | exact Hcat].
Defined.

(** ** The providers *)

(** C9 (amended). When the secondary provider is called, an unsuccessful
    HTTP response makes it fail with a ProviderError, and a reply whose
    returned content is empty, or is not JSON, with a ParseError; the
    error is the outcome of the extraction. When the store takes the
    update to FAILED the document is marked FAILED and the caller
    receives the generic 500; when the store rejects that update the
    handler rejects with the error of the store, and the document stays
    PROCESSING. *)
Theorem C9_secondary_failures (rt : Runtime) (rq : Process.Request)
    (w : World) (d : Document) (data : string)
    (response : Process.HttpResponse) :
  Spec.owner_request rq w d ->
  Spec.answers rq ->
  Process.processing_outcome rq = Ok tt ->
  (Process.useDocumentAI rq = false
   \/ exists e, fst (Process.withDocumentAI rt rq d w) = Throw e) ->
  files w !! filePath d = Some data ->
  (forall q, Process.fetch rq q = Ok response) ->
  (Process.ok response = false
   \/ (Process.ok response = true
       /\ exists reply content,
            Process.json response = Ok reply
            /\ Spec.returned_content reply = Some content
            /\ (Js.truthy content = false
                \/ exists message,
                     JSON_parse rt content = Throw (SyntaxError message)))) ->
  let run := Process.POST rt rq w in
  exists e,
    fst (Process.processWithLLM rt rq d w) = Throw e
    /\ (Process.ok response = false -> Spec.ProviderError e)
    /\ (Process.ok response = true -> Spec.ParseError e)
    /\ fst (Process.extractTaxData rt rq d w) = Throw e
    /\ (Process.failed_outcome rq = Ok tt ->
        fst run = Ok Spec.internal_error
        /\ documents (snd run) !! Process.params_id rq
           = Some (Prisma.with_status FAILED
                     (Prisma.with_status PROCESSING d)))
    /\ (forall e',
          Process.failed_outcome rq = Throw e' ->
          fst run = Throw e'
          /\ documents (snd run) !! Process.params_id rq
             = Some (Prisma.with_status PROCESSING d)).
Proof.
  intros Ho Ha Hprocessing Hsec Hfile Hfetch Hfail run.
  assert (Hllm : exists e,
             fst (Process.processWithLLM rt rq d w) = Throw e
             /\ (Process.ok response = false -> Spec.ProviderError e)
             /\ (Process.ok response = true -> Spec.ParseError e)).
  { destruct Hfail as [Hok | (Hok & reply & content & Hjson & Hr & Hc)].
    - eexists. split;
        [eapply processWithLLM_http_error; eauto|].
      split; [intros _; eexists; reflexivity | congruence].
    - destruct (Js.truthy content) eqn:Ht.
      + destruct Hc as [Hc | [message Hp]]; [discriminate|].
        eexists. split;
          [eapply processWithLLM_parse_error; eauto|].
        split; [congruence | intros _; right; eauto].
      + eexists. split;
          [eapply processWithLLM_no_content; eauto|].
        split; [congruence | intros _; now left]. }
  destruct Hllm as (e & He & Hp1 & Hp2).
  assert (Hx : fst (Process.extractTaxData rt rq d w) = Throw e).
  { destruct (extractTaxData_run rt rq d w) as (n & _ & _ & H).
    destruct (Process.useDocumentAI rq).
    - destruct Hsec as [Hsec | [e0 Hsec]]; [discriminate|].
      rewrite Hsec in H. destruct H as [-> _]. exact He.
    - destruct H as [-> _]. exact He. }
  destruct (POST_owner_answers rt rq w d Ho Ha) as (new & _ & Hrun).
  rewrite Hprocessing, Hx in Hrun. unfold Closed.failure in Hrun.
  exists e. do 4 (split; [assumption|]).
  subst run. rewrite Hrun. split.
  - intros ->. split; [reflexivity|]. apply lookup_insert_eq.
  - intros e' ->. split; [reflexivity|]. apply lookup_insert_eq.
Qed.

Lemma sample_owner_prose :
  Spec.owner_request Samples.process_request_prose Samples.world
    Samples.uploaded.
Proof. apply sample_owner_request. Qed.

Lemma C9_witness :
  (fst (Process.POST Samples.runtime Samples.process_request_unavailable
          Samples.world) = Ok Spec.internal_error
   /\ exists e,
        fst (Process.processWithLLM Samples.runtime
               Samples.process_request_unavailable Samples.uploaded
               Samples.world) = Throw e
        /\ Spec.ProviderError e)
  /\ (fst (Process.POST Samples.runtime Samples.process_request_prose
             Samples.world) = Ok Spec.internal_error
      /\ exists e,
           fst (Process.processWithLLM Samples.runtime
                  Samples.process_request_prose Samples.uploaded
                  Samples.world) = Throw e
           /\ Spec.ParseError e).
Proof.
  split.
  - destruct (C9_secondary_failures Samples.runtime
                Samples.process_request_unavailable Samples.world
                Samples.uploaded "%PDF" Samples.llm_unavailable
                sample_owner_unavailable (sample_answers _ _ _ _ _ _ _ _ _)
                eq_refl (or_introl eq_refl) eq_refl
                (fun _ => eq_refl) (or_introl eq_refl))
      as (e & He & Hp & _ & _ & Hr & _).
    split; [exact (proj1 (Hr eq_refl))|].
    exists e. split; [exact He | exact (Hp eq_refl)].
  - destruct (C9_secondary_failures Samples.runtime
                Samples.process_request_prose Samples.world
                Samples.uploaded "%PDF" Samples.llm_prose
                sample_owner_prose (sample_answers _ _ _ _ _ _ _ _ _)
                eq_refl (or_introl eq_refl) eq_refl
                (fun _ => eq_refl)
                (or_intror
                   (conj eq_refl
                      (ex_intro _ _
                         (ex_intro _ (JStr "I cannot read this file.")
                            (conj eq_refl
                               (conj eq_refl
                                  (or_intror
                                     (ex_intro _ "Unexpected token"
                                        eq_refl)))))))))
      as (e & He & _ & Hp & _ & Hr & _).
    split; [exact (proj1 (Hr eq_refl))|].
    exists e. split; [exact He | exact (Hp eq_refl)].
Defined.

(** When the provider fails and the store rejects the update to FAILED,
    the document is not marked FAILED and no 500 is answered: the handler
    rejects with the error of the store. *)
Lemma C9_counterexample :
  Spec.owner_request Samples.process_request_stuck Samples.world
    Samples.uploaded
  /\ Spec.answers Samples.process_request_stuck
  /\ (exists e,
        fst (Process.processWithLLM Samples.runtime
               Samples.process_request_stuck Samples.uploaded Samples.world)
        = Throw e
        /\ Spec.ProviderError e)
  /\ fst (Process.POST Samples.runtime Samples.process_request_stuck
            Samples.world)
     = Throw (Rejected "Connection lost")
  /\ exists d',
       documents (snd (Process.POST Samples.runtime
                         Samples.process_request_stuck Samples.world))
       !! "d1" = Some d'
       /\ processingStatus d' = PROCESSING.
Proof.
  split; [apply sample_owner_request|]. split; [apply sample_answers|].
  split; [eexists; split; [vm_compute; reflexivity | exists 503%N; reflexivity]|].
  split; [vm_compute; reflexivity|].
  eexists. split; [vm_compute; reflexivity | reflexivity].
Qed.

(** The [catch] of the handler answers with the generic error, when it
    answers. *)
Lemma failure_response (rq : Process.Request) (w : World)
    (response : Response) :
  fst (Process.failure rq w) = Ok response -> response = Spec.internal_error.
Proof.
  unfold Process.failure, Process.set_status, Prisma.document_set_status,
    Prisma.document_update, Process.error_response, bind, lift, emit,
    get_world, set_documents, throw, ret. simpl.
  destruct (Process.failed_outcome rq); [|discriminate].
  destruct (documents w !! Process.params_id rq); [|discriminate].
  now intros [= <-].
Qed.




(** C6 (amended). The confidence of a result of the primary provider is
    the mean, as double arithmetic computes it, of the confidence scores
    the reply reports for its entities and for the values of its form
    fields: the scores are added one after the other, each sum rounded to
    the nearest double, and the total is divided by their number and
    rounded. It is zero when the reply reports none. The confidence of a
    result of the secondary provider is the double nearest to 0.85. *)
Theorem C6_confidence :
  (forall document documentType r,
     DocumentAI.transformToTaxData document documentType = Ok r ->
     etd_confidence r
     = match Spec.reported_scores document with
       | [] => 0%Q
       | _ :: _ => Spec.double_mean (Spec.reported_scores document)
       end)
  /\ (forall rt rq d w r,
        fst (Process.processWithLLM rt rq d w) = Ok r ->
        etd_confidence r = Double.round 0.85).
Proof.
  split.
  - intros document documentType r H.
    unfold DocumentAI.transformToTaxData in H.
    match type of H with
    | match ?x with _ => _ end = _ => destruct x; [|discriminate]
    end.
    injection H as <-. simpl. apply calculateAverageConfidence_mean.
  - exact processWithLLM_confidence.
Qed.

Lemma C6_witness :
  (exists r,
     DocumentAI.transformToTaxData Samples.scored_reply "W2" = Ok r
     /\ etd_confidence r = (1914029841632461 # 2251799813685248)%Q)
  /\ (exists r,
        fst (Process.processWithLLM Samples.runtime Samples.process_request
               Samples.uploaded Samples.world) = Ok r
        /\ etd_confidence r = (7656119366529843 # 9007199254740992)%Q).
Proof.
  split.
  - eexists. split; [reflexivity|].
    rewrite (proj1 C6_confidence Samples.scored_reply "W2" _ eq_refl).
    vm_compute. reflexivity.
  - eexists. split; [reflexivity|].
    rewrite (proj2 C6_confidence Samples.runtime
               Samples.process_request Samples.uploaded Samples.world _
               eq_refl).
    vm_compute. reflexivity.
Defined.

(** A reply with the scores 0.9 and 0.8, as doubles: the confidence of
    the result is 0.8500000000000001, which is neither the arithmetic
    mean of the two scores nor the double nearest to 0.85. *)
Lemma C6_counterexample :
  Spec.reported_scores Samples.scored_reply
  = [Double.round 0.9; Double.round 0.8]
  /\ exists r,
       DocumentAI.transformToTaxData Samples.scored_reply "W2" = Ok r
       /\ etd_confidence r = (1914029841632461 # 2251799813685248)%Q
       /\ ~ (etd_confidence r
             == Spec.arithmetic_mean
                  (Spec.reported_scores Samples.scored_reply))%Q
       /\ ~ (etd_confidence r == Double.round 0.85)%Q
       /\ ~ (etd_confidence r == 0.85)%Q.
Proof.
  split; [vm_compute; reflexivity|].
  eexists. split; [reflexivity|].
  split; [vm_compute; reflexivity|].
  repeat split; intros H; apply Qeq_bool_iff in H; vm_compute in H;
    discriminate.
Qed.

(** ** The upload route *)

Section UploadFacts.
Import Upload.

Lemma array_includes_In (l : list string) (t : string) :
  array_includes l t = true <-> In t l.
Proof.
  unfold array_includes. rewrite existsb_exists. split.
  - intros [x [Hx E]]. apply String.eqb_eq in E. now subst.
  - intros H. exists t. split; [exact H | apply String.eqb_refl].
Qed.





End UploadFacts.


Lemma sample_upload_owner (size : N) (write : result unit) :
  Spec.upload_owner (Samples.upload_w2 size write) Samples.world
    (Samples.w2_file size).
Proof.
  exists "alice@example.org", Samples.alice, "t1",
    {| taxReturn_id := "t1"; taxReturn_userId := "u1" |}.
  repeat split; try reflexivity; discriminate.
Qed.



(** ** The what-if scenarios *)

Section WhatIfFacts.
Import WhatIf.

Lemma Math_max_lower (a b : Q) : (a <= Math_max a b)%Q.
Proof.
  unfold Math_max. destruct (Qle_bool a b) eqn:E.
  - now apply Qle_bool_iff.
  - apply Qle_refl.
Qed.

Lemma Math_max_upper (a b : Q) : (b <= Math_max a b)%Q.
Proof.
  unfold Math_max. destruct (Qle_bool a b) eqn:E.
  - apply Qle_refl.
  - destruct (Qlt_le_dec b a) as [H|H]; [now apply Qlt_le_weak|].
    apply Qle_bool_iff in H. congruence.
Qed.

(** Clamping leaves a non-negative amount as it is. *)
Lemma clamp_nonneg (x : Q) :
  (0 <= x)%Q -> (Math_max 0 (number_or_zero (Some x)) == x)%Q.
Proof.
  intros H. unfold number_or_zero, Math_max.
  destruct (Qeq_bool x 0) eqn:E.
  - apply Qeq_bool_eq in E. simpl. now rewrite E.
  - apply Qle_bool_iff in H. now rewrite H.
Qed.

End WhatIfFacts.

(** C8 (amended). For every custom scenario the entry computed for it
    has the itemized deductions of the current itemized total plus the
    scenario's additional amount, the tax liability the comparison
    recommends for that total, and as savings the baseline liability
    minus that liability, the sum and the difference being those of
    doubles; adjusted gross income and the itemized total are first
    clamped to non-negative amounts. The income handed to the
    calculation is the greater of the clamped adjusted gross income and
    50000: an income below 50000, zero included, is replaced by 50000. *)
Theorem C8_custom_scenarios (Dependent : Type)
    (calculateDeductionComparison :
       Q -> string -> Q -> list Dependent -> WhatIf.DeductionComparison)
    (calculateTaxImpactScenarios :
       Q -> string -> Q -> list Dependent -> list WhatIf.Calculation)
    (toLocaleString : Q -> string)
    (props : WhatIf.Props Dependent)
    (customScenarios : list WhatIf.CustomScenario) :
  let income := WhatIf.minIncomeForCalculation props in
  let itemized := WhatIf.safeCurrentItemizedDeductions props in
  let status := WhatIf.safeFilingStatus props in
  let dependents := WhatIf.safeDependents props in
  let base := calculateTaxImpactScenarios income status itemized dependents in
  let calculations :=
    WhatIf.calculations calculateDeductionComparison
      calculateTaxImpactScenarios toLocaleString props customScenarios in
  (0 <= WhatIf.safeAdjustedGrossIncome props)%Q
  /\ (0 <= itemized)%Q
  /\ (forall x, WhatIf.adjustedGrossIncome props = Some x -> (0 <= x)%Q ->
        (WhatIf.safeAdjustedGrossIncome props == x)%Q)
  /\ (forall x, WhatIf.currentItemizedDeductions props = Some x ->
        (0 <= x)%Q -> (itemized == x)%Q)
  /\ income
     = WhatIf.Math_max
         (WhatIf.Math_max 0
            (WhatIf.number_or_zero (WhatIf.adjustedGrossIncome props)))
         50000
  /\ (50000 <= income)%Q
  /\ (WhatIf.adjustedGrossIncome props = None -> income = 50000%Q)
  /\ (forall x, WhatIf.adjustedGrossIncome props = Some x ->
        (x <= 50000)%Q -> income = 50000%Q)
  /\ (forall x, WhatIf.adjustedGrossIncome props = Some x ->
        (50000 <= x)%Q -> (income == x)%Q)
  /\ (forall k scenario,
        nth_error customScenarios k = Some scenario ->
        exists calculation,
          nth_error calculations (length base + k) = Some calculation
          /\ WhatIf.itemizedDeductions calculation
             = Double.add itemized (WhatIf.additionalAmount scenario)
          /\ WhatIf.taxLiability calculation
             = (let comparison :=
                  calculateDeductionComparison income status
                    (Double.add itemized (WhatIf.additionalAmount scenario))
                    dependents in
                if String.eqb (WhatIf.recommendedMethod comparison) "itemized"
                then WhatIf.itemizedTaxLiability comparison
                else WhatIf.standardTaxLiability comparison)
          /\ WhatIf.savings calculation
             = Double.sub (Spec.baseline base)
                 (WhatIf.taxLiability calculation)).
Proof.
  intros income itemized status dependents base calculations.
  assert (Hclamp : forall x, WhatIf.adjustedGrossIncome props = Some x ->
                     (0 <= x)%Q ->
                     (WhatIf.safeAdjustedGrossIncome props == x)%Q).
  { intros x Hx H0. unfold WhatIf.safeAdjustedGrossIncome. rewrite Hx.
    now apply clamp_nonneg. }
  split; [apply Math_max_lower|]. split; [apply Math_max_lower|].
  split; [exact Hclamp|].
  split.
  { intros x Hx H0. subst itemized.
    unfold WhatIf.safeCurrentItemizedDeductions. rewrite Hx.
    now apply clamp_nonneg. }
  split; [reflexivity|].
  split; [apply Math_max_upper|]. split.
  { intros Hx. subst income.
    unfold WhatIf.minIncomeForCalculation, WhatIf.safeAdjustedGrossIncome.
    rewrite Hx. reflexivity. }
  split.
  { intros x Hx Hle. subst income. unfold WhatIf.minIncomeForCalculation.
    assert (H : (WhatIf.safeAdjustedGrossIncome props <= 50000)%Q).
    { destruct (Qlt_le_dec x 0) as [Hneg|Hpos].
      - unfold WhatIf.safeAdjustedGrossIncome, WhatIf.number_or_zero,
          WhatIf.Math_max. rewrite Hx.
        destruct (Qeq_bool x 0); [discriminate|].
        destruct (Qle_bool 0 x) eqn:E; [|discriminate].
        apply Qle_bool_iff in E. lra.
      - rewrite (Hclamp x Hx Hpos). exact Hle. }
    unfold WhatIf.Math_max at 1. apply Qle_bool_iff in H. now rewrite H. }
  split.
  { intros x Hx Hge. subst income. unfold WhatIf.minIncomeForCalculation.
    assert (H0 : (0 <= x)%Q) by lra.
    pose proof (Hclamp x Hx H0) as Hs.
    unfold WhatIf.Math_max at 1.
    destruct (Qle_bool (WhatIf.safeAdjustedGrossIncome props) 50000) eqn:E;
      [|exact Hs].
    apply Qle_bool_iff in E. rewrite Hs in E. lra. }
  intros k scenario Hk. subst calculations. unfold WhatIf.calculations.
  fold income itemized status dependents. unfold WhatIf.baseScenarios.
  fold income itemized status dependents base.
  eexists. split.
  { rewrite nth_error_app2 by lia.
    replace (length base + k - length base)%nat with k by lia.
    apply map_nth_error. exact Hk. }
  split; [reflexivity|]. split; [reflexivity|].
  unfold WhatIf.customCalculation. cbn [WhatIf.savings WhatIf.taxLiability].
  unfold WhatIf.baseScenarios. fold income itemized status dependents base.
  unfold Double.sub. apply round_compat.
  destruct base as [|b rest]; simpl; [reflexivity|].
  destruct (Qeq_bool (WhatIf.taxLiability b) 0) eqn:E; [|reflexivity].
  apply Qeq_bool_eq in E. now rewrite E.
Qed.

Lemma C8_witness :
  exists calculation,
    nth_error
      (WhatIf.calculations Samples.flat_comparison Samples.flat_scenarios
         (fun _ => "5,000") Samples.single_50000 [Samples.charity_5000])
      1 = Some calculation
    /\ WhatIf.itemizedDeductions calculation = 5000%Q
    /\ WhatIf.savings calculation = 0%Q.
Proof.
  destruct (C8_custom_scenarios unit Samples.flat_comparison
              Samples.flat_scenarios (fun _ => "5,000") Samples.single_50000
              [Samples.charity_5000])
    as (_ & _ & _ & _ & _ & _ & _ & _ & _ & H).
  destruct (H 0%nat Samples.charity_5000 eq_refl)
    as (calculation & Hn & Hi & Ht & Hs).
  exists calculation. split; [exact Hn|]. split.
  - rewrite Hi. vm_compute. reflexivity.
  - rewrite Hs, Ht. vm_compute. reflexivity.
Defined.

(** A taxpayer with an adjusted gross income of 30000: clamping leaves
    the income as it is, but the calculation is handed 50000, and the
    liability shown for the scenario is that of an income of 50000, not
    that of 30000. *)
Lemma C8_counterexample :
  WhatIf.safeAdjustedGrossIncome Samples.single_30000 = 30000%Q
  /\ WhatIf.minIncomeForCalculation Samples.single_30000 = 50000%Q
  /\ exists calculation,
       nth_error
         (WhatIf.calculations Samples.flat_comparison Samples.flat_scenarios
            (fun _ => "5,000") Samples.single_30000 [Samples.charity_5000])
         1 = Some calculation
       /\ (WhatIf.taxLiability calculation == 3615)%Q
       /\ (WhatIf.standardTaxLiability
             (Samples.flat_comparison 30000 "SINGLE" 5000 []) == 1615)%Q
       /\ ~ (WhatIf.taxLiability calculation
             == WhatIf.standardTaxLiability
                  (Samples.flat_comparison 30000 "SINGLE" 5000 []))%Q.
Proof.
  split; [reflexivity|]. split; [reflexivity|].
  eexists. split; [reflexivity|].
  split; [vm_compute; reflexivity|]. split; [vm_compute; reflexivity|].
  intros H. apply Qeq_bool_iff in H. vm_compute in H. discriminate.
Qed.

(* ===================================================================== *)
(** * Further properties of the sources                                   *)
(* ===================================================================== *)

(** ** Reading text through an anchor *)

Section TextAnchors.
Import JsString DocumentAI.

Lemma trimStart_suffix (s : string) : exists pre, s = pre +:+ trimStart s.
Proof.
  induction s as [|c s [pre IH]]; simpl.
  - now exists "".
  - destruct (is_space c).
    + exists (String c pre). simpl. now rewrite <- IH.
    + now exists "".
Qed.

Lemma trimEnd_prefix (s : string) : exists post, s = trimEnd s +:+ post.
Proof.
  induction s as [|c s [post IH]]; simpl.
  - now exists "".
  - destruct (is_space c && String.eqb (trimEnd s) "").
    + now exists (String c s).
    + exists post. simpl. now rewrite <- IH.
Qed.

Lemma trimEnd_idem (s : string) : trimEnd (trimEnd s) = trimEnd s.
Proof.
  induction s as [|c s IH]; simpl; [reflexivity|].
  destruct (is_space c && String.eqb (trimEnd s) "") eqn:E;
    [reflexivity|].
  simpl. now rewrite IH, E.
Qed.

Lemma trimStart_fixed (s : string) :
  trimStart (trimEnd (trimStart s)) = trimEnd (trimStart s).
Proof.
  induction s as [|c s IH]; simpl; [reflexivity|].
  destruct (is_space c) eqn:E; [exact IH|].
  simpl. rewrite E. simpl. now rewrite E.
Qed.

Lemma trim_idem (s : string) : trim (trim s) = trim s.
Proof. unfold trim. now rewrite trimStart_fixed, trimEnd_idem. Qed.

Lemma trim_part (s : string) : includes s (trim s) = true.
Proof.
  apply includes_iff. unfold trim.
  destruct (trimStart_suffix s) as [pre Hpre].
  destruct (trimEnd_prefix (trimStart s)) as [post Hpost].
  exists pre, post. now rewrite <- Hpost.
Qed.

Lemma includes_trans (a b c : string) :
  includes a b = true -> includes b c = true -> includes a c = true.
Proof.
  rewrite !includes_iff. intros (p1 & q1 & ->) (p2 & q2 & ->).
  exists (p1 +:+ p2), (q2 +:+ q1).
  assert (A : forall x y z : string, (x +:+ y) +:+ z = x +:+ (y +:+ z)).
  { intros x y z. induction x; simpl; congruence. }
  now rewrite !A.
Qed.

Lemma substring_part (s : string) (i j : N) :
  includes s (substring s i j) = true.
Proof.
  unfold substring. rewrite substring_take_drop. apply includes_iff.
  match goal with
  | |- context [Spec.take ?m (Spec.drop ?lo s)] =>
      exists (Spec.take lo s), (Spec.drop m (Spec.drop lo s))
  end.
  now rewrite take_drop, take_drop.
Qed.

End TextAnchors.

(** X1. [getText] fails exactly when the reply has no text although the
    anchor has a first segment; an absent anchor and an anchor without
    segments give the empty text, also without text. *)
Theorem getText_failure (a : option DocumentAI.TextAnchor)
    (fullText : option string) :
  ((exists e, DocumentAI.getText a fullText = Throw e)
   <-> fullText = None /\ Spec.has_segment a = true)
  /\ (Spec.has_segment a = false -> DocumentAI.getText a fullText = Ok "").
Proof.
  unfold DocumentAI.getText, Spec.has_segment.
  destruct a as [anchor|]; [destruct (DocumentAI.textSegments anchor)
    as [[|seg segs]|]|]; try destruct fullText as [t|]; split;
    try (intros; reflexivity); try discriminate;
    split; try (intros [e H]; discriminate); try (intros [H1 H2]; discriminate);
    eauto.
Qed.

(** X2. With the text present, what [getText] returns is a contiguous part
    of that text, and is trimmed: it neither begins nor ends with white
    space. *)
Theorem getText_part_of_text (a : option DocumentAI.TextAnchor)
    (fullText : string) :
  exists s,
    DocumentAI.getText a (Some fullText) = Ok s
    /\ JsString.includes fullText s = true
    /\ JsString.trim s = s.
Proof.
  unfold DocumentAI.getText.
  destruct a as [anchor|];
    [destruct (DocumentAI.textSegments anchor) as [[|seg segs]|]|];
    try (exists ""; split; [reflexivity|]; split;
         [apply includes_iff; exists "", fullText; reflexivity
         | reflexivity]).
  eexists. split; [reflexivity|]. split; [|apply trim_idem].
  eapply includes_trans; [apply substring_part | apply trim_part].
Qed.

Lemma getText_failure_witness :
  exists e,
    DocumentAI.getText
      (Some {| DocumentAI.textSegments :=
                 Some [{| DocumentAI.startIndex := Some 0%N;
                          DocumentAI.endIndex := Some 4%N |}] |}) None
    = Throw e.
Proof.
  apply (proj2 (proj1 (getText_failure _ None))). split; reflexivity.
Defined.

(** ** File extensions and mime types *)

Section Extensions.
Import JsString.

Lemma lower_is_dot (c : ascii) :
  Ascii.eqb (toLowerCase_char c) "."%char = Ascii.eqb c "."%char.
Proof. destruct c as [[] [] [] [] [] [] [] []]; reflexivity. Qed.

Lemma includes_dot (c : ascii) (s : string) :
  includes (String c s) "." = Ascii.eqb c "."%char || includes s ".".
Proof.
  cbn [includes]. f_equal. cbn [String.prefix].
  destruct (ascii_dec "."%char c) as [<-|H].
  - now destruct s.
  - symmetry. apply Ascii.eqb_neq. congruence.
Qed.

Lemma includes_dot_lower (s : string) :
  includes (toLowerCase s) "." = includes s ".".
Proof.
  induction s as [|c s IH]; [reflexivity|].
  cbn [toLowerCase]. now rewrite !includes_dot, lower_is_dot, IH.
Qed.

Lemma after_last_dot_lower (s : string) :
  after_last_dot (toLowerCase s) = toLowerCase (after_last_dot s).
Proof.
  induction s as [|c s IH]; [reflexivity|].
  cbn [toLowerCase after_last_dot].
  rewrite includes_dot_lower, lower_is_dot, IH.
  destruct (includes s "."); [reflexivity|].
  now destruct (Ascii.eqb c ".").
Qed.

(** The extension holds no dot. *)
Lemma after_last_dot_no_dot (s : string) :
  includes (after_last_dot s) "." = false.
Proof.
  induction s as [|c s IH]; [reflexivity|]. cbn [after_last_dot].
  destruct (includes s ".") eqn:E; [exact IH|].
  destruct (Ascii.eqb c ".") eqn:Ec; [exact E|].
  now rewrite includes_dot, Ec, E.
Qed.

Lemma includes_dot_app (a b : string) :
  includes (a +:+ b) "." = includes a "." || includes b ".".
Proof.
  induction a as [|c a IH]; simpl String.append.
  - now destruct b.
  - now rewrite !includes_dot, IH, orb_assoc.
Qed.

(** Whatever precedes the last dot does not matter. *)
Lemma after_last_dot_app (a e : string) :
  includes e "." = false -> after_last_dot (a +:+ "." +:+ e) = e.
Proof.
  intros He. induction a as [|c a IH]; simpl String.append.
  - cbn [after_last_dot]. now rewrite He.
  - cbn [after_last_dot]. rewrite includes_dot_app.
    change (includes ("." +:+ e) ".") with (includes (String "." e) ".").
    rewrite includes_dot. simpl. rewrite orb_true_r. exact IH.
Qed.

End Extensions.

(** X3. [getMimeType] always answers one of the four mime types the
    upload route accepts, and for the path the upload route stores a file
    under it answers what it answers for the original file name: the type
    sent to the provider follows the extension of the uploaded name,
    whatever its case. *)
Theorem getMimeType_of_upload_path :
  (forall filePath,
     In (DocumentAI.getMimeType filePath) Upload.allowedTypes)
  /\ (forall directory uuid name,
        DocumentAI.getMimeType
          (directory +:+ "/" +:+ uuid +:+ "."
           +:+ JsString.after_last_dot name)
        = DocumentAI.getMimeType name)
  /\ (forall name,
        DocumentAI.getMimeType (JsString.toLowerCase name)
        = DocumentAI.getMimeType name).
Proof.
  split; [|split].
  - intros p. unfold DocumentAI.getMimeType, Upload.allowedTypes.
    repeat match goal with
           | |- context [if ?b then _ else _] => destruct b
           end; simpl; auto.
  - intros directory uuid name. unfold DocumentAI.getMimeType.
    rewrite !after_last_dot_lower.
    assert (A : forall x y z : string, (x +:+ y) +:+ z = x +:+ (y +:+ z)).
    { intros x y z. induction x; simpl; congruence. }
    replace (directory +:+ "/" +:+ uuid +:+ "."
             +:+ JsString.after_last_dot name)
      with ((directory +:+ "/" +:+ uuid) +:+ "."
            +:+ JsString.after_last_dot name) by now rewrite !A.
    now rewrite (after_last_dot_app _ _ (after_last_dot_no_dot name)).
  - intros name. unfold DocumentAI.getMimeType.
    rewrite !after_last_dot_lower.
    assert (I : forall s, JsString.toLowerCase (JsString.toLowerCase s)
                          = JsString.toLowerCase s).
    { induction s as [|c s IH]; simpl; [reflexivity|]. rewrite IH. f_equal.
      destruct c as [[] [] [] [] [] [] [] []]; reflexivity. }
    now rewrite I.
Qed.

Lemma getMimeType_witness :
  DocumentAI.getMimeType "/tmp/uploads/documents/0002.PNG" = "image/png".
Proof.
  rewrite <- (proj2 (proj2 getMimeType_of_upload_path)). reflexivity.
Defined.

(** ** The configuration of the primary provider *)

Section Configuration.
Import DocumentAI.

Lemma env_or_present (env : gmap string string) (name fallback : string) :
  (Spec.present env name /\ env !! name = Some (env_or env name fallback))
  \/ (~ Spec.present env name /\ env_or env name fallback = fallback).
Proof.
  unfold Spec.present, env_or. destruct (env !! name) as [v|] eqn:E.
  - destruct (String.eqb v "") eqn:Ev.
    + apply String.eqb_eq in Ev. right. split; [|reflexivity].
      intros (v' & [= <-] & Hne). contradiction.
    + apply String.eqb_neq in Ev. left. eauto.
  - right. split; [|reflexivity]. intros (v & Hv & _). discriminate.
Qed.

Lemma env_or_nonempty (env : gmap string string) (name : string) :
  env_or env name "" <> "" <-> Spec.present env name.
Proof.
  destruct (env_or_present env name "") as [[Hp He] | [Hn He]].
  - split; [auto|]. intros _ H. rewrite H in He.
    destruct Hp as (v & Hv & Hne). congruence.
  - rewrite He. tauto.
Qed.

End Configuration.

(** X4. [createDocumentAIConfig] succeeds exactly when the project
    identifier and the W-2 processor identifier are present; the
    configuration then carries these two values, and a location that is
    the configured one, or "us" when none is configured. *)
Theorem createDocumentAIConfig_complete (env : gmap string string) :
  ((exists config, DocumentAI.createDocumentAIConfig env = Ok config)
   <-> Spec.present env "GOOGLE_CLOUD_PROJECT_ID"
       /\ Spec.present env "GOOGLE_CLOUD_W2_PROCESSOR_ID")
  /\ (forall config,
        DocumentAI.createDocumentAIConfig env = Ok config ->
        env !! "GOOGLE_CLOUD_PROJECT_ID"
        = Some (DocumentAI.projectId config)
        /\ env !! "GOOGLE_CLOUD_W2_PROCESSOR_ID"
           = Some (DocumentAI.w2ProcessorId config)
        /\ DocumentAI.location config <> ""
        /\ (~ Spec.present env "GOOGLE_CLOUD_LOCATION" ->
            DocumentAI.location config = "us")).
Proof.
  unfold DocumentAI.createDocumentAIConfig.
  cbn [DocumentAI.projectId DocumentAI.w2ProcessorId].
  destruct (env_or_present env "GOOGLE_CLOUD_PROJECT_ID" "")
    as [[Hp Ep] | [Hp Ep]];
    destruct (env_or_present env "GOOGLE_CLOUD_W2_PROCESSOR_ID" "")
      as [[Hw Ew] | [Hw Ew]].
  - pose proof (proj2 (env_or_nonempty _ _) Hp) as Np.
    pose proof (proj2 (env_or_nonempty _ _) Hw) as Nw.
    apply String.eqb_neq in Np, Nw. rewrite Np, Nw. simpl.
    split; [split; eauto|]. intros config [= <-]. simpl.
    split; [exact Ep|]. split; [exact Ew|].
    destruct (env_or_present env "GOOGLE_CLOUD_LOCATION" "us")
      as [[Hl El] | [Hl El]].
    + split; [|tauto]. intros H. rewrite H in El.
      destruct Hl as (v & Hv & Hne). congruence.
    + rewrite El. split; [discriminate | reflexivity].
  - rewrite Ew, orb_true_r. split; [|discriminate].
    split; [intros [c H]; discriminate | tauto].
  - rewrite Ep. simpl. split; [|discriminate].
    split; [intros [c H]; discriminate | tauto].
  - rewrite Ep. simpl. split; [|discriminate].
    split; [intros [c H]; discriminate | tauto].
Qed.

Lemma createDocumentAIConfig_witness :
  exists config,
    DocumentAI.createDocumentAIConfig
      (<["GOOGLE_CLOUD_PROJECT_ID" := "p"]>
         (<["GOOGLE_CLOUD_W2_PROCESSOR_ID" := "w2"]> ∅)) = Ok config
    /\ DocumentAI.location config = "us".
Proof.
  set (env := <["GOOGLE_CLOUD_PROJECT_ID" := "p"]>
                (<["GOOGLE_CLOUD_W2_PROCESSOR_ID" := "w2"]> ∅)
              : gmap string string).
  destruct (proj2 (proj1 (createDocumentAIConfig_complete env)))
    as [config Hc].
  { split; [exists "p" | exists "w2"]; (split; [reflexivity | discriminate]). }
  exists config. split; [exact Hc|].
  apply (proj2 (createDocumentAIConfig_complete env) config Hc).
  intros (v & Hv & _). discriminate Hv.
Defined.

(** X5. [getProcessorName] fails exactly for a 1099 variant when no 1099
    processor is configured; with one configured, the six 1099 variants
    all go to that one processor. *)
Theorem getProcessorName_failure (config : DocumentAI.DocumentAIConfig)
    (documentType : string) :
  ((exists e, DocumentAI.getProcessorName config documentType = Throw e)
   <-> DocumentAI.is_1099_variant documentType = true
       /\ Js.truthy_str (DocumentAI.form1099ProcessorId config) = false)
  /\ (forall id,
        DocumentAI.is_1099_variant documentType = true ->
        DocumentAI.form1099ProcessorId config = Some id ->
        id <> "" ->
        DocumentAI.getProcessorName config documentType
        = Ok (DocumentAI.processor_path (DocumentAI.projectId config)
                (DocumentAI.location config) id)).
Proof.
  unfold DocumentAI.getProcessorName.
  destruct (String.eqb documentType "W2") eqn:Ew.
  - apply String.eqb_eq in Ew. subst. simpl.
    split; [|discriminate].
    split; [intros [e H]; discriminate | intros [H _]; discriminate].
  - destruct (DocumentAI.is_1099_variant documentType); split;
      try discriminate;
      try (split; [intros [e H]; discriminate | intros [H _]; discriminate]).
    + destruct (Js.truthy_str (DocumentAI.form1099ProcessorId config));
        simpl; split; eauto; try (intros [e H]; discriminate);
        intros [_ H]; discriminate.
    + intros id _ Hid Hne. rewrite Hid. simpl.
      apply String.eqb_neq in Hne. now rewrite Hne.
Qed.

Lemma getProcessorName_witness :
  DocumentAI.getProcessorName
    {| DocumentAI.projectId := "p"; DocumentAI.location := "eu";
       DocumentAI.w2ProcessorId := "w2";
       DocumentAI.form1099ProcessorId := Some "f1099" |} "FORM_1099_G"
  = Ok "projects/p/locations/eu/processors/f1099".
Proof.
  apply (proj2 (getProcessorName_failure
                  {| DocumentAI.projectId := "p"; DocumentAI.location := "eu";
                     DocumentAI.w2ProcessorId := "w2";
                     DocumentAI.form1099ProcessorId := Some "f1099" |}
                  "FORM_1099_G") "f1099");
    [reflexivity | reflexivity | discriminate].
Defined.

(** ** 1099 documents without a 1099 processor *)

Lemma withDocumentAI_unconfigured_1099 (rt : Runtime) (rq : Process.Request)
    (d : Document) (w : World) :
  Process.useDocumentAI rq = true ->
  ~ Spec.present (Process.process_env rq) "GOOGLE_CLOUD_1099_PROCESSOR_ID" ->
  DocumentAI.is_1099_variant (documentType d) = true ->
  fst (Process.withDocumentAI rt rq d w)
  = Throw (Error ("No 1099 processor configured for " +:+ documentType d)).
Proof.
  intros Hu Hn Hv.
  destruct (useDocumentAI_config rq Hu) as [config Hc].
  assert (Hf : DocumentAI.form1099ProcessorId config = Some "").
  { unfold DocumentAI.createDocumentAIConfig in Hc.
    destruct (_ || _) in Hc; [discriminate|]. injection Hc as <-. simpl.
    destruct (env_or_present (Process.process_env rq)
                "GOOGLE_CLOUD_1099_PROCESSOR_ID" "") as [[Hp _] | [_ ->]];
      [contradiction | reflexivity]. }
  assert (Hg : DocumentAI.getProcessorName config (documentType d)
               = Throw (Error ("No 1099 processor configured for "
                               +:+ documentType d))).
  { unfold DocumentAI.getProcessorName. rewrite Hv, Hf.
    destruct (String.eqb (documentType d) "W2") eqn:E; [|reflexivity].
    apply String.eqb_eq in E. rewrite E in Hv. discriminate. }
  unfold Process.withDocumentAI, bind at 1, lift at 1. rewrite Hc.
  unfold DocumentAI.processDocument, try_catch, bind, emit, lift, throw.
  rewrite Hg. reflexivity.
Qed.

(** X6. With the primary provider configured but without a 1099 processor
    identifier, the extraction of a 1099 document always comes from the
    secondary provider: the primary is invoked and fails, and the outcome
    is that of [processWithLLM]. *)
Theorem extract_1099_without_processor (rt : Runtime) (rq : Process.Request)
    (d : Document) (w : World) :
  Spec.primary_configured (Process.process_env rq) ->
  ~ Spec.present (Process.process_env rq) "GOOGLE_CLOUD_1099_PROCESSOR_ID" ->
  In (documentType d)
     ["FORM_1099_INT"; "FORM_1099_DIV"; "FORM_1099_MISC"; "FORM_1099_NEC";
      "FORM_1099_R"; "FORM_1099_G"] ->
  fst (Process.extractTaxData rt rq d w)
  = fst (Process.processWithLLM rt rq d w)
  /\ exists new,
       snd (Process.extractTaxData rt rq d w)
       = with_trace (trace w ++ new)%list w
       /\ Spec.providers_called new = [Spec.Primary; Spec.Secondary].
Proof.
  intros Hc Hn Hin. apply useDocumentAI_configured in Hc.
  assert (Hv : DocumentAI.is_1099_variant (documentType d) = true).
  { unfold DocumentAI.is_1099_variant. apply existsb_exists.
    exists (documentType d). split; [exact Hin | apply String.eqb_refl]. }
  pose proof (withDocumentAI_unconfigured_1099 rt rq d w Hc Hn Hv) as Hp.
  destruct (extractTaxData_run rt rq d w) as (new & Hw & _ & H).
  rewrite Hc, Hp in H. destruct H as [Hr Hcalled].
  split; [exact Hr|]. exists new. split; [exact Hw | exact Hcalled].
Qed.

Lemma extract_1099_without_processor_witness :
  fst (Process.extractTaxData Samples.runtime
         (Samples.process_request_primary None) Samples.uploaded_1099
         Samples.world)
  = fst (Process.processWithLLM Samples.runtime
           (Samples.process_request_primary None) Samples.uploaded_1099
           Samples.world).
Proof.
  apply (extract_1099_without_processor Samples.runtime
           (Samples.process_request_primary None) Samples.uploaded_1099
           Samples.world).
  - repeat split; eexists; (split; [reflexivity | discriminate]).
  - intros (v & Hv & _). discriminate Hv.
  - simpl. auto.
Defined.

(** ** The W-2 extraction *)

Section W2.
Import JsString DocumentAI.

Lemma set_all_app (a b : list (string * string)) (o : Js.object) :
  Spec.set_all (a ++ b) o = Spec.set_all b (Spec.set_all a o).
Proof.
  revert o; induction a as [|[k v] a IH]; intros o; simpl; auto.
Qed.

Lemma set_all_get (a : list (string * string)) (o : Js.object)
    (key : string) :
  Js.get (Spec.set_all a o) key
  = match Spec.last_value a key with
    | Some v => Some (JStr v)
    | None => Js.get o key
    end.
Proof.
  unfold Spec.last_value.
  revert o; induction a as [|[k v] a IH]; intros o; simpl; auto.
  rewrite IH, find_snoc.
  destruct (find _ (rev a)) as [[k' v']|]; simpl; [reflexivity|].
  destruct (String.eqb k key) eqn:E; simpl.
  - apply String.eqb_eq in E. subst. apply get_set_same.
  - apply get_set_other. apply String.eqb_neq in E. congruence.
Qed.

Lemma set_all_keys (a : list (string * string)) (o : Js.object) :
  Forall (fun kv => In (fst kv) (Js.keys o)) a ->
  Js.keys (Spec.set_all a o) = Js.keys o.
Proof.
  revert o; induction a as [|[k v] a IH]; intros o H; simpl; auto.
  inversion H as [|? ? Hk Ha]; subst. simpl in Hk.
  rewrite IH; rewrite (keys_set o k (JStr v) Hk); auto.
Qed.

Lemma last_value_app (a b : list (string * string)) (key : string) :
  Spec.last_value (a ++ b) key
  = match Spec.last_value b key with
    | Some v => Some v
    | None => Spec.last_value a key
    end.
Proof.
  unfold Spec.last_value. rewrite rev_app_distr.
  induction (rev b) as [|[k v] l IH]; simpl; [reflexivity|].
  destruct (String.eqb k key); [reflexivity | exact IH].
Qed.

Lemma w2_entity_step (t : string) (o : Js.object) (e : Entity) :
  w2_entity (Some t) o e
  = Ok (Spec.set_all
          (match Spec.w2_entity_field (entity_type e) with
           | Some key => [(key, Spec.anchored_opt t (entity_textAnchor e))]
           | None => []
           end) o).
Proof.
  unfold w2_entity, Spec.w2_entity_field, assign.
  rewrite getText_defined. fold (Spec.anchored_opt t (entity_textAnchor e)).
  repeat match goal with
         | |- context [if ?b then _ else _] => destruct b; [reflexivity|]
         end.
  reflexivity.
Qed.

Lemma w2_field_step (t : string) (o : Js.object) (f : FormField) :
  w2_field (Some t) o f
  = Ok (Spec.set_all
          (flat_map
             (fun lv =>
                match Spec.w2_label_field (fst lv) with
                | Some key => [(key, snd lv)]
                | None => []
                end)
             (match layout_anchor (fieldName f),
                    layout_anchor (fieldValue f) with
              | Some n, Some v => [(Spec.anchored t n, Spec.anchored t v)]
              | _, _ => []
              end)) o).
Proof.
  unfold w2_field.
  destruct (layout_anchor (fieldName f)) as [n|]; [|reflexivity].
  destruct (layout_anchor (fieldValue f)) as [v|]; [|reflexivity].
  rewrite !getText_defined. cbn [flat_map fst snd app].
  unfold Spec.w2_label_field, assign.
  repeat match goal with
         | |- context [if ?b then _ else _] => destruct b; [reflexivity|]
         end.
  reflexivity.
Qed.

Lemma fold_w2_entities (t : string) (es : list Entity) (o : Js.object) :
  fold_result (w2_entity (Some t)) es o
  = Ok (Spec.set_all
          (flat_map
             (fun e =>
                match Spec.w2_entity_field (entity_type e) with
                | Some key =>
                    [(key, Spec.anchored_opt t (entity_textAnchor e))]
                | None => []
                end) es) o).
Proof.
  revert o; induction es as [|e es IH]; intros o; simpl; [reflexivity|].
  rewrite w2_entity_step, IH, set_all_app. reflexivity.
Qed.

Lemma fold_w2_fields (t : string) (fs : list FormField) (o : Js.object) :
  fold_result (w2_field (Some t)) fs o
  = Ok (Spec.set_all
          (flat_map
             (fun lv =>
                match Spec.w2_label_field (fst lv) with
                | Some key => [(key, snd lv)]
                | None => []
                end)
             (flat_map
                (fun f =>
                   match layout_anchor (fieldName f),
                         layout_anchor (fieldValue f) with
                   | Some n, Some v =>
                       [(Spec.anchored t n, Spec.anchored t v)]
                   | _, _ => []
                   end) fs)) o).
Proof.
  revert o; induction fs as [|f fs IH]; intros o; simpl; [reflexivity|].
  rewrite w2_field_step, IH, flat_map_app, set_all_app. reflexivity.
Qed.

Lemma w2_entity_field_in (type key : string) :
  Spec.w2_entity_field type = Some key -> In key w2_fields.
Proof.
  unfold Spec.w2_entity_field.
  repeat match goal with
         | |- context [if ?b then _ else _] =>
             destruct b; [intros [= <-]; simpl; tauto|]
         end.
  discriminate.
Qed.

Lemma w2_label_field_in (label key : string) :
  Spec.w2_label_field label = Some key -> In key w2_fields.
Proof.
  unfold Spec.w2_label_field.
  repeat match goal with
         | |- context [if ?b then _ else _] =>
             destruct b; [intros [= <-]; simpl; tauto|]
         end.
  discriminate.
Qed.

Lemma extractW2Data_assignments (document : AIDocument) (t : string) :
  text document = Some t ->
  extractW2Data document
  = Ok (Spec.set_all
          (Spec.w2_entity_assignments document t
           ++ Spec.w2_field_assignments document t)
          (empty_fields w2_fields)).
Proof.
  intros Ht. unfold extractW2Data, Spec.w2_entity_assignments,
    Spec.w2_field_assignments, Spec.labelled_fields.
  rewrite Ht, set_all_app.
  destruct (entities document) as [es|]; cbn [default];
    [rewrite fold_w2_entities|];
    (destruct (first_page_formFields document) as [fs|]; cbn [default];
     [rewrite fold_w2_fields|]); reflexivity.
Qed.

End W2.

(** X7. With the text present, the W-2 extraction returns the eighteen
    W-2 fields in their order, and each field holds the value of the last
    form field of the first page whose label stands for it, or else the
    text of the last entity whose type stands for it, or else the empty
    text: a form field replaces what an entity gave. *)
Theorem extractW2Data_last_wins (document : DocumentAI.AIDocument)
    (fullText : string) :
  DocumentAI.text document = Some fullText ->
  exists w2Data,
    DocumentAI.extractW2Data document = Ok w2Data
    /\ Js.keys w2Data = DocumentAI.w2_fields
    /\ forall key,
         In key DocumentAI.w2_fields ->
         Js.get w2Data key
         = Some (JStr
             match Spec.last_value
                     (Spec.w2_field_assignments document fullText) key with
             | Some value => value
             | None =>
                 match Spec.last_value
                         (Spec.w2_entity_assignments document fullText) key
                 with
                 | Some value => value
                 | None => ""
                 end
             end).
Proof.
  intros Ht. rewrite (extractW2Data_assignments document fullText Ht).
  eexists. split; [reflexivity|]. split.
  - rewrite set_all_keys; [reflexivity|].
    apply Forall_app. split; apply List.Forall_forall; intros [k v] Hin;
      apply in_flat_map in Hin; destruct Hin as (x & _ & Hx); simpl.
    + destruct (Spec.w2_entity_field _) as [k'|] eqn:E; [|contradiction].
      destruct Hx as [[= <- _]|[]]. eapply w2_entity_field_in; eauto.
    + destruct (Spec.w2_label_field _) as [k'|] eqn:E; [|contradiction].
      destruct Hx as [[= <- _]|[]]. eapply w2_label_field_in; eauto.
  - intros key Hkey. rewrite set_all_get, last_value_app.
    destruct (Spec.last_value (Spec.w2_field_assignments _ _) key);
      [reflexivity|].
    destruct (Spec.last_value (Spec.w2_entity_assignments _ _) key);
      [reflexivity|].
    simpl in Hkey.
    repeat (destruct Hkey as [<-|Hkey]; [reflexivity|]). contradiction.
Qed.

Lemma extractW2Data_witness :
  exists w2Data,
    DocumentAI.extractW2Data Samples.scored_reply = Ok w2Data
    /\ Js.get w2Data "wages" = Some (JStr "55000.00").
Proof.
  destruct (extractW2Data_last_wins Samples.scored_reply
              "Wages, tips 55000.00" eq_refl) as (w2Data & Hx & _ & Hget).
  exists w2Data. split; [exact Hx|].
  rewrite (Hget "wages"); [reflexivity | simpl; tauto].
Defined.

(** ** The schema of a result *)

Section Schema.
Import JsString DocumentAI.

Lemma fold_result_invariant {A B} (P : A -> Prop) (f : A -> B -> result A)
    (l : list B) :
  (forall a b a', f a b = Ok a' -> P a -> P a') ->
  forall a a', fold_result f l a = Ok a' -> P a -> P a'.
Proof.
  intros Hf. induction l as [|b l IH]; intros a a' H Ha; simpl in H.
  - now injection H as <-.
  - destruct (f a b) as [a1|e] eqn:E; [|discriminate]. eauto.
Qed.

Lemma assign_first_match_keys (entries o : Js.object) (nf v : string) :
  (forall k, In k (Js.keys entries) -> In k (Js.keys o)) ->
  Js.keys (assign_first_match entries nf v o) = Js.keys o.
Proof.
  induction entries as [|[k x] entries IH]; intros H; simpl; [reflexivity|].
  destruct (_ || _).
  - apply keys_set. apply H. simpl. auto.
  - apply IH. intros k' Hk'. apply H. simpl. auto.
Qed.

Lemma generic_field_keys (t : option string) (o o' : Js.object)
    (f : FormField) :
  generic_field t o f = Ok o' -> Js.keys o' = Js.keys o.
Proof.
  unfold generic_field.
  destruct (layout_anchor (fieldName f)); [|now intros [= <-]].
  destruct (layout_anchor (fieldValue f)); [|now intros [= <-]].
  destruct (getText _ t); [|discriminate].
  destruct (getText _ t); [|discriminate].
  intros [= <-]. now apply assign_first_match_keys.
Qed.

Lemma extractGenericFormFields_keys (document : AIDocument)
    (o o' : Js.object) :
  extractGenericFormFields document o = Ok o' -> Js.keys o' = Js.keys o.
Proof.
  unfold extractGenericFormFields.
  destruct (first_page_formFields document) as [fs|]; [|now intros [= <-]].
  intros H.
  apply (fold_result_invariant (fun x => Js.keys x = Js.keys o) _ _
           (fun a b a' Hs Ha =>
              eq_trans (generic_field_keys (text document) a a' b Hs) Ha)
           _ _ H eq_refl).
Qed.

Lemma assign_keys (o o' : Js.object) (key value : string) :
  In key (Js.keys o) -> assign o key value = Ok o' -> Js.keys o' = Js.keys o.
Proof. intros Hk [= <-]. now apply keys_set. Qed.

Lemma w2_entity_keys (t : option string) (o o' : Js.object) (e : Entity) :
  w2_entity t o e = Ok o' -> Js.keys o = w2_fields -> Js.keys o' = w2_fields.
Proof.
  unfold w2_entity. destruct (getText _ t); [|discriminate].
  intros H Ho.
  repeat match type of H with
         | (if ?b then _ else _) = _ =>
             destruct b;
             [apply assign_keys in H;
              [congruence | rewrite Ho; simpl; tauto]|]
         end.
  injection H as <-. exact Ho.
Qed.

Lemma w2_field_keys (t : option string) (o o' : Js.object) (f : FormField) :
  w2_field t o f = Ok o' -> Js.keys o = w2_fields -> Js.keys o' = w2_fields.
Proof.
  unfold w2_field.
  destruct (layout_anchor (fieldName f)); [|intros [= <-]; auto].
  destruct (layout_anchor (fieldValue f)); [|intros [= <-]; auto].
  destruct (getText _ t); [|discriminate].
  destruct (getText _ t); [|discriminate].
  intros H Ho.
  repeat match type of H with
         | (if ?b then _ else _) = _ =>
             destruct b;
             [apply assign_keys in H;
              [congruence | rewrite Ho; simpl; tauto]|]
         end.
  injection H as <-. exact Ho.
Qed.

Lemma extractW2Data_keys (document : AIDocument) (o : Js.object) :
  extractW2Data document = Ok o -> Js.keys o = w2_fields.
Proof.
  unfold extractW2Data. intros H.
  match type of H with
  | match ?x with _ => _ end = _ => destruct x as [o1|] eqn:E1; [|discriminate]
  end.
  assert (H1 : Js.keys o1 = w2_fields).
  { destruct (entities document) as [es|].
    - apply (fold_result_invariant (fun x => Js.keys x = w2_fields) _ _
               (fun a b a' => w2_entity_keys (text document) a a' b)
               _ _ E1). reflexivity.
    - injection E1 as <-. reflexivity. }
  destruct (first_page_formFields document) as [fs|].
  - apply (fold_result_invariant (fun x => Js.keys x = w2_fields) _ _
             (fun a b a' => w2_field_keys (text document) a a' b)
             _ _ H H1).
  - injection H as <-. exact H1.
Qed.

End Schema.

(** X8. Whatever the reply, a result of [transformToTaxData] carries the
    document type it was asked for, the text of the reply (empty when the
    reply has none), and as extracted data exactly the canonical fields of
    that type, in their order: eighteen for a W-2, the lists of the
    1099-INT, -DIV, -MISC and -NEC forms, and the seven generic fields for
    every other type, 1099-R and 1099-G included. With the text present
    the transformation succeeds. *)
Theorem transformToTaxData_schema (document : DocumentAI.AIDocument)
    (documentType : string) :
  (forall r,
     DocumentAI.transformToTaxData document documentType = Ok r ->
     etd_documentType r = JStr documentType
     /\ etd_ocrText r = JStr (default "" (DocumentAI.text document))
     /\ exists fields,
          etd_extractedData r = JObj fields
          /\ Js.keys fields = Spec.schema documentType)
  /\ (forall fullText,
        DocumentAI.text document = Some fullText ->
        exists r, DocumentAI.transformToTaxData document documentType = Ok r).
Proof.
  unfold DocumentAI.transformToTaxData, Spec.schema. split.
  - intros r H.
    match type of H with
    | match ?x with _ => _ end = _ => destruct x as [o|] eqn:E; [|discriminate]
    end.
    injection H as <-. simpl. repeat split. exists o. split; [reflexivity|].
    destruct (String.eqb documentType "W2");
      [now apply extractW2Data_keys in E|].
    repeat match type of E with
           | (if ?b then _ else _) = _ =>
               destruct b;
               [now apply extractGenericFormFields_keys in E|]
           end.
    now apply extractGenericFormFields_keys in E.
  - intros t Ht.
    assert (G : forall o, exists o',
                  DocumentAI.extractGenericFormFields document o = Ok o').
    { intros o. unfold DocumentAI.extractGenericFormFields. rewrite Ht.
      destruct (DocumentAI.first_page_formFields document); [|eauto].
      rewrite fold_generic_fields. eauto. }
    destruct (String.eqb documentType "W2").
    { rewrite (extractW2Data_assignments document t Ht). eauto. }
    unfold DocumentAI.extract1099IntData, DocumentAI.extract1099DivData,
      DocumentAI.extract1099MiscData, DocumentAI.extract1099NecData,
      DocumentAI.extractGenericTaxData.
    repeat match goal with
           | |- context [if ?b then _ else _] => destruct b
           end;
      match goal with
      | |- context [DocumentAI.extractGenericFormFields document ?o] =>
          destruct (G o) as [o' ->]; eauto
      end.
Qed.

Lemma transformToTaxData_witness :
  exists r fields,
    DocumentAI.transformToTaxData Samples.payer_twice "FORM_1099_R" = Ok r
    /\ etd_extractedData r = JObj fields
    /\ Js.keys fields
       = ["payerName"; "payerTIN"; "recipientName"; "recipientTIN";
          "incomeAmount"; "taxWithheld"; "relevantBoxes"].
Proof.
  destruct (proj2 (transformToTaxData_schema Samples.payer_twice
                     "FORM_1099_R") _ eq_refl) as [r Hr].
  destruct (proj1 (transformToTaxData_schema Samples.payer_twice
                     "FORM_1099_R") r Hr) as (_ & _ & fields & Hf & Hk).
  exists r, fields. repeat split; assumption.
Defined.

(** ** The confidence of the primary provider *)

(** X9. When every confidence score the reply reports lies between 0 and
    1, so does the confidence [calculateAverageConfidence] computes. *)
Theorem calculateAverageConfidence_bounds (document : DocumentAI.AIDocument) :
  Forall Spec.unit_score (Spec.reported_scores document) ->
  (0 <= DocumentAI.calculateAverageConfidence document)%Q
  /\ (DocumentAI.calculateAverageConfidence document <= 1)%Q.
Proof.
  intros H. rewrite calculateAverageConfidence_mean.
  destruct (Spec.reported_scores document) as [|c l] eqn:E.
  - split; [apply Qle_refl | discriminate].
  - destruct (double_sum_bounds _ 0%Q 0 H (Qle_refl 0) (Qle_refl 0))
      as [Hlo Hhi].
    unfold Spec.double_mean, Spec.double_sum, Double.div.
    set (total := fold_left Double.add (c :: l) 0%Q) in *.
    set (n := length (c :: l)) in *.
    assert (Hn : (0 < inject_Z (Z.of_nat n))%Q).
    { change 0%Q with (inject_Z 0). rewrite <- Zlt_Qlt. subst n. simpl. lia. }
    assert (Hm : (inject_Z (Z.min (Z.of_nat (0 + n)) (2 ^ 53))
                  <= inject_Z (Z.of_nat n))%Q)
      by (rewrite <- Zle_Qle; lia).
    split.
    + apply round_nonneg. apply Qle_shift_div_l; [exact Hn|]. lra.
    + change 1%Q with (inject_Z 1). apply round_le; [lia|].
      change (inject_Z 1) with 1%Q.
      apply Qle_shift_div_r; [exact Hn|]. lra.
Qed.

Lemma calculateAverageConfidence_witness :
  (0 <= DocumentAI.calculateAverageConfidence Samples.two_pages)%Q
  /\ (DocumentAI.calculateAverageConfidence Samples.two_pages <= 1)%Q.
Proof.
  apply calculateAverageConfidence_bounds.
  repeat constructor; discriminate.
Defined.

(** X10. The extraction reads the text, the entities and the form fields
    of the first page only: two replies that agree on these give the same
    extracted data, text and document type, whatever their other pages
    hold. *)
Theorem extraction_reads_first_page (d1 d2 : DocumentAI.AIDocument)
    (documentType : string) (r1 : ExtractedTaxData) :
  DocumentAI.text d1 = DocumentAI.text d2 ->
  DocumentAI.entities d1 = DocumentAI.entities d2 ->
  DocumentAI.first_page_formFields d1 = DocumentAI.first_page_formFields d2 ->
  DocumentAI.transformToTaxData d1 documentType = Ok r1 ->
  exists r2,
    DocumentAI.transformToTaxData d2 documentType = Ok r2
    /\ etd_extractedData r2 = etd_extractedData r1
    /\ etd_ocrText r2 = etd_ocrText r1
    /\ etd_documentType r2 = etd_documentType r1.
Proof.
  intros Ht He Hp H.
  unfold DocumentAI.transformToTaxData, DocumentAI.extractW2Data,
    DocumentAI.extract1099IntData, DocumentAI.extract1099DivData,
    DocumentAI.extract1099MiscData, DocumentAI.extract1099NecData,
    DocumentAI.extractGenericTaxData, DocumentAI.extractGenericFormFields
    in *.
  rewrite Ht, He, Hp in H.
  match type of H with
  | match ?x with _ => _ end = _ => destruct x as [o|]; [|discriminate]
  end.
  injection H as <-. eexists. repeat split.
Qed.

Lemma extraction_reads_first_page_witness :
  exists r2,
    DocumentAI.transformToTaxData Samples.two_pages "W2" = Ok r2
    /\ Js.opt_prop (etd_extractedData r2) "wages" = JStr "55000.00"
    /\ ~ (etd_confidence r2 == 0.85)%Q.
Proof.
  destruct (extraction_reads_first_page Samples.scored_reply
              Samples.two_pages "W2" _ eq_refl eq_refl eq_refl eq_refl)
    as (r2 & Hr & Hx & _).
  exists r2. split; [exact Hr|]. split.
  - rewrite Hx. reflexivity.
  - assert (E : DocumentAI.transformToTaxData Samples.two_pages "W2"
                = Ok r2) by exact Hr.
    vm_compute in E. injection E as <-. discriminate.
Defined.

(** ** What the process route leaves alone *)

(** The [catch] of the handler when no row has the id of the request. *)
Lemma failure_no_row (rq : Process.Request) (w : World) :
  documents w !! Process.params_id rq = None ->
  exists e,
    fst (Process.failure rq w) = Throw e
    /\ snd (Process.failure rq w)
       = with_trace (trace w ++ [Logged "Document processing error:"])%list w.
Proof.
  intros Hd.
  unfold Process.failure, Process.set_status, Prisma.document_set_status,
    Prisma.document_update, Process.error_response, bind, lift, emit,
    get_world, set_documents, throw, ret. simpl.
  destruct (Process.failed_outcome rq); [rewrite Hd|]; eexists; split;
    reflexivity.
Qed.

(** X11. A process request that does not come from the owner of the
    document (no session, an unknown user, an unknown document, or a
    document of somebody else's tax return) is answered with 401 or 404
    and changes nothing, when the session and the look-ups it reaches
    answer. When one of them fails, the [catch] of the handler marks the
    document the request names FAILED, without a check of its owner, and
    answers the generic 500; when that update fails too, the handler
    rejects and no document changes. *)
Theorem POST_refuses_strangers (rt : Runtime) (rq : Process.Request)
    (w : World) :
  (forall d, ~ Spec.owner_request rq w d) ->
  let run := Process.POST rt rq w in
  match Spec.lookup_failure rq w with
  | None =>
      snd run = w
      /\ exists status message,
           fst run = Ok (JsonResponse status (ErrorBody message))
           /\ In (status, message)
                [(401%N, "Unauthorized"); (404%N, "User not found");
                 (404%N, "Document not found")]
  | Some _ =>
      match documents w !! Process.params_id rq,
            Process.failed_outcome rq with
      | Some d, Ok _ =>
          fst run = Ok Spec.internal_error
          /\ documents (snd run)
             = <[Process.params_id rq := Prisma.with_status FAILED d]>
                 (documents w)
      | _, _ =>
          (exists e, fst run = Throw e) /\ documents (snd run) = documents w
      end
  end.
Proof.
  intros Hn run. subst run.
  pose proof (POST_cases rt rq w) as Hcases.
  destruct (Spec.lookup_failure rq w) as [e|].
  - rewrite Hcases.
    destruct (documents w !! Process.params_id rq) as [d|] eqn:Hd.
    + rewrite (failure_run rq w d Hd). unfold Closed.failure.
      destruct (Process.failed_outcome rq); simpl; eauto.
    + destruct (failure_no_row rq w Hd) as (e' & H1 & H2).
      rewrite H2. eauto.
  - destruct Hcases as [[d Ho] | (st & m & Hrun & Hin)].
    + elim (Hn d Ho).
    + rewrite Hrun. split; [reflexivity | eauto].
Qed.

Lemma sample_stranger (rq : Process.Request) :
  Process.session_email rq <> Some "alice@example.org" ->
  forall d, ~ Spec.owner_request rq Samples.world d.
Proof.
  intros Hs d (email & user & t & He & _ & Hu & _).
  simpl in Hu. apply lookup_singleton_Some in Hu. destruct Hu as [<- _].
  contradiction.
Qed.

Lemma POST_refuses_strangers_witness :
  snd (Process.POST Samples.runtime Samples.process_request_stranger
         Samples.world)
  = Samples.world
  /\ documents (snd (Process.POST Samples.runtime
                       Samples.process_request_no_session Samples.world))
     = <["d1" := Prisma.with_status FAILED Samples.uploaded]>
         (documents Samples.world).
Proof.
  split.
  - exact (proj1 (POST_refuses_strangers Samples.runtime
                    Samples.process_request_stranger Samples.world
                    (sample_stranger Samples.process_request_stranger
                       ltac:(simpl; discriminate)))).
  - exact (proj2 (POST_refuses_strangers Samples.runtime
                    Samples.process_request_no_session Samples.world
                    (sample_stranger Samples.process_request_no_session
                       ltac:(simpl; discriminate)))).
Defined.

(** X12. Whatever the request, the process route leaves users, tax
    returns and files as they are, touches no document but the one it is
    asked for, and keeps that document's identity: its id, tax return,
    file name, type, size and path, and its document type. *)
Theorem POST_frame (rt : Runtime) (rq : Process.Request) (w : World) :
  let w' := snd (Process.POST rt rq w) in
  users w' = users w
  /\ taxReturns w' = taxReturns w
  /\ files w' = files w
  /\ (forall j, j <> Process.params_id rq ->
        documents w' !! j = documents w !! j)
  /\ (forall d,
        documents w !! Process.params_id rq = Some d ->
        exists d',
          documents w' !! Process.params_id rq = Some d'
          /\ id d' = id d /\ taxReturnId d' = taxReturnId d
          /\ fileName d' = fileName d /\ fileType d' = fileType d
          /\ fileSize d' = fileSize d /\ filePath d' = filePath d
          /\ documentType d' = documentType d).
Proof.
  intros w'. subst w'.
  assert (Hfailure : forall d w0,
             users w0 = users w -> taxReturns w0 = taxReturns w ->
             files w0 = files w ->
             (documents w0 = documents w
              \/ documents w0
                 = <[Process.params_id rq := Prisma.with_status PROCESSING d]>
                     (documents w)) ->
             forall d0, documents w0 !! Process.params_id rq = Some d0 ->
             let w' := snd (Closed.failure rq d0 w0) in
             users w' = users w
             /\ taxReturns w' = taxReturns w
             /\ files w' = files w
             /\ (forall j, j <> Process.params_id rq ->
                   documents w' !! j = documents w !! j)
             /\ exists d',
                  documents w' !! Process.params_id rq = Some d'
                  /\ id d' = id d0 /\ taxReturnId d' = taxReturnId d0
                  /\ fileName d' = fileName d0
                  /\ fileType d' = fileType d0
                  /\ fileSize d' = fileSize d0
                  /\ filePath d' = filePath d0
                  /\ documentType d' = documentType d0).
  { intros d w0 Hu Ht Hf Hdocs d0 Hd0 w'. subst w'.
    unfold Closed.failure, Closed.world.
    destruct (Process.failed_outcome rq); simpl;
      (split; [exact Hu|]); (split; [exact Ht|]); (split; [exact Hf|]).
    - split.
      + intros j Hj. rewrite lookup_insert_ne by congruence.
        destruct Hdocs as [-> | ->]; [reflexivity|].
        now rewrite lookup_insert_ne by congruence.
      + eexists. split; [apply lookup_insert_eq|]. repeat split.
    - split.
      + intros j Hj. destruct Hdocs as [-> | ->]; [reflexivity|].
        now rewrite lookup_insert_ne by congruence.
      + exists d0. split; [exact Hd0|]. repeat split. }
  pose proof (POST_cases rt rq w) as Hcases.
  destruct (Spec.lookup_failure rq w) as [e|] eqn:Hl.
  - rewrite Hcases.
    destruct (documents w !! Process.params_id rq) as [d|] eqn:Hd.
    + rewrite (failure_run rq w d Hd).
      destruct (Hfailure d w eq_refl eq_refl eq_refl (or_introl eq_refl)
                  d Hd) as (H1 & H2 & H3 & H4 & H5).
      repeat (split; [assumption|]).
      intros d0 [= <-]. exact H5.
    + destruct (failure_no_row rq w Hd) as (e' & _ & ->).
      simpl. repeat split. intros d0 Hd0. discriminate.
  - destruct Hcases as [[d Ho] | (st & m & Hrun & Hin)].
    + destruct (POST_owner rt rq w d Ho) as (new & _ & _ & Hrun).
      destruct Ho as (email & user & t & _ & _ & _ & Hd & _).
      rewrite Hl in Hrun. rewrite Hrun. clear Hrun.
      destruct (Process.processing_outcome rq);
        [destruct (fst (Process.extractTaxData rt rq d _))|].
      * unfold Closed.respond, Closed.broken, Closed.world.
        repeat match goal with
               | |- context [match ?x with _ => _ end] => destruct x
               | |- context [if ?x then _ else _] => destruct x
               end; simpl;
          (repeat split;
           [intros j Hj; now rewrite !lookup_insert_ne by congruence
           |intros d0 Hd0; rewrite Hd in Hd0; injection Hd0 as <-;
            eexists; split; [apply lookup_insert_eq | repeat split]]).
      * match goal with
        | |- context [Closed.failure rq ?d1 ?w0] =>
            destruct (Hfailure d w0 eq_refl eq_refl eq_refl
                        (or_intror eq_refl) d1
                        ltac:(simpl; apply lookup_insert_eq))
              as (H1 & H2 & H3 & H4 & H5)
        end.
        repeat (split; [assumption|]).
        intros d0 Hd0. rewrite Hd in Hd0. injection Hd0 as <-.
        exact H5.
      * destruct (Hfailure d w eq_refl eq_refl eq_refl (or_introl eq_refl)
                    d Hd) as (H1 & H2 & H3 & H4 & H5).
        repeat (split; [assumption|]).
        intros d0 Hd0. rewrite Hd in Hd0. injection Hd0 as <-.
        exact H5.
    + rewrite Hrun. simpl. repeat split. intros d Hd. exists d. auto 10.
Qed.

Lemma POST_frame_witness :
  exists d',
    documents (snd (Process.POST Samples.runtime Samples.process_request
                      Samples.world)) !! "d1" = Some d'
    /\ filePath d' = "/tmp/uploads/documents/0001.pdf"
    /\ documentType d' = "W2".
Proof.
  destruct (POST_frame Samples.runtime Samples.process_request Samples.world)
    as (_ & _ & _ & _ & H).
  destruct (H Samples.uploaded eq_refl)
    as (d' & Hd & _ & _ & _ & _ & _ & Hp & Ht).
  exists d'. split; [exact Hd|]. split; [exact Hp | exact Ht].
Defined.

(** ** The number of chunks *)

Lemma slices_count (size : nat) (s : string) :
  (0 < size)%nat ->
  length (Spec.slices (String.length s) size s)
  = ((String.length s + size - 1) / size)%nat.
Proof.
  intros Hsize.
  set (L := length (Spec.slices (String.length s) size s)).
  assert (Hup : (String.length s <= L * size)%nat).
  { destruct (Nat.le_gt_cases (String.length s) (L * size)) as [H|H];
      [exact H|].
    pose proof (slices_length (String.length s) size s L Hsize
                  (Nat.le_refl _) H). subst L. lia. }
  assert (Hlo : (L = 0 \/ (L - 1) * size < String.length s)%nat).
  { destruct L as [|n] eqn:EL; [now left | right].
    destruct (nth_error (Spec.slices (String.length s) size s) n)
      as [c|] eqn:En.
    - apply (slices_nth _ _ _ _ _ Hsize (Nat.le_refl _)) in En.
      destruct En as [_ En]. simpl. now rewrite Nat.sub_0_r.
    - apply nth_error_None in En. fold L in En. lia. }
  apply Nat.div_unique with (r := (String.length s + size - 1 - size * L)%nat);
    destruct Hlo as [H0 | Hlo]; nia.
Qed.

(** X13. The loop of the response stream enqueues one event for every
    started hundred of characters of the serialized result: none for an
    empty text, and [(n + 99) / 100] for a text of [n] characters, unless
    the consumer cancels the stream before; then the loop fails with a
    TypeError at the first event that no longer goes out. *)
Theorem send_chunks_count (rt : Runtime) (rq : Process.Request) (s : string)
    (w : World) :
  let run := Process.send_chunks rt rq (String.length s) s 0 w in
  let n := ((String.length s + 99) / 100)%nat in
  exists sent,
    snd run = with_enqueued (enqueued w ++ sent)%list w
    /\ match Process.cancel_after rq with
       | Some k =>
           if (k - length (enqueued w) <? n)%nat
           then fst run
                = Throw (TypeError
                           "Invalid state: Controller is already closed")
                /\ length sent = (k - length (enqueued w))%nat
           else fst run = Ok tt /\ length sent = n
       | None => fst run = Ok tt /\ length sent = n
       end.
Proof.
  intros run n. subst run. rewrite send_chunks_run.
  assert (Hn : length (map (Spec.chunk_event rt)
                         (Spec.slices (String.length s) Process.chunkSize
                            (Spec.drop 0 s))) = n).
  { rewrite length_map. change (Spec.drop 0 s) with s.
    rewrite (slices_count Process.chunkSize s)
      by (unfold Process.chunkSize; lia).
    unfold Process.chunkSize. subst n. f_equal. lia. }
  cbv zeta. rewrite Hn.
  destruct (Process.cancel_after rq) as [k|];
    [destruct (Nat.ltb_spec (k - length (enqueued w)) n)|];
    eexists; (split; [reflexivity|]); (split; [reflexivity|]);
    try exact Hn.
  rewrite length_take, Hn. lia.
Qed.

(** ** What an upload stores *)

Section UploadRecord.
Import Upload.

Lemma POST_owner_run (rq : Request) (w : World) (file : File) :
  Spec.upload_owner rq w file ->
  In (type file) Spec.supported_types ->
  (size file <= 10 * Spec.MiB)%N ->
  mkdir_outcome rq = Ok tt ->
  writeFile_outcome rq = Ok tt ->
  forall taxReturn,
    form_taxReturnId rq = Some taxReturn ->
    let path :=
      "/tmp/uploads/documents" +:+ "/" +:+ uuid rq +:+ "."
      +:+ JsString.after_last_dot (name file) in
    let document :=
      {| id := fresh_id rq; taxReturnId := taxReturn;
         fileName := name file; fileType := type file;
         fileSize := size file; filePath := path;
         documentType := determineDocumentType (name file);
         processingStatus := PENDING; ocrText := None;
         extractedData := None |} in
    POST rq w
    = match create_outcome rq with
      | Ok _ =>
          (Ok (JsonResponse 200 (DocumentBody document)),
           {| users := users w; taxReturns := taxReturns w;
              documents := <[fresh_id rq := document]> (documents w);
              files := <[path := content file]> (files w);
              enqueued := enqueued w;
              trace := (trace w
                        ++ [DirectoryMade "/tmp/uploads/documents";
                            FileWritten path;
                            DocumentCreated (fresh_id rq) PENDING])%list |})
      | Throw _ =>
          (Ok (JsonResponse 500 (ErrorBody "Internal server error")),
           {| users := users w; taxReturns := taxReturns w;
              documents := documents w;
              files := <[path := content file]> (files w);
              enqueued := enqueued w;
              trace := (trace w
                        ++ [DirectoryMade "/tmp/uploads/documents";
                            FileWritten path;
                            Logged "Document upload error:"])%list |})
      end.
Proof.
  intros (email & user & t & tr & Hs & He & Hu & Hf & Ht & Hte & Htr & Ho)
    Htype Hsize Hm Hw taxReturn Htax path document.
  rewrite Ht in Htax. injection Htax as <-.
  apply String.eqb_neq in He, Hte.
  apply array_includes_In in Htype. apply N.ltb_ge in Hsize.
  change (10 * Spec.MiB)%N with size_limit in Hsize.
  change Spec.supported_types with allowedTypes in Htype.
  unfold POST, try_catch, error_response. rewrite Hs, He, Hf, Ht, Hte.
  unfold bind at 1, Prisma.user_findUnique at 1. rewrite Hu.
  unfold bind at 1, Prisma.taxReturn_findFirst at 1.
  rewrite Htr, Ho, String.eqb_refl, Htype, Hsize. simpl negb. cbv iota.
  unfold mkdir, writeFile, document_create. rewrite Hm, Hw.
  unfold bind, lift, emit, get_world, set_files, set_documents, ret,
    with_trace, with_files, with_documents.
  destruct (create_outcome rq); simpl; rewrite <- ?app_assoc; reflexivity.
Qed.

End UploadRecord.

(** X14. A successful upload stores the file under
    [/tmp/uploads/documents/<uuid>.<extension of the name>] and creates one
    Document that records the name, type and size of the file, that path,
    the inferred document type, the status PENDING and no extraction yet;
    users, tax returns, the other documents and the other files stay as
    they are. *)
Theorem upload_record (rq : Upload.Request) (w : World) (file : Upload.File) :
  Spec.upload_owner rq w file ->
  In (Upload.type file) Spec.supported_types ->
  (Upload.size file <= 10 * Spec.MiB)%N ->
  Upload.mkdir_outcome rq = Ok tt ->
  Upload.writeFile_outcome rq = Ok tt ->
  Upload.create_outcome rq = Ok tt ->
  let w' := snd (Upload.POST rq w) in
  exists document,
    fst (Upload.POST rq w) = Ok (JsonResponse 200 (DocumentBody document))
    /\ documents w' !! Upload.fresh_id rq = Some document
    /\ id document = Upload.fresh_id rq
    /\ Upload.form_taxReturnId rq = Some (taxReturnId document)
    /\ fileName document = Upload.name file
    /\ fileType document = Upload.type file
    /\ fileSize document = Upload.size file
    /\ filePath document
       = "/tmp/uploads/documents/" +:+ Upload.uuid rq +:+ "."
         +:+ JsString.after_last_dot (Upload.name file)
    /\ files w' !! filePath document = Some (Upload.content file)
    /\ documentType document
       = Upload.determineDocumentType (Upload.name file)
    /\ processingStatus document = PENDING
    /\ ocrText document = None
    /\ extractedData document = None
    /\ users w' = users w
    /\ taxReturns w' = taxReturns w
    /\ (forall j, j <> Upload.fresh_id rq ->
          documents w' !! j = documents w !! j)
    /\ (forall p, p <> filePath document -> files w' !! p = files w !! p).
Proof.
  intros Ho Htype Hsize Hm Hw Hc w'. subst w'.
  destruct Ho as (email & user & t & Ho').
  assert (Ho : Spec.upload_owner rq w file) by (exists email, user, t; exact Ho').
  destruct Ho' as (tr & _ & _ & _ & _ & Ht & _).
  rewrite (POST_owner_run rq w file Ho Htype Hsize Hm Hw t Ht), Hc.
  eexists. split; [reflexivity|]. cbn [fst snd documents files users
    taxReturns id taxReturnId fileName fileType fileSize filePath ocrText
    extractedData documentType processingStatus].
  split; [apply lookup_insert_eq|]. repeat split; try exact Ht.
  - apply lookup_insert_eq.
  - intros j Hj. now apply lookup_insert_ne.
  - intros p Hp. now apply lookup_insert_ne.
Qed.

Lemma upload_record_witness :
  exists document,
    documents (snd (Upload.POST (Samples.upload_w2 4 (Ok tt))
                      Samples.world)) !! "d2" = Some document
    /\ filePath document = "/tmp/uploads/documents/0002.pdf"
    /\ fileName document = "My-W2-2023.pdf".
Proof.
  destruct (upload_record (Samples.upload_w2 4 (Ok tt)) Samples.world
              (Samples.w2_file 4) (sample_upload_owner 4 (Ok tt))
              (or_introl eq_refl) ltac:(discriminate) eq_refl eq_refl
              eq_refl)
    as (document & _ & Hd & _ & _ & Hn & _ & _ & Hp & _).
  exists document. split; [exact Hd|]. split; [exact Hp | exact Hn].
Defined.

(** X15. When the insert fails after the file was written, the upload is
    answered with the generic 500 and no Document exists, but the file
    stays in storage: the route does not remove it. *)
Theorem upload_orphan_file (rq : Upload.Request) (w : World)
    (file : Upload.File) (e : exn) :
  Spec.upload_owner rq w file ->
  In (Upload.type file) Spec.supported_types ->
  (Upload.size file <= 10 * Spec.MiB)%N ->
  Upload.mkdir_outcome rq = Ok tt ->
  Upload.writeFile_outcome rq = Ok tt ->
  Upload.create_outcome rq = Throw e ->
  let w' := snd (Upload.POST rq w) in
  fst (Upload.POST rq w)
  = Ok (JsonResponse 500 (ErrorBody "Internal server error"))
  /\ documents w' = documents w
  /\ files w'
     !! ("/tmp/uploads/documents/" +:+ Upload.uuid rq +:+ "."
         +:+ JsString.after_last_dot (Upload.name file))
     = Some (Upload.content file).
Proof.
  intros Ho Htype Hsize Hm Hw Hc w'. subst w'.
  destruct Ho as (email & user & t & Ho').
  assert (Ho : Spec.upload_owner rq w file) by (exists email, user, t; exact Ho').
  destruct Ho' as (tr & _ & _ & _ & _ & Ht & _).
  rewrite (POST_owner_run rq w file Ho Htype Hsize Hm Hw t Ht), Hc.
  repeat split. apply lookup_insert_eq.
Qed.

Lemma upload_orphan_file_witness :
  files (snd (Upload.POST Samples.upload_w2_rejected Samples.world))
  !! "/tmp/uploads/documents/0002.pdf" = Some "%PDF"
  /\ documents (snd (Upload.POST Samples.upload_w2_rejected Samples.world))
     = documents Samples.world.
Proof.
  destruct (upload_orphan_file Samples.upload_w2_rejected Samples.world
              (Samples.w2_file 4) (Rejected "Foreign key constraint"))
    as (_ & Hd & Hf); try reflexivity.
  - exists "alice@example.org", Samples.alice, "t1",
      {| taxReturn_id := "t1"; taxReturn_userId := "u1" |}.
    repeat split; try reflexivity; discriminate.
  - simpl. auto.
  - discriminate.
  - split; [exact Hf | exact Hd].
Defined.

(** ** From upload to processing *)

Lemma POST_owner_final (rt : Runtime) (rq : Process.Request) (w : World)
    (d : Document) :
  Spec.owner_request rq w d ->
  exists d',
    documents (snd (Process.POST rt rq w)) !! Process.params_id rq = Some d'
    /\ (Process.failed_outcome rq = Ok tt ->
        processingStatus d' = COMPLETED \/ processingStatus d' = FAILED)
    /\ documentType d' = documentType d.
Proof.
  intros Ho. destruct (POST_owner rt rq w d Ho) as (new & _ & _ & Hrun).
  pose proof Ho as (? & ? & ? & _ & _ & _ & Hd & _).
  rewrite Hrun. clear Hrun.
  unfold Closed.failure, Closed.respond, Closed.broken, Closed.world.
  destruct (Process.failed_outcome rq) as [[]|e].
  - repeat match goal with
           | |- context [match ?x with _ => _ end] => destruct x
           | |- context [if ?x then _ else _] => destruct x
           end; simpl;
      (eexists; split; [apply lookup_insert_eq|]; simpl; auto).
  - repeat match goal with
           | |- context [match ?x with _ => _ end] => destruct x
           | |- context [if ?x then _ else _] => destruct x
           end; simpl;
      (eexists; split; [first [apply lookup_insert_eq | exact Hd]|]; simpl;
       split; [discriminate | reflexivity]).
Qed.

(** X16. After a successful upload, a process request of the same session
    for the new document is a request of its owner: the document is found
    with status PENDING, and after the attempt the type of the document
    is still the one inferred from the file name; when the store takes
    the update to FAILED, the attempt ends with the status COMPLETED or
    FAILED. *)
Theorem upload_then_process (rt : Runtime) (rq : Upload.Request)
    (prq : Process.Request) (w : World) (file : Upload.File) :
  Spec.upload_owner rq w file ->
  In (Upload.type file) Spec.supported_types ->
  (Upload.size file <= 10 * Spec.MiB)%N ->
  Upload.mkdir_outcome rq = Ok tt ->
  Upload.writeFile_outcome rq = Ok tt ->
  Upload.create_outcome rq = Ok tt ->
  Process.session_email prq = Upload.session_email rq ->
  Process.params_id prq = Upload.fresh_id rq ->
  let w1 := snd (Upload.POST rq w) in
  exists document d',
    documents w1 !! Upload.fresh_id rq = Some document
    /\ processingStatus document = PENDING
    /\ Spec.owner_request prq w1 document
    /\ documents (snd (Process.POST rt prq w1)) !! Upload.fresh_id rq
       = Some d'
    /\ documentType d' = Upload.determineDocumentType (Upload.name file)
    /\ (Process.failed_outcome prq = Ok tt ->
        processingStatus d' = COMPLETED \/ processingStatus d' = FAILED).
Proof.
  intros Ho Htype Hsize Hm Hw Hc Hs Hi w1. subst w1.
  destruct Ho as (email & user & t & Ho').
  assert (Ho : Spec.upload_owner rq w file) by (exists email, user, t; exact Ho').
  destruct Ho' as (tr & Hse & He & Hu & _ & Ht & _ & Htr & Hown).
  rewrite (POST_owner_run rq w file Ho Htype Hsize Hm Hw t Ht), Hc.
  cbn [snd].
  match goal with
  | |- context [<[Upload.fresh_id rq := ?doc]> (documents w)] =>
      set (document := doc)
  end.
  match goal with
  | |- context [Process.POST rt prq ?w0] => set (w1 := w0)
  end.
  assert (Howner : Spec.owner_request prq w1 document).
  { exists email, user, tr. rewrite Hs, Hi.
    repeat split; auto. subst w1. simpl. apply lookup_insert_eq. }
  destruct (POST_owner_final rt prq w1 document Howner)
    as (d' & Hd' & Hst & Hty).
  exists document, d'. rewrite <- Hi.
  split; [rewrite Hi; subst w1; simpl; apply lookup_insert_eq|].
  split; [reflexivity|]. split; [exact Howner|].
  split; [exact Hd'|]. split; [exact Hty | exact Hst].
Qed.

Lemma upload_then_process_witness :
  exists d',
    documents
      (snd (Process.POST Samples.runtime Samples.process_request_d2
              (snd (Upload.POST (Samples.upload_w2 4 (Ok tt))
                      Samples.world)))) !! "d2" = Some d'
    /\ (processingStatus d' = COMPLETED \/ processingStatus d' = FAILED)
    /\ documentType d' = "W2".
Proof.
  destruct (upload_then_process Samples.runtime
              (Samples.upload_w2 4 (Ok tt)) Samples.process_request_d2
              Samples.world (Samples.w2_file 4)
              (sample_upload_owner 4 (Ok tt)) (or_introl eq_refl)
              ltac:(discriminate) eq_refl eq_refl eq_refl eq_refl eq_refl)
    as (document & d' & _ & _ & _ & Hd & Hty & Hst).
  exists d'. split; [exact Hd|]. split; [exact (Hst eq_refl) | exact Hty].
Defined.

(** ** The handlers of the what-if component *)

Section ScenarioHandlers.
Import WhatIf.

Lemma filter_fresh (i : string) (l : list CustomScenario) :
  Forall (fun s => id s <> i) l ->
  List.filter (fun s => negb (String.eqb (id s) i)) l = l.
Proof.
  induction 1 as [|s l Hs _ IH]; [reflexivity|].
  simpl. apply String.eqb_neq in Hs. rewrite Hs. simpl. now rewrite IH.
Qed.

Lemma filter_added (i : string) (l : list CustomScenario)
    (s : CustomScenario) :
  Forall (fun s => id s <> i) l -> id s = i ->
  List.filter (fun s => negb (String.eqb (id s) i)) (l ++ [s]) = l.
Proof.
  intros Hl Hs. rewrite List.filter_app, (filter_fresh i l Hl). simpl.
  rewrite Hs, String.eqb_refl. simpl. apply app_nil_r.
Qed.

End ScenarioHandlers.

(** X17. Removing the scenario that was just added gives back the list of
    scenarios as it was, for the form and for the quick calculation, when
    no scenario of the list carries the identifier the clock gives; a form
    that is not filled in adds nothing. *)
Theorem scenario_add_remove (parseFloat : string -> Q) (now : N)
    (toLocaleString : Q -> string) (st : WhatIf.State) :
  Forall (fun s => WhatIf.id s <> JsString.of_N now
                   /\ WhatIf.id s <> "quick-" +:+ JsString.of_N now)
    (WhatIf.customScenarios st) ->
  WhatIf.customScenarios
    (WhatIf.handleRemoveCustomScenario (JsString.of_N now)
       (WhatIf.handleAddCustomScenario parseFloat now st))
  = WhatIf.customScenarios st
  /\ WhatIf.customScenarios
       (WhatIf.handleRemoveCustomScenario ("quick-" +:+ JsString.of_N now)
          (WhatIf.handleQuickCalculation parseFloat now toLocaleString st))
     = WhatIf.customScenarios st
  /\ (WhatIf.new_name (WhatIf.newScenario st) = ""
      \/ WhatIf.new_additionalAmount (WhatIf.newScenario st) = "" ->
      WhatIf.handleAddCustomScenario parseFloat now st = st)
  /\ (WhatIf.quickAmount st = "" ->
      WhatIf.handleQuickCalculation parseFloat now toLocaleString st = st).
Proof.
  intros Hfresh.
  assert (H1 : Forall (fun s => WhatIf.id s <> JsString.of_N now)
                 (WhatIf.customScenarios st)).
  { eapply List.Forall_impl; [|exact Hfresh]. now intros s [H _]. }
  assert (H2 : Forall (fun s => WhatIf.id s <> "quick-" +:+ JsString.of_N now)
                 (WhatIf.customScenarios st)).
  { eapply List.Forall_impl; [|exact Hfresh]. now intros s [_ H]. }
  unfold WhatIf.handleAddCustomScenario, WhatIf.handleQuickCalculation,
    WhatIf.handleRemoveCustomScenario.
  split; [|split; [|split]].
  - destruct (_ || _); cbn [WhatIf.customScenarios].
    + now apply filter_fresh.
    + now apply filter_added.
  - destruct (String.eqb (WhatIf.quickAmount st) "");
      cbn [WhatIf.customScenarios].
    + now apply filter_fresh.
    + now apply filter_added.
  - intros [H|H]; rewrite H; [reflexivity|].
    now rewrite orb_true_r.
  - intros H. now rewrite H.
Qed.

Lemma scenario_add_remove_witness :
  WhatIf.customScenarios
    (WhatIf.handleRemoveCustomScenario "1700000000000"
       (WhatIf.handleAddCustomScenario (fun _ => 2000%Q) 1700000000000
          Samples.filled_state))
  = [Samples.charity_5000].
Proof.
  refine (proj1 (scenario_add_remove (fun _ => 2000%Q) 1700000000000
                   (fun _ => "750") Samples.filled_state _)).
  repeat constructor; discriminate.
Defined.

(** X18. After a scenario is removed, the calculations are the baseline
    entries followed by the entries of the scenarios that stay, in their
    order: exactly the entries computed for the removed identifier are
    gone. *)
Theorem removal_drops_its_calculations (Dependent : Type)
    (calculateDeductionComparison :
       Q -> string -> Q -> list Dependent -> WhatIf.DeductionComparison)
    (calculateTaxImpactScenarios :
       Q -> string -> Q -> list Dependent -> list WhatIf.Calculation)
    (toLocaleString : Q -> string)
    (props : WhatIf.Props Dependent) (i : string) (st : WhatIf.State) :
  let calculations :=
    WhatIf.calculations calculateDeductionComparison
      calculateTaxImpactScenarios toLocaleString props in
  let base := WhatIf.baseScenarios calculateTaxImpactScenarios props in
  calculations
    (WhatIf.customScenarios (WhatIf.handleRemoveCustomScenario i st))
  = (base
     ++ List.filter
          (fun c => negb (bool_decide (WhatIf.calculation_id c = Some i)))
          (skipn (length base) (calculations (WhatIf.customScenarios st))))%list.
Proof.
  intros calculations base. subst calculations base.
  unfold WhatIf.calculations, WhatIf.handleRemoveCustomScenario.
  cbn [WhatIf.customScenarios]. f_equal.
  rewrite skipn_app, Nat.sub_diag, skipn_all, skipn_O. cbn [app].
  induction (WhatIf.customScenarios st) as [|s l IH]; [reflexivity|].
  cbn [List.filter map WhatIf.customCalculation WhatIf.calculation_id].
  destruct (String.eqb (WhatIf.id s) i) eqn:E.
  - apply String.eqb_eq in E.
    rewrite bool_decide_eq_true_2 by congruence. simpl. exact IH.
  - apply String.eqb_neq in E.
    rewrite bool_decide_eq_false_2 by congruence. simpl. now rewrite IH.
Qed.

(** ** The page that uploads and processes a document *)

Section Page.
Import DocumentProcessor.

Variable rt : Runtime.
Variable String_of : js -> string.

Lemma append_assoc (a b c : string) : (a +:+ b) +:+ c = a +:+ (b +:+ c).
Proof. induction a as [|x a IH]; simpl; [reflexivity | now rewrite IH]. Qed.

Lemma append_nil_r (a : string) : a +:+ "" = a.
Proof. induction a as [|x a IH]; simpl; [reflexivity | now rewrite IH]. Qed.

Lemma concat_app (l1 l2 : list string) :
  Spec.concat (l1 ++ l2) = Spec.concat l1 +:+ Spec.concat l2.
Proof.
  induction l1 as [|x l1 IH]; simpl; [reflexivity|].
  now rewrite IH, append_assoc.
Qed.

Lemma split_cons (c : ascii) (s : string) :
  exists first others, split c s = first :: others.
Proof.
  induction s as [|a s (first & others & IH)]; simpl; [eauto|].
  destruct (Ascii.eqb a c); [eauto|]. rewrite IH. eauto.
Qed.

Lemma split_app (c : ascii) (s1 s2 : string) :
  split c (s1 +:+ String c s2) = (split c s1 ++ split c s2)%list.
Proof.
  induction s1 as [|a s1 IH]; simpl.
  - now rewrite Ascii.eqb_refl.
  - destruct (Ascii.eqb a c); [now rewrite IH|].
    rewrite IH. destruct (split_cons c s1) as (first & others & ->).
    reflexivity.
Qed.

Lemma includes_char (c a : ascii) (s : string) :
  JsString.includes (String a s) (String c "")
  = Ascii.eqb a c || JsString.includes s (String c "").
Proof.
  cbn [JsString.includes]. f_equal. cbn [String.prefix].
  destruct (ascii_dec c a) as [<-|H].
  - rewrite Ascii.eqb_refl. now destruct s.
  - symmetry. apply Ascii.eqb_neq. congruence.
Qed.

Lemma split_none (c : ascii) (s : string) :
  JsString.includes s (String c "") = false -> split c s = [s].
Proof.
  induction s as [|a s IH]; [reflexivity|].
  rewrite includes_char. intros H. apply orb_false_elim in H as [Ha Hs].
  simpl. rewrite Ha, (IH Hs). reflexivity.
Qed.

Lemma prefix_append (p t : string) : String.prefix p (p +:+ t) = true.
Proof.
  induction p as [|a p IH]; simpl; [now destruct t|].
  destruct (ascii_dec a a); [exact IH | congruence].
Qed.

Lemma prefix_split (p s : string) :
  String.prefix p s = true -> exists t, s = p +:+ t.
Proof.
  revert s; induction p as [|a p IH]; intros s.
  - intros _. now exists s.
  - destruct s as [|b s]; [discriminate|]. simpl.
    destruct (ascii_dec a b) as [<-|]; [|discriminate].
    intros H. destruct (IH s H) as (t & ->). now exists t.
Qed.

Lemma substring_all (s : string) : String.substring 0 (String.length s) s = s.
Proof. induction s as [|a s IH]; simpl; [reflexivity | now rewrite IH]. Qed.

Lemma slice_append (p t : string) :
  JsString.slice (p +:+ t) (String.length p) (String.length (p +:+ t)) = t.
Proof.
  unfold JsString.slice. rewrite Nat.min_id.
  replace (String.length (p +:+ t) - String.length p)%nat
    with (String.length t).
  - induction p as [|a p IH]; simpl; [apply substring_all | exact IH].
  - induction p as [|a p IH]; simpl; [lia | exact IH].
Qed.

(** *** One line *)

Lemma on_line_data (buffer : string) (p : N) (state : ProcessingState)
    (data : string) :
  on_line rt String_of buffer p state ("data: " +:+ data)
  = if String.eqb data "[DONE]" then Spec.done_step rt buffer state
    else
      match
        match JSON_parse rt (JStr data) with
        | Ok parsed => Js.prop parsed "content"
        | Throw e => Throw e
        end
      with
      | Ok content =>
          Continue (buffer +:+ to_text String_of content)
            (N.min 95 (p + 5)) (Spec.analyzing (N.min 95 (p + 5)) state)
      | Throw _ => Continue buffer p state
      end.
Proof.
  unfold on_line. rewrite prefix_append.
  change 6%nat with (String.length "data: "). rewrite slice_append.
  reflexivity.
Qed.

Lemma on_line_other (buffer : string) (p : N) (state : ProcessingState)
    (line : string) :
  String.prefix "data: " line = false ->
  on_line rt String_of buffer p state line = Continue buffer p state.
Proof. intros H. unfold on_line. now rewrite H. Qed.

Lemma on_line_chunk (buffer : string) (p : N) (state : ProcessingState)
    (c : string) :
  Spec.envelope_ok rt c = true ->
  on_line rt String_of buffer p state
    ("data: " +:+ JSON_stringify rt (JObj [("content", JStr c)]))
  = Continue (buffer +:+ c) (N.min 95 (p + 5))
      (Spec.analyzing (N.min 95 (p + 5)) state).
Proof.
  unfold Spec.envelope_ok. intros H.
  apply andb_prop in H as [H Hdone]. apply andb_prop in H as [Hparse _].
  rewrite on_line_data. apply negb_true_iff in Hdone. rewrite Hdone.
  destruct (JSON_parse rt _) as [parsed|]; [|discriminate].
  destruct (Js.prop parsed "content") as [[| | | |c'| |]|]; try discriminate.
  apply String.eqb_eq in Hparse. subst c'. reflexivity.
Qed.

Lemma for_lines_app (l1 l2 : list string) (buffer : string) (p : N)
    (state : ProcessingState) :
  for_lines rt String_of (l1 ++ l2) buffer p state
  = match for_lines rt String_of l1 buffer p state with
    | Continue buffer p state => for_lines rt String_of l2 buffer p state
    | other => other
    end.
Proof.
  revert buffer p state; induction l1 as [|line l1 IH]; intros; simpl;
    [reflexivity|].
  destruct (on_line rt String_of buffer p state line); auto.
Qed.

(** *** The events of the server *)

Lemma state_after_add (n m : nat) (p : N) (state : ProcessingState) :
  Spec.state_after (n + m) p state
  = Spec.state_after m (Spec.progress_after n p) (Spec.state_after n p state).
Proof.
  revert p state; induction n as [|n IH]; intros; simpl; [reflexivity|].
  apply IH.
Qed.

Lemma progress_after_add (n m : nat) (p : N) :
  Spec.progress_after (n + m) p
  = Spec.progress_after m (Spec.progress_after n p).
Proof. revert p; induction n as [|n IH]; intros; simpl; auto. Qed.

Lemma state_after_page (n : nat) (p : N) (state : ProcessingState) :
  Spec.same_page state (Spec.state_after n p state).
Proof.
  revert p state; induction n as [|n IH]; intros; simpl.
  - repeat split.
  - destruct (IH (N.min 95 (p + 5))
                (Spec.analyzing (N.min 95 (p + 5)) state))
      as (H1 & H2 & H3 & H4 & H5 & H6).
    simpl in H1, H2, H3, H4, H5, H6. repeat split; assumption.
Qed.

Lemma completed_page (s s' : ProcessingState) (data : js) :
  Spec.same_page s s' -> Spec.completed s' data = Spec.completed s data.
Proof.
  intros (H1 & H2 & H3 & H4 & H5 & H6). unfold Spec.completed.
  now rewrite H1, H2, H5.
Qed.

Lemma failed_page (s s' : ProcessingState) (e : exn) :
  Spec.same_page s s' -> failed e s' = failed e s.
Proof.
  intros (H1 & H2 & H3 & H4 & H5 & H6). unfold failed.
  now rewrite H1, H5, H6.
Qed.

Lemma for_lines_events (cs : list string) (rest : string) (buffer : string)
    (p : N) (state : ProcessingState) :
  forallb (Spec.envelope_ok rt) cs = true ->
  for_lines rt String_of
    (split (ascii_of_nat 10)
       (Spec.concat (map (Spec.chunk_event rt) cs) +:+ rest))
    buffer p state
  = for_lines rt String_of (split (ascii_of_nat 10) rest)
      (buffer +:+ Spec.concat cs)
      (Spec.progress_after (length cs) p)
      (Spec.state_after (length cs) p state).
Proof.
  revert buffer p state; induction cs as [|c cs IH]; intros buffer p state H.
  - simpl. now rewrite append_nil_r.
  - simpl in H. apply andb_prop in H as [Hc Hcs].
    cbn [map Spec.concat length Spec.progress_after Spec.state_after].
    unfold Spec.chunk_event at 1. unfold Process.newline.
    rewrite !append_assoc.
    match goal with
    | |- for_lines _ _ (split _ ?s) _ _ _ = _ =>
        change s
          with (("data: " +:+ JSON_stringify rt (JObj [("content", JStr c)]))
                +:+ String (ascii_of_nat 10)
                      (String (ascii_of_nat 10)
                         (Spec.concat (map (Spec.chunk_event rt) cs)
                          +:+ rest)))
    end.
    rewrite split_app.
    assert (Hline :
      split (ascii_of_nat 10)
        ("data: " +:+ JSON_stringify rt (JObj [("content", JStr c)]))
      = ["data: " +:+ JSON_stringify rt (JObj [("content", JStr c)])]).
    { apply split_none. unfold Spec.envelope_ok in Hc.
      apply andb_prop in Hc as [Hc _]. apply andb_prop in Hc as [_ Hc].
      apply negb_true_iff in Hc.
      cbn [String.append]. rewrite !includes_char. exact Hc. }
    rewrite Hline. cbn [app for_lines]. rewrite (on_line_chunk _ _ _ _ Hc).
    cbn [split]. rewrite Ascii.eqb_refl. cbn [for_lines].
    rewrite on_line_other by reflexivity.
    rewrite (IH _ _ _ Hcs). now rewrite append_assoc.
Qed.

Lemma for_lines_empty (buffer : string) (p : N) (state : ProcessingState) :
  for_lines rt String_of (split (ascii_of_nat 10) "") buffer p state
  = Continue buffer p state.
Proof. reflexivity. Qed.

Lemma read_loop_events (groups : list (list string)) :
  forall (cs : list string) (later : list string) (ending : result unit)
         (buffer : string) (p : N) (state : ProcessingState),
  forallb (Spec.envelope_ok rt) cs = true ->
  List.concat groups = map (Spec.chunk_event rt) cs ->
  read_loop rt String_of (map Spec.concat groups ++ later) ending
    buffer p state
  = read_loop rt String_of later ending (buffer +:+ Spec.concat cs)
      (Spec.progress_after (length cs) p)
      (Spec.state_after (length cs) p state).
Proof.
  induction groups as [|g groups IH]; intros cs later ending buffer p state
    Hok Hcat.
  - simpl in Hcat. symmetry in Hcat. apply map_eq_nil in Hcat. subst cs.
    simpl. now rewrite append_nil_r.
  - simpl in Hcat. symmetry in Hcat.
    apply List.map_eq_app in Hcat as (cs1 & cs2 & -> & Hg & Hgs).
    rewrite forallb_app in Hok. apply andb_prop in Hok as [Hok1 Hok2].
    cbn [map app read_loop]. rewrite <- Hg.
    rewrite <- (append_nil_r (Spec.concat (map _ cs1))).
    rewrite (for_lines_events cs1 "" _ _ _ Hok1), for_lines_empty.
    rewrite (IH cs2 later ending _ _ _ Hok2 (eq_sym Hgs)).
    rewrite concat_app, length_app, progress_after_add, state_after_add.
    now rewrite append_assoc.
Qed.

Lemma read_loop_done (groups : list (list string)) :
  forall (cs more : list string) (ending : result unit)
         (buffer : string) (p : N) (state : ProcessingState),
  forallb (Spec.envelope_ok rt) cs = true ->
  List.concat groups
  = (map (Spec.chunk_event rt) cs ++ Spec.done_event :: more)%list ->
  read_loop rt String_of (map Spec.concat groups) ending buffer p state
  = Spec.done_step rt (buffer +:+ Spec.concat cs)
      (Spec.state_after (length cs) p state).
Proof.
  induction groups as [|g groups IH]; intros cs more ending buffer p state
    Hok Hcat.
  - simpl in Hcat. now destruct cs.
  - simpl in Hcat. apply List.app_eq_app in Hcat as (l & [[Hg Hl]|[Hg Hl]]).
    + destruct l as [|e l].
      * simpl in Hl. rewrite app_nil_r in Hg. subst g.
        cbn [map read_loop].
        rewrite <- (append_nil_r (Spec.concat (map _ cs))).
        rewrite (for_lines_events cs "" _ _ _ Hok), for_lines_empty.
        rewrite <- (app_nil_l (map Spec.concat groups)) at 1.
        change (@nil string) with (map Spec.concat []) at 1.
        rewrite <- map_app. 
        rewrite (IH [] more ending _ _ _ eq_refl (eq_sym Hl)).
        simpl. now rewrite append_nil_r.
      * injection Hl as <- Hl. subst g.
        cbn [map read_loop]. rewrite concat_app.
        rewrite (for_lines_events cs _ _ _ _ Hok).
        cbn [Spec.concat]. unfold Spec.done_event at 1, Process.newline.
        rewrite !append_assoc.
        change ("data: [DONE]" +:+ String (ascii_of_nat 10) ""
                +:+ String (ascii_of_nat 10) "" +:+ Spec.concat l)
          with ("data: [DONE]"
                +:+ String (ascii_of_nat 10)
                      (String (ascii_of_nat 10) (Spec.concat l))).
        rewrite split_app.
        change (split (ascii_of_nat 10) "data: [DONE]")
          with ["data: [DONE]"].
        cbn [app for_lines].
        change "data: [DONE]" with ("data: " +:+ "[DONE]") at 1.
        rewrite on_line_data. cbn [String.eqb Ascii.eqb Bool.eqb].
        unfold Spec.done_step.
        destruct (JSON_parse rt _); reflexivity.
    + apply List.map_eq_app in Hg as (cs1 & cs2 & -> & Hg & Hl').
      rewrite forallb_app in Hok. apply andb_prop in Hok as [Hok1 Hok2].
      cbn [map read_loop]. rewrite <- Hg.
      rewrite <- (append_nil_r (Spec.concat (map _ cs1))).
      rewrite (for_lines_events cs1 "" _ _ _ Hok1), for_lines_empty.
      rewrite <- Hl' in Hl.
      rewrite (IH cs2 more ending _ _ _ Hok2 Hl).
      rewrite concat_app, length_app, state_after_add.
      now rewrite append_assoc.
Qed.

End Page.

Section PageInvariant.
Import DocumentProcessor.

Variable rt : Runtime.
Variable String_of : js -> string.

Lemma on_line_cases (buffer : string) (p : N) (state : ProcessingState)
    (line : string) :
  on_line rt String_of buffer p state line = Continue buffer p state
  \/ (exists c,
        on_line rt String_of buffer p state line
        = Continue (buffer +:+ c) (N.min 95 (p + 5))
            (Spec.analyzing (N.min 95 (p + 5)) state))
  \/ (line = "data: [DONE]"
      /\ on_line rt String_of buffer p state line
         = Spec.done_step rt buffer state).
Proof.
  destruct (String.prefix "data: " line) eqn:Hp.
  - apply prefix_split in Hp as (data & ->). rewrite on_line_data.
    destruct (String.eqb data "[DONE]") eqn:Hd.
    + apply String.eqb_eq in Hd. subst data. right. right. auto.
    + destruct (JSON_parse rt (JStr data)) as [parsed|]; [|auto].
      destruct (Js.prop parsed "content") as [content|]; [|auto].
      right. left. eauto.
  - left. now apply on_line_other.
Qed.

Lemma reading_step (s0 : ProcessingState) (p : N) (state : ProcessingState) :
  Spec.reading s0 p state ->
  Spec.reading s0 (N.min 95 (p + 5)) (Spec.analyzing (N.min 95 (p + 5)) state).
Proof.
  intros ((H1 & H2 & H3 & H4 & H5 & H6) & Hp & _).
  split; [repeat split; assumption|]. split; [lia | reflexivity].
Qed.

Lemma for_lines_reading (s0 : ProcessingState) (lines : list string) :
  forall (buffer : string) (p : N) (state : ProcessingState),
  Spec.reading s0 p state ->
  match for_lines rt String_of lines buffer p state with
  | Continue _ p' state' => Spec.reading s0 p' state'
  | Return state' data =>
      In "data: [DONE]" lines /\ state' = Spec.completed s0 data
  | Raise e state' =>
      In "data: [DONE]" lines
      /\ e = Error "Failed to parse extracted data"
      /\ Spec.same_page s0 state'
  end.
Proof.
  induction lines as [|line lines IH]; intros buffer p state Hr;
    [exact Hr|].
  cbn [for_lines].
  destruct (on_line_cases buffer p state line)
    as [-> | [(c & ->) | (-> & ->)]].
  - specialize (IH buffer p state Hr).
    destruct (for_lines rt String_of lines buffer p state);
      simpl; intuition.
  - specialize (IH (buffer +:+ c) _ _ (reading_step _ _ _ Hr)).
    destruct (for_lines rt String_of lines _ _ _); simpl; intuition.
  - unfold Spec.done_step. destruct Hr as (Hpage & _).
    destruct (JSON_parse rt (JStr buffer)) as [data|].
    + split; [now left|]. now apply completed_page.
    + split; [now left|]. split; [reflexivity | exact Hpage].
Qed.

Lemma read_loop_reading (s0 : ProcessingState) (ending : result unit)
    (body : list string) :
  forall (buffer : string) (p : N) (state : ProcessingState),
  Spec.reading s0 p state ->
  match read_loop rt String_of body ending buffer p state with
  | Continue _ p' state' => Spec.reading s0 p' state' /\ ending = Ok tt
  | Return state' data =>
      Spec.has_done body = true /\ state' = Spec.completed s0 data
  | Raise e state' =>
      Spec.same_page s0 state'
      /\ (ending = Throw e
          \/ (Spec.has_done body = true
              /\ e = Error "Failed to parse extracted data"))
  end.
Proof.
  induction body as [|chunk body IH]; intros buffer p state Hr.
  - simpl. destruct ending as [[]|e]; [auto|].
    split; [apply Hr | now left].
  - cbn [read_loop].
    pose proof (for_lines_reading s0 (split (ascii_of_nat 10) chunk)
                  buffer p state Hr) as Hl.
    assert (Hin : In "data: [DONE]" (split (ascii_of_nat 10) chunk) ->
                  Spec.has_done (chunk :: body) = true).
    { intros Hin. unfold Spec.has_done. cbn [existsb].
      apply orb_true_iff. left. apply existsb_exists.
      exists "data: [DONE]". split; [exact Hin | reflexivity]. }
    destruct (for_lines rt String_of _ buffer p state) as [b' p' s'| |].
    + specialize (IH b' p' s' Hl).
      destruct (read_loop rt String_of body ending b' p' s');
        [exact IH| |].
      * destruct IH as [Hd ->]. split; [|reflexivity].
        unfold Spec.has_done in *. cbn [existsb]. rewrite Hd.
        apply orb_true_r.
      * destruct IH as [Hpage [He | [Hd He]]]; (split; [exact Hpage|]);
          [now left | right]. split; [|exact He].
        unfold Spec.has_done in *. cbn [existsb]. rewrite Hd.
        apply orb_true_r.
    + destruct Hl as [Hd ->]. auto.
    + destruct Hl as (Hd & -> & Hpage). split; [exact Hpage|]. right. auto.
Qed.

Lemma reading_start (state : ProcessingState) :
  progress state = 50%N -> Spec.reading state 50 state.
Proof. intros H. split; [repeat split|]. split; [lia | exact H]. Qed.

End PageInvariant.

(** X19. The page decodes the stream. When the body arrives in reads made
    of whole events, and holds the events of chunks whose envelopes survive
    the transport followed by the end marker, the page parses the
    concatenation of the chunks: it ends completed with the parsed value as
    extracted data and hands it to [onDocumentProcessed], and ends in error
    with 'Failed to parse extracted data' when that text is not JSON.
    Events after the end marker are not read. *)
Theorem stream_decoding (rt : Runtime) (String_of : js -> string)
    (fetched : DocumentProcessor.Fetched)
    (state : DocumentProcessor.ProcessingState)
    (calls : list DocumentProcessor.Callback)
    (chunks : list string) (groups : list (list string))
    (more : list string) :
  DocumentProcessor.ok fetched = true ->
  DocumentProcessor.reads fetched = Some (map Spec.concat groups) ->
  List.concat groups
  = (map (Spec.chunk_event rt) chunks ++ Spec.done_event :: more)%list ->
  forallb (Spec.envelope_ok rt) chunks = true ->
  DocumentProcessor.read_response rt String_of fetched state calls
  = match JSON_parse rt (JStr (Spec.concat chunks)) with
    | Ok data =>
        (Spec.completed state data,
         (calls ++ [DocumentProcessor.onDocumentProcessed data])%list)
    | Throw _ =>
        (DocumentProcessor.failed (Error "Failed to parse extracted data")
           state, calls)
    end.
Proof.
  intros Hok Hreads Hcat Henv. unfold DocumentProcessor.read_response.
  rewrite Hok, Hreads. cbn [negb].
  rewrite (read_loop_done rt String_of groups chunks more _ _ _ _ Henv Hcat).
  unfold Spec.done_step. cbn [String.append].
  destruct (JSON_parse rt (JStr (Spec.concat chunks))) as [data|e].
  - now rewrite (completed_page state _ data (state_after_page _ _ _)).
  - now rewrite (failed_page state _ _ (state_after_page _ _ _)).
Qed.

Lemma stream_decoding_witness :
  DocumentProcessor.read_response Samples.browser_runtime (fun _ => "")
    (Samples.fetched_stream Samples.sent_events (Ok tt))
    Samples.selected_state []
  = (Spec.completed Samples.selected_state Samples.llm_parsed,
     [DocumentProcessor.onDocumentProcessed Samples.llm_parsed]).
Proof.
  exact (stream_decoding Samples.browser_runtime (fun _ => "")
           (Samples.fetched_stream Samples.sent_events (Ok tt))
           Samples.selected_state []
           (Spec.chunks (Samples.stringify Samples.llm_parsed))
           (map (fun e => [e]) Samples.sent_events) []
           eq_refl eq_refl eq_refl eq_refl).
Defined.



(** X21. Whatever the network answers, [processDocument] on a selected
    file never leaves the page uploading, and leaves it in one of three
    states: completed with progress 100, in error with progress 0, or
    still processing with a progress from 50 to 95, which is what happens
    when the body ends without the end marker. *)
Theorem processDocument_states (rt : Runtime) (String_of : js -> string)
    (network : DocumentProcessor.Network) (taxReturnId : string)
    (state : DocumentProcessor.ProcessingState) (f : Upload.File) :
  DocumentProcessor.file state = Some f ->
  let final :=
    fst (DocumentProcessor.processDocument rt String_of network taxReturnId
           state) in
  DocumentProcessor.uploading final = false
  /\ DocumentProcessor.file final = Some f
  /\ ((DocumentProcessor.status final = "completed"
       /\ DocumentProcessor.progress final = 100%N
       /\ DocumentProcessor.processing final = false)
      \/ (DocumentProcessor.status final = "error"
          /\ DocumentProcessor.progress final = 0%N
          /\ DocumentProcessor.processing final = false)
      \/ (DocumentProcessor.status final = "processing"
          /\ (50 <= DocumentProcessor.progress final <= 95)%N
          /\ DocumentProcessor.processing final = true)).
Proof.
  intros Hf final. subst final. unfold DocumentProcessor.processDocument.
  rewrite Hf.
  destruct (DocumentProcessor.fetch_upload network f taxReturnId)
    as [uploadResponse|]; [|simpl; auto 10].
  destruct (DocumentProcessor.ok uploadResponse); [|simpl; auto 10].
  cbn [negb].
  destruct (DocumentProcessor.json uploadResponse) as [document|];
    [|simpl; auto 10].
  destruct (Js.prop document "id") as [i|]; [|simpl; auto 10].
  destruct (DocumentProcessor.fetch_process network _)
    as [processResponse|]; [|simpl; auto 10].
  unfold DocumentProcessor.read_response.
  destruct (DocumentProcessor.ok processResponse); [|simpl; auto 10].
  cbn [negb].
  destruct (DocumentProcessor.reads processResponse) as [body|].
  2:{ simpl. split; [reflexivity|]. split; [reflexivity|]. right. right.
      split; [reflexivity|]. split; [lia | reflexivity]. }
  match goal with
  | |- context [DocumentProcessor.read_loop _ _ _ ?e _ _ ?s] =>
      pose proof (read_loop_reading rt String_of s e body "" 50 s
                    (reading_start s eq_refl)) as Hl;
      destruct (DocumentProcessor.read_loop rt String_of body e "" 50 s)
        as [b' p' s'|s' data|e' s']
  end.
  - destruct Hl as [((H1 & H2 & H3 & H4 & _) & Hp & Hq) _].
    cbn [fst]. rewrite H1, H2, H3, H4, Hq. simpl.
    split; [reflexivity|]. split; [reflexivity|]. right. right. auto.
  - destruct Hl as [_ ->]. simpl. auto 10.
  - destruct Hl as [(H1 & _) _]. simpl. rewrite H1. simpl. auto 10.
Qed.

Lemma processDocument_states_witness :
  let final :=
    fst (DocumentProcessor.processDocument Samples.browser_runtime
           (fun _ => "")
           (Samples.network
              (map (Spec.chunk_event Samples.browser_runtime)
                 (Spec.chunks (Samples.stringify Samples.llm_parsed)))
              (Ok tt))
           "t1" Samples.selected_state) in
  DocumentProcessor.uploading final = false
  /\ DocumentProcessor.file final = Some (Samples.w2_file 4)
  /\ ((DocumentProcessor.status final = "completed"
       /\ DocumentProcessor.progress final = 100%N
       /\ DocumentProcessor.processing final = false)
      \/ (DocumentProcessor.status final = "error"
          /\ DocumentProcessor.progress final = 0%N
          /\ DocumentProcessor.processing final = false)
      \/ (DocumentProcessor.status final = "processing"
          /\ (50 <= DocumentProcessor.progress final <= 95)%N
          /\ DocumentProcessor.processing final = true)).
Proof.
  exact (processDocument_states Samples.browser_runtime (fun _ => "")
           (Samples.network
              (map (Spec.chunk_event Samples.browser_runtime)
                 (Spec.chunks (Samples.stringify Samples.llm_parsed)))
              (Ok tt))
           "t1" Samples.selected_state (Samples.w2_file 4) eq_refl).
Defined.

(** ** The page and the process route together *)

(** A response stream that a page reads to its end: all the chunks, and
    the end marker exactly when the store took the result. *)
Lemma respond_delivered (rt : Runtime) (rq : Process.Request)
    (etd : ExtractedTaxData) (d : Document) (t : list Event) (w : World)
    (response : Response) (fetched : DocumentProcessor.Fetched) :
  fst (Closed.respond rt rq etd d t w) = Ok response ->
  Spec.delivers response fetched ->
  let sent :=
    map (Spec.chunk_event rt) (Spec.chunks (Process.jsonResponse rt etd)) in
  response
  = match Process.save_outcome rq with
    | Ok _ => StreamResponse 200 (sent ++ [Spec.done_event])%list Closed
    | Throw _ => StreamResponse 200 sent Errored
    end.
Proof.
  intros Hresp Hdel sent. revert Hresp.
  unfold Closed.respond, Closed.broken, Process.cancelled. fold sent.
  destruct (Process.cancel_after rq) as [k|];
    [rewrite ?length_take;
     destruct (Nat.ltb_spec k (length sent));
     [destruct (Nat.leb_spec k (Nat.min k (length sent))); [|lia]|]|];
    destruct (Process.save_outcome rq);
    repeat match goal with
           | |- context [if ?x then _ else _] => destruct x
           end; simpl; intros [= <-]; try reflexivity;
    destruct Hdel as [_ []].
Qed.

(** What the owner is answered, when the session and the look-ups
    answer. *)
Lemma POST_owner_response (rt : Runtime) (rq : Process.Request) (w : World)
    (d : Document) (response : Response)
    (fetched : DocumentProcessor.Fetched) :
  Spec.owner_request rq w d ->
  Spec.lookup_failure rq w = None ->
  fst (Process.POST rt rq w) = Ok response ->
  Spec.delivers response fetched ->
  response
  = match Process.processing_outcome rq,
          fst (Process.extractTaxData rt rq d w) with
    | Ok _, Ok etd =>
        let sent :=
          map (Spec.chunk_event rt)
            (Spec.chunks (Process.jsonResponse rt etd)) in
        match Process.save_outcome rq with
        | Ok _ => StreamResponse 200 (sent ++ [Spec.done_event])%list Closed
        | Throw _ => StreamResponse 200 sent Errored
        end
    | _, _ => Spec.internal_error
    end.
Proof.
  intros Ho Hl Hresp Hdel.
  destruct (POST_owner rt rq w d Ho) as (new & _ & _ & Hrun).
  match type of Hrun with
  | context [Process.extractTaxData rt rq d ?w1] =>
      rewrite (extractTaxData_files rt rq d w1 w eq_refl) in Hrun
  end.
  rewrite Hl in Hrun. rewrite Hrun in Hresp. clear Hrun.
  unfold Closed.failure in Hresp.
  destruct (Process.processing_outcome rq);
    [destruct (fst (Process.extractTaxData rt rq d w))|].
  - exact (respond_delivered rt rq _ _ _ _ response fetched Hresp Hdel).
  - destruct (Process.failed_outcome rq); [|discriminate].
    now injection Hresp as <-.
  - destruct (Process.failed_outcome rq); [|discriminate].
    destruct (fst (Process.extractTaxData rt rq d w));
      now injection Hresp as <-.
Qed.

Lemma concat_chunks (s : string) : Spec.concat (Spec.chunks s) = s.
Proof.
  unfold Spec.chunks. apply concat_slices; [|lia].
  unfold Process.chunkSize. lia.
Qed.

(** X22. The page shows what the route extracted. When the session and
    the look-ups answer, the store takes the updates of the attempt of
    the owner, the extraction succeeds, the envelopes of the chunks of
    the serialized result survive the transport, and the page reads the
    stream to its end, in reads of whole events, the page parses the
    serialized result of the route: it ends completed with that value as
    extracted data, handed to [onDocumentProcessed]; if the text does not
    parse, it ends in error. *)
Theorem page_shows_extraction (rt : Runtime) (String_of : js -> string)
    (rq : Process.Request) (w : World) (d : Document)
    (etd : ExtractedTaxData) (response : Response)
    (fetched : DocumentProcessor.Fetched)
    (state : DocumentProcessor.ProcessingState)
    (calls : list DocumentProcessor.Callback) :
  Spec.owner_request rq w d ->
  Spec.answers rq ->
  Process.processing_outcome rq = Ok tt ->
  fst (Process.extractTaxData rt rq d w) = Ok etd ->
  Process.save_outcome rq = Ok tt ->
  forallb (Spec.envelope_ok rt) (Spec.chunks (Process.jsonResponse rt etd))
  = true ->
  fst (Process.POST rt rq w) = Ok response ->
  Spec.delivers response fetched ->
  DocumentProcessor.read_response rt String_of fetched state calls
  = match JSON_parse rt (JStr (Process.jsonResponse rt etd)) with
    | Ok data =>
        (Spec.completed state data,
         (calls ++ [DocumentProcessor.onDocumentProcessed data])%list)
    | Throw _ =>
        (DocumentProcessor.failed (Error "Failed to parse extracted data")
           state, calls)
    end.
Proof.
  intros Ho Ha Hprocessing Hx Hsave Henv Hresp Hdel.
  pose proof (POST_owner_response rt rq w d response fetched Ho
                (proj2 (owner_lookup_failure rq w d Ho) Ha) Hresp Hdel)
    as Hr.
  rewrite Hprocessing, Hx, Hsave in Hr. cbn zeta in Hr. subst response.
  destruct Hdel as (Hok & (groups & Hcat & Hreads) & Hend).
  unfold DocumentProcessor.read_response.
  rewrite Hok, Hreads. cbn [Spec.ok_status N.leb N.compare Pos.compare
                             Pos.compare_cont andb negb].
  rewrite (read_loop_done rt String_of groups _ [] _ _ _ _ Henv Hcat).
  unfold Spec.done_step. cbn [String.append]. rewrite concat_chunks.
  destruct (JSON_parse rt (JStr (Process.jsonResponse rt etd))) as [data|e].
  - now rewrite (completed_page state _ data (state_after_page _ _ _)).
  - now rewrite (failed_page state _ _ (state_after_page _ _ _)).
Qed.

Lemma page_shows_extraction_witness :
  DocumentProcessor.read_response Samples.browser_runtime (fun _ => "")
    (Samples.fetched_stream [Spec.concat Samples.sent_events] (Ok tt))
    Samples.selected_state []
  = (Spec.completed Samples.selected_state Samples.llm_parsed,
     [DocumentProcessor.onDocumentProcessed Samples.llm_parsed]).
Proof.
  refine (page_shows_extraction Samples.browser_runtime (fun _ => "")
            Samples.process_request Samples.world Samples.uploaded _
            (StreamResponse 200 Samples.sent_events Closed)
            (Samples.fetched_stream [Spec.concat Samples.sent_events]
               (Ok tt))
            Samples.selected_state [] sample_owner
            (sample_answers _ _ _ _ _ _ _ _ _) eq_refl eq_refl eq_refl
            eq_refl eq_refl _).
  split; [reflexivity|]. split; [|reflexivity].
  exists [Samples.sent_events]. split; reflexivity.
Defined.

(** X23. The page reports every attempt that does not succeed. Unless the
    request is the owner's, the extraction succeeds and the result is
    stored, the page ends in error and [onDocumentProcessed] is not called:
    with the message 'Failed to process document' when the route answers
    with an error status, and with the failure of the read when the stream
    was put in error after the chunks. *)
Theorem page_reports_failure (rt : Runtime) (String_of : js -> string)
    (rq : Process.Request) (w : World) (response : Response)
    (fetched : DocumentProcessor.Fetched)
    (state : DocumentProcessor.ProcessingState)
    (calls : list DocumentProcessor.Callback) :
  fst (Process.POST rt rq w) = Ok response ->
  Spec.delivers response fetched ->
  ~ (exists d etd,
        Spec.owner_request rq w d
        /\ fst (Process.extractTaxData rt rq d w) = Ok etd
        /\ Process.save_outcome rq = Ok tt) ->
  (forall d etd,
      Spec.owner_request rq w d ->
      fst (Process.extractTaxData rt rq d w) = Ok etd ->
      forallb (Spec.envelope_ok rt)
        (Spec.chunks (Process.jsonResponse rt etd)) = true) ->
  exists e,
    DocumentProcessor.read_response rt String_of fetched state calls
    = (DocumentProcessor.failed e state, calls)
    /\ match response with
       | JsonResponse _ _ => e = Error "Failed to process document"
       | StreamResponse _ _ _ => DocumentProcessor.ending fetched = Throw e
       end.
Proof.
  intros Hresp Hdel Hnot Henv.
  assert (Hjson : forall st body,
             response = JsonResponse st body ->
             Spec.ok_status st = false ->
             exists e,
               DocumentProcessor.read_response rt String_of fetched state
                 calls
               = (DocumentProcessor.failed e state, calls)
               /\ match response with
                  | JsonResponse _ _ => e = Error "Failed to process document"
                  | StreamResponse _ _ _ =>
                      DocumentProcessor.ending fetched = Throw e
                  end).
  { intros st body -> Hst. simpl in Hdel. rewrite Hst in Hdel.
    exists (Error "Failed to process document"). split; [|reflexivity].
    unfold DocumentProcessor.read_response. now rewrite Hdel. }
  pose proof (POST_cases rt rq w) as Hcases.
  destruct (Spec.lookup_failure rq w) as [e0|] eqn:Hl.
  { rewrite Hcases in Hresp. apply failure_response in Hresp.
    now apply (Hjson 500%N (ErrorBody "Internal server error")). }
  destruct Hcases as [[d Ho] | (st & m & Hrun & Hin)].
  - pose proof (POST_owner_response rt rq w d response fetched Ho Hl Hresp
                  Hdel) as Hr.
    specialize (Henv d).
    destruct (Process.processing_outcome rq) as [[]|];
      [|now apply (Hjson 500%N (ErrorBody "Internal server error"))].
    destruct (fst (Process.extractTaxData rt rq d w)) as [etd|] eqn:Hx;
      [|now apply (Hjson 500%N (ErrorBody "Internal server error"))].
    cbn zeta in Hr.
    destruct (Process.save_outcome rq) as [[]|e1] eqn:Hsave.
    { exfalso. apply Hnot. exists d, etd. auto. }
    subst response.
    destruct Hdel as (Hok & (groups & lost & Hcat & Hreads) & (e & Hend)).
    exists e. split; [|exact Hend].
    unfold DocumentProcessor.read_response.
    rewrite Hok, Hreads, Hend.
    cbn [Spec.ok_status N.leb N.compare Pos.compare Pos.compare_cont
         andb negb].
    symmetry in Hcat.
    apply List.map_eq_app in Hcat as (cs1 & cs2 & Hcs & Hcat & _).
    specialize (Henv etd Ho eq_refl). rewrite Hcs, forallb_app in Henv.
    apply andb_prop in Henv as [Henv _].
    rewrite <- (app_nil_r (map Spec.concat groups)).
    rewrite (read_loop_events rt String_of groups cs1 [] _ _ _ _
               Henv (eq_sym Hcat)).
    cbn [DocumentProcessor.read_loop].
    now rewrite (failed_page state _ _ (state_after_page _ _ _)).
  - rewrite Hrun in Hresp. injection Hresp as <-.
    apply (Hjson st (ErrorBody m)); [reflexivity|].
    destruct Hin as [H|[H|[H|[]]]]; injection H as <- _; reflexivity.
Qed.

Lemma page_reports_failure_witness :
  exists e,
    DocumentProcessor.read_response Samples.browser_runtime (fun _ => "")
      (Samples.fetched_stream
         (map (Spec.chunk_event Samples.browser_runtime)
            (Spec.chunks (Samples.stringify Samples.llm_parsed)))
         (Throw (TypeError "network error")))
      Samples.selected_state []
    = (DocumentProcessor.failed e Samples.selected_state, [])
    /\ Throw (TypeError "network error") = Throw (A := unit) e.
Proof.
  refine (page_reports_failure Samples.browser_runtime (fun _ => "")
            Samples.process_request_unsaved Samples.world
            (StreamResponse 200
               (map (Spec.chunk_event Samples.browser_runtime)
                  (Spec.chunks (Samples.stringify Samples.llm_parsed)))
               Errored)
            (Samples.fetched_stream
               (map (Spec.chunk_event Samples.browser_runtime)
                  (Spec.chunks (Samples.stringify Samples.llm_parsed)))
               (Throw (TypeError "network error")))
            Samples.selected_state [] eq_refl _ _ _).
  - split; [reflexivity|]. split; [|eexists; reflexivity].
    exists (map (fun e => [e])
              (map (Spec.chunk_event Samples.browser_runtime)
                 (Spec.chunks (Samples.stringify Samples.llm_parsed)))), [].
    split; reflexivity.
  - intros (d & etd & _ & _ & H). discriminate H.
  - intros d etd (email & user & t & _ & _ & _ & Hd & _) Hx.
    vm_compute in Hd. injection Hd as <-.
    vm_compute in Hx. injection Hx as <-. reflexivity.
Defined.

(** ** The uploaded file and the primary provider *)

Section ProviderRequest.
Import JsString.

Lemma getMimeType_stored (directory uuid name : string) :
  DocumentAI.getMimeType
    (directory +:+ "/" +:+ uuid +:+ "." +:+ after_last_dot name)
  = DocumentAI.getMimeType name.
Proof.
  unfold DocumentAI.getMimeType. rewrite !after_last_dot_lower.
  replace (directory +:+ "/" +:+ uuid +:+ "." +:+ after_last_dot name)
    with ((directory +:+ "/" +:+ uuid) +:+ "." +:+ after_last_dot name)
    by now rewrite !append_assoc.
  now rewrite (after_last_dot_app _ _ (after_last_dot_no_dot name)).
Qed.

End ProviderRequest.

(** X24. What the upload route stored is what the primary provider
    receives: for a document created by a successful upload, the request
    of [processDocument] names the processor of the inferred document
    type, carries the base64 encoding of the uploaded content, and
    declares the mime type of the extension of the uploaded name, not the
    type the upload declared; the outcome is the transformation of the
    reply, the error 'No document returned from processing' when the reply
    holds no document, and the failure of the provider otherwise. *)
Theorem provider_receives_upload (rt : Runtime) (client : DocumentAI.Client)
    (config : DocumentAI.DocumentAIConfig) (rq : Upload.Request)
    (w : World) (file : Upload.File) (processorName : string) :
  Spec.upload_owner rq w file ->
  In (Upload.type file) Spec.supported_types ->
  (Upload.size file <= 10 * Spec.MiB)%N ->
  Upload.mkdir_outcome rq = Ok tt ->
  Upload.writeFile_outcome rq = Ok tt ->
  Upload.create_outcome rq = Ok tt ->
  DocumentAI.getProcessorName config
    (Upload.determineDocumentType (Upload.name file)) = Ok processorName ->
  let w1 := snd (Upload.POST rq w) in
  exists document,
    documents w1 !! Upload.fresh_id rq = Some document
    /\ fst (DocumentAI.processDocument rt client config (filePath document)
              (documentType document) w1)
       = match
           client
             {| DocumentAI.request_name := processorName;
                DocumentAI.request_content :=
                  base64 rt (Upload.content file);
                DocumentAI.request_mimeType :=
                  DocumentAI.getMimeType (Upload.name file) |}
         with
         | Ok (Some reply) =>
             DocumentAI.transformToTaxData reply (documentType document)
         | Ok None => Throw (Error "No document returned from processing")
         | Throw e => Throw e
         end.
Proof.
  intros Ho Htype Hsize Hm Hw Hc Hname w1. subst w1.
  pose proof Ho as (email & user & t & tr & _ & _ & _ & _ & Ht & _).
  rewrite (POST_owner_run rq w file Ho Htype Hsize Hm Hw t Ht), Hc.
  cbn [snd].
  eexists. split; [simpl; apply lookup_insert_eq|].
  cbn [filePath documentType].
  unfold DocumentAI.processDocument.
  pose proof (getMimeType_stored "/tmp/uploads/documents" (Upload.uuid rq)
                (Upload.name file)) as Hmime.
  cbn [String.append] in Hmime. rewrite Hmime.
  unfold try_catch, emit, bind, lift, throw, Fs.readFile.
  cbn [fst snd]. rewrite Hname. cbn [fst snd files with_trace].
  rewrite lookup_insert_eq. cbn [fst snd].
  destruct (client _) as [[reply|]|e]; cbn [fst snd]; [|reflexivity..].
  now destruct (DocumentAI.transformToTaxData reply _).
Qed.

Lemma provider_receives_upload_witness :
  exists document,
    documents
      (snd (Upload.POST (Samples.upload_w2 4 (Ok tt)) Samples.world))
    !! "d2" = Some document
    /\ fst (DocumentAI.processDocument Samples.runtime
              (fun request =>
                 if String.eqb (DocumentAI.request_mimeType request)
                      "application/pdf"
                 then Ok None else Throw (Rejected "INVALID_ARGUMENT"))
              Samples.config_without_1099 (filePath document)
              (documentType document)
              (snd (Upload.POST (Samples.upload_w2 4 (Ok tt))
                      Samples.world)))
       = Throw (Error "No document returned from processing").
Proof.
  exact (provider_receives_upload Samples.runtime
           (fun request =>
              if String.eqb (DocumentAI.request_mimeType request)
                   "application/pdf"
              then Ok None else Throw (Rejected "INVALID_ARGUMENT"))
           Samples.config_without_1099 (Samples.upload_w2 4 (Ok tt))
           Samples.world (Samples.w2_file 4)
           "projects/p/locations/us/processors/w2"
           (sample_upload_owner 4 (Ok tt)) (or_introl eq_refl)
           ltac:(discriminate) eq_refl eq_refl eq_refl eq_refl).
Defined.
